(** * mypyc/build.py: extension assembly and linkage

    A shallow embedding of [mypyc/build.py] (the [mypycify] entry point and
    the helpers it calls) together with the properties of the build plan.

    Conventions of the embedding.
    - A Python [str] is a [string]: the sequence of bytes of its UTF-8
      encoding, so that [s.encode()] is the identity on the representation.
      Every separator the code searches for ('.', ',', '/', '{', '}') is
      ASCII, hence splitting, joining and replacing act alike on code points
      and on bytes.
    - [os.path] is [posixpath], the implementation on Linux and macOS hosts;
      paths are therefore written with ['/'].
    - An [assert] is executed: the interpreter does not run with [-O].
    - Mutable Python objects that the code shares (the [mypy_options] list,
      the extension objects) live in a store and are named by locations.
    - A call either returns a value or raises; the world it leaves behind is
      kept in both cases. *)

From Stdlib Require Import ZArith Ascii String List Bool Lia.
From stdpp Require Import base option list gmap strings.

Local Open Scope string_scope.
Local Open Scope Z_scope.
Local Open Scope list_scope.

(** ** Python string primitives *)

Module Py.

(** [sep.join(l)] *)
Fixpoint str_join (sep : string) (l : list string) : string :=
  match l with
  | [] => ""
  | [x] => x
  | x :: rest => x +:+ sep +:+ str_join sep rest
  end.

(** [s.startswith(p)] *)
Definition startswith (s p : string) : bool := String.prefix p s.

(** [sub in s] *)
Fixpoint str_contains (sub s : string) : bool :=
  String.prefix sub s ||
  match s with
  | EmptyString => false
  | String _ s' => str_contains sub s'
  end.

(** [s.endswith(p)] *)
Definition endswith (s p : string) : bool :=
  let n := String.length s in
  let k := String.length p in
  (k <=? n)%nat && String.eqb (substring (n - k) k s) p.

(** [s.split(c)] for a one-character separator [c]: the pieces between
    the occurrences of [c], always at least one piece. *)
Fixpoint split_acc (c : ascii) (cur : string) (s : string) : list string :=
  match s with
  | EmptyString => [String.rev cur]
  | String a s' =>
      if Ascii.eqb a c then String.rev cur :: split_acc c EmptyString s'
      else split_acc c (String a cur) s'
  end.

Definition str_split (c : ascii) (s : string) : list string :=
  split_acc c EmptyString s.

(** Number of occurrences of the character [c]: [s.count(c)]. *)
Fixpoint str_count (c : ascii) (s : string) : nat :=
  match s with
  | EmptyString => 0%nat
  | String a s' => ((if Ascii.eqb a c then 1 else 0) + str_count c s')%nat
  end.

(** [s.replace(old, new)]: the non-overlapping occurrences of [old],
    found from the left, are replaced by [new]. [skip] counts the
    characters of a matched occurrence still to be dropped. With an empty
    [old], [new] is inserted before every character and at the end. *)
Fixpoint replace_from (old new : string) (skip : nat) (s : string) : string :=
  match s with
  | EmptyString => EmptyString
  | String a s' =>
      match skip with
      | S k => replace_from old new k s'
      | O =>
          if String.prefix old s
          then new +:+ replace_from old new (String.length old - 1) s'
          else String a (replace_from old new 0 s')
      end
  end.

Fixpoint interleave (new : string) (s : string) : string :=
  match s with
  | EmptyString => new
  | String a s' => new +:+ String a (interleave new s')
  end.

Definition str_replace (old new : string) (s : string) : string :=
  match old with
  | EmptyString => interleave new s
  | _ => replace_from old new 0 s
  end.

(** [s.rfind(c)] for a one-character [c]: the index of the last
    occurrence, [-1] when there is none. *)
Fixpoint rfind_from (c : ascii) (i : Z) (best : Z) (s : string) : Z :=
  match s with
  | EmptyString => best
  | String a s' => rfind_from c (i + 1) (if Ascii.eqb a c then i else best) s'
  end.

Definition rfind (c : ascii) (s : string) : Z := rfind_from c 0 (-1) s.

(** The slices [s[:i]] and [s[i:]] for [0 <= i]. *)
Definition slice_to (i : Z) (s : string) : string := substring 0 (Z.to_nat i) s.
Definition slice_from (i : Z) (s : string) : string :=
  substring (Z.to_nat i) (String.length s - Z.to_nat i) s.

(** [s.rstrip(c)] for a one-character [c]. *)
Fixpoint lstrip (c : ascii) (s : string) : string :=
  match s with
  | String a s' => if Ascii.eqb a c then lstrip c s' else s
  | EmptyString => EmptyString
  end.

Definition rstrip (c : ascii) (s : string) : string :=
  String.rev (lstrip c (String.rev s)).

(** The bytes of [s.encode()]. *)
Definition encode (s : string) : list Z :=
  map (fun a => Z.of_N (N_of_ascii a)) (list_ascii_of_string s).

End Py.

(** ** hashlib.sha1

    SHA-1 as specified by FIPS 180-4, on 32-bit words carried in [Z]. *)

Module Sha1.

Definition mask32 (x : Z) : Z := Z.land x 0xFFFFFFFF.
Definition add32 (a b : Z) : Z := mask32 (a + b).
Definition rotl (n x : Z) : Z :=
  mask32 (Z.lor (Z.shiftl x n) (Z.shiftr x (32 - n))).
Definition not32 (x : Z) : Z := Z.lxor x 0xFFFFFFFF.

Definition be64 (n : Z) : list Z :=
  map (fun i => Z.land (Z.shiftr n (8 * i)) 255) [7; 6; 5; 4; 3; 2; 1; 0].

(** The message followed by the bit 1, zero bytes up to 56 modulo 64, and
    the length in bits on eight bytes. *)
Definition pad (msg : list Z) : list Z :=
  let l := Z.of_nat (length msg) in
  msg ++ [128] ++ repeat 0 (Z.to_nat ((55 - l) mod 64)) ++ be64 (8 * l).

Fixpoint chunks {A} (n : nat) (fuel : nat) (l : list A) : list (list A) :=
  match fuel with
  | O => []
  | S fuel' =>
      match l with
      | [] => []
      | _ => take n l :: chunks n fuel' (drop n l)
      end
  end.

Definition be32 (bs : list Z) : Z :=
  fold_left (fun acc b => Z.lor (Z.shiftl acc 8) b) bs 0.

Definition block_words (block : list Z) : list Z :=
  map be32 (chunks 4 16 block).

(** The eighty words of the message schedule, produced from a sliding
    window of sixteen. *)
Fixpoint schedule (n : nat) (win : list Z) : list Z :=
  match n with
  | O => []
  | S n' =>
      match win with
      | [] => []
      | w0 :: rest =>
          let nxt := rotl 1 (Z.lxor (Z.lxor (nth 13 win 0) (nth 8 win 0))
                                    (Z.lxor (nth 2 win 0) w0)) in
          w0 :: schedule n' (rest ++ [nxt])
      end
  end.

Definition state : Type := Z * Z * Z * Z * Z.

Definition round (st : state) (tw : nat * Z) : state :=
  let '(a, b, c, d, e) := st in
  let '(t, w) := tw in
  let '(f, k) :=
    if (t <? 20)%nat then
      (Z.lor (Z.land b c) (Z.land (not32 b) d), 0x5A827999)
    else if (t <? 40)%nat then
      (Z.lxor (Z.lxor b c) d, 0x6ED9EBA1)
    else if (t <? 60)%nat then
      (Z.lor (Z.lor (Z.land b c) (Z.land b d)) (Z.land c d), 0x8F1BBCDC)
    else
      (Z.lxor (Z.lxor b c) d, 0xCA62C1D6) in
  let temp := add32 (add32 (add32 (add32 (rotl 5 a) f) e) k) w in
  (temp, a, rotl 30 b, c, d).

Definition compress (h : state) (block : list Z) : state :=
  let ws := schedule 80 (block_words block) in
  let '(a, b, c, d, e) := fold_left round (zip (seq 0 80) ws) h in
  let '(h0, h1, h2, h3, h4) := h in
  (add32 h0 a, add32 h1 b, add32 h2 c, add32 h3 d, add32 h4 e).

Definition init : state :=
  (0x67452301, 0xEFCDAB89, 0x98BADCFE, 0x10325476, 0xC3D2E1F0).

Definition digest (msg : list Z) : state :=
  let p := pad msg in
  fold_left compress (chunks 64 (length p) p) init.

Definition hexdigit (n : Z) : ascii :=
  nth (Z.to_nat n) (list_ascii_of_string "0123456789abcdef") "0"%char.

(** Eight hexadecimal digits of a word, most significant first. *)
Definition hex8 (w : Z) : list ascii :=
  map (fun i => hexdigit (Z.land (Z.shiftr w (4 * i)) 15)) [7; 6; 5; 4; 3; 2; 1; 0].

(** [h = hashlib.sha1(); h.update(data); h.hexdigest()] *)
Definition hexdigest (data : list Z) : string :=
  let '(h0, h1, h2, h3, h4) := digest data in
  string_of_list_ascii (hex8 h0 ++ hex8 h1 ++ hex8 h2 ++ hex8 h3 ++ hex8 h4).

End Sha1.

(** [shared_lib_name]: a probably unique name for a library from a list of
    module names. *)
Definition shared_lib_name (modules : list string) : string :=
  "mypyc_" +:+ Py.slice_to 20 (Sha1.hexdigest (Py.encode (Py.str_join "," modules))).


(** ** os.path (posixpath) *)

Module posixpath.

Definition sep : string := "/".

(** One step of the loop of [join]: [path] joined with the component [b]. *)
Definition join_step (path b : string) : string :=
  if Py.startswith b sep then b
  else if (String.eqb path "" || Py.endswith path sep)%bool then path +:+ b
  else path +:+ sep +:+ b.

(** [os.path.join(a, *p)] *)
Definition join (a : string) (p : list string) : string :=
  fold_left join_step p a.

(** [os.path.split(p)]: the pair [(head, tail)], [tail] being what follows
    the last slash. *)
Definition split (p : string) : string * string :=
  let i := Py.rfind "/" p + 1 in
  let head := Py.slice_to i p in
  let tail := Py.slice_from i p in
  let head :=
    if (negb (String.eqb head "")
        && negb (String.eqb head (Py.str_join "" (repeat sep (String.length head)))))%bool
    then Py.rstrip "/" head else head in
  (head, tail).

(** The loop of [genericpath._splitext] over the characters between the
    last slash and the last dot: an extension is split off as soon as one
    of them is not a dot. *)
Fixpoint has_non_dot (s : string) : bool :=
  match s with
  | EmptyString => false
  | String a s' => if Ascii.eqb a "." then has_non_dot s' else true
  end.

(** [os.path.splitext(p)] *)
Definition splitext (p : string) : string * string :=
  let sepIndex := Py.rfind "/" p in
  let dotIndex := Py.rfind "." p in
  if (sepIndex <? dotIndex)
     && has_non_dot (substring (Z.to_nat (sepIndex + 1))
                               (Z.to_nat (dotIndex - (sepIndex + 1))) p)
  then (Py.slice_to dotIndex p, Py.slice_from dotIndex p)
  else (p, "").

End posixpath.

(** ** Outcomes of calls *)

(** The argument of [sys.exit]: a message, or a status. *)
Inductive exit_arg : Type :=
| ExitMessage (message : string)
| ExitStatus (status : Z).

(** The exceptions that the modelled code and its collaborators raise. *)
Inductive exn : Type :=
| SystemExit (arg : exit_arg)
| CompileError (messages : list string)
| IndexError
| KeyError (key : string)
| ValueError
| TypeError
| AssertionError
| FileExistsError (path : string)
| FileNotFoundError (path : string)
| IsADirectoryError (path : string)
| ExternalError (description : string).

Inductive outcome (A : Type) : Type :=
| Return (a : A)
| Raise (e : exn).

Arguments Return {A} a.
Arguments Raise {A} e.

(** What the interpreter does with an exception nobody catches: the status
    the process exits with. [sys.exit(message)] with a [str] prints the
    message on the standard error stream and exits with status 1; an
    uncaught exception of another class prints a traceback and exits with
    status 1 as well. *)
Definition exit_status (e : exn) : Z :=
  match e with
  | SystemExit (ExitStatus n) => n
  | SystemExit (ExitMessage _) => 1
  | _ => 1
  end.

(** The text that [sys.exit(message)] leaves on the standard error stream. *)
Definition exit_message (e : exn) : option string :=
  match e with
  | SystemExit (ExitMessage m) => Some m
  | _ => None
  end.

(** ** str.format

    Templates are parsed into literal characters and replacement fields;
    [{{] and [}}] stand for the braces themselves. Only plain keyword
    fields are interpreted, which is all that the templates of this module
    contain. *)

Inductive piece : Type :=
| Lit (c : ascii)
| Field (name : string).

Fixpoint parse_format (field : option string) (s : string) : option (list piece) :=
  match s with
  | EmptyString =>
      match field with
      | None => Some []
      | Some _ => None
      end
  | String c s' =>
      match field with
      | Some acc =>
          if Ascii.eqb c "}" then cons (Field (String.rev acc)) <$> parse_format None s'
          else if Ascii.eqb c "{" then None
          else parse_format (Some (String c acc)) s'
      | None =>
          if Ascii.eqb c "{" then
            match s' with
            | String c' s'' =>
                if Ascii.eqb c' "{" then cons (Lit "{") <$> parse_format None s''
                else parse_format (Some EmptyString) s'
            | EmptyString => None
            end
          else if Ascii.eqb c "}" then
            match s' with
            | String c' s'' =>
                if Ascii.eqb c' "}" then cons (Lit "}") <$> parse_format None s''
                else None
            | EmptyString => None
            end
          else cons (Lit c) <$> parse_format None s'
      end
  end.

Fixpoint kwarg (name : string) (kwargs : list (string * string)) : option string :=
  match kwargs with
  | [] => None
  | (k, v) :: rest => if String.eqb k name then Some v else kwarg name rest
  end.

Fixpoint render (ps : list piece) (kwargs : list (string * string)) : outcome string :=
  match ps with
  | [] => Return ""
  | Lit c :: rest =>
      match render rest kwargs with
      | Return s => Return (String c s)
      | Raise e => Raise e
      end
  | Field name :: rest =>
      match kwarg name kwargs with
      | None => Raise (KeyError name)
      | Some v =>
          match render rest kwargs with
          | Return s => Return (v +:+ s)
          | Raise e => Raise e
          end
      end
  end.

(** [template.format] applied to keyword arguments. *)
Definition str_format (template : string) (kwargs : list (string * string)) : outcome string :=
  match parse_format None template with
  | None => Raise ValueError
  | Some ps => render ps kwargs
  end.

(** ** Data of the build *)

(** A location of the store of Python objects. *)
Definition loc : Type := nat.

(** [mypy.build.BuildSource]: the attributes that this module reads. *)
Module BuildSource.
Record t : Type := mk {
  path : option string;
  module : string;
}.
End BuildSource.

(** [mypy.options.Options]: the attributes that this module reads or sets. *)
Module Options.
Record t : Type := mk {
  python_version : Z * Z;
  strict_optional : bool;
  show_traceback : bool;
  export_types : bool;
  incremental : bool;
  per_module_options : gmap string (gmap string bool);
}.
End Options.

(** [mypyc.options.CompilerOptions], as [mypycify] constructs it. *)
Module CompilerOptions.
Record t : Type := mk {
  strip_asserts : bool;
  multi_file : bool;
  verbose : bool;
}.
End CompilerOptions.

(** The compiler object of distutils: [compiler_type] and the command line
    [compiler] of a unix compiler. *)
Module Compiler.
Record t : Type := mk {
  compiler_type : string;
  compiler : list string;
}.
End Compiler.

(** [class MypycifyExtension(Extension)]: an Extension generated by mypyc,
    with the two attributes that the class adds. [mypyc_shared_target]
    refers to another extension object of the store. *)
Module MypycifyExtension.
Record t : Type := mk {
  name : string;
  sources : list string;
  include_dirs : list string;
  extra_compile_args : list string;
  is_mypyc_shared : bool;
  mypyc_shared_target : option loc;
}.
End MypycifyExtension.

(** ** The world *)

Inductive node : Type :=
| Dir
| File (content : string).

(** The file system is a flat map from path names to nodes. Opening a file
    for writing binds its path; permissions and missing parent directories
    are not represented. *)
Record world : Type := World {
  fs : gmap string node;
  lists : gmap loc (list string);
  extensions : gmap loc MypycifyExtension.t;
  config_vars : gmap string string;
  stdout : list string;
}.

Definition set_fs (f : gmap string node -> gmap string node) (w : world) : world :=
  World (f (fs w)) (lists w) (extensions w) (config_vars w) (stdout w).
Definition set_lists (f : gmap loc (list string) -> gmap loc (list string)) (w : world) : world :=
  World (fs w) (f (lists w)) (extensions w) (config_vars w) (stdout w).
Definition set_extensions
  (f : gmap loc MypycifyExtension.t -> gmap loc MypycifyExtension.t) (w : world) : world :=
  World (fs w) (lists w) (f (extensions w)) (config_vars w) (stdout w).
Definition set_config_vars (f : gmap string string -> gmap string string) (w : world) : world :=
  World (fs w) (lists w) (extensions w) (f (config_vars w)) (stdout w).
Definition set_stdout (f : list string -> list string) (w : world) : world :=
  World (fs w) (lists w) (extensions w) (config_vars w) (f (stdout w)).

(** ** Computations: state and exceptions *)

Definition M (A : Type) : Type := world -> outcome A * world.

Definition ret {A} (a : A) : M A := fun w => (Return a, w).

Definition bind {A B} (m : M A) (k : A -> M B) : M B :=
  fun w =>
    match m w with
    | (Return a, w') => k a w'
    | (Raise e, w') => (Raise e, w')
    end.

Definition raise {A} (e : exn) : M A := fun w => (Raise e, w).

Definition lift {A} (o : outcome A) : M A := fun w => (o, w).

Definition gets {A} (f : world -> A) : M A := fun w => (Return (f w), w).

Definition modify (f : world -> world) : M unit := fun w => (Return tt, f w).

(** [try: m except E: handler], [handler e] being [None] for the
    exceptions that the clause does not catch. *)
Definition try_except {A} (m : M A) (handler : exn -> option (M A)) : M A :=
  fun w =>
    match m w with
    | (Raise e, w') =>
        match handler e with
        | Some h => h w'
        | None => (Raise e, w')
        end
    | r => r
    end.

Notation "'let*' x ':=' m 'in' k" := (bind m (fun x => k))
  (at level 10, x pattern, m at level 100, k at level 200).
Notation "m ';;' k" := (bind m (fun _ => k))
  (at level 100, k at level 200, right associativity).

(** [for x in l: s = body s x] *)
Fixpoint for_each {A S} (l : list A) (body : S -> A -> M S) (s : S) : M S :=
  match l with
  | [] => ret s
  | x :: l' => let* s' := body s x in for_each l' body s'
  end.

(** *** Primitives on the world *)

(** [print(line)] *)
Definition print (line : string) : M unit :=
  modify (set_stdout (fun out => out ++ [line])).

(** [os.mkdir(p)] *)
Definition os_mkdir (p : string) : M unit :=
  fun w =>
    match fs w !! p with
    | Some _ => (Raise (FileExistsError p), w)
    | None => (Return tt, set_fs (insert p Dir) w)
    end.

(** [open(p, 'w')]: the file is created, or truncated. *)
Definition open_w (p : string) : M unit :=
  modify (set_fs (insert p (File ""))).

(** [f.write(text)] on the file opened at [p]. *)
Definition f_write (p : string) (text : string) : M unit :=
  fun w =>
    match fs w !! p with
    | Some (File c) => (Return tt, set_fs (insert p (File (c +:+ text))) w)
    | _ => (Raise (FileNotFoundError p), w)
    end.

(** [shutil.copyfile(src, dst)] *)
Definition shutil_copyfile (src dst : string) : M unit :=
  fun w =>
    match fs w !! src with
    | Some (File c) => (Return tt, set_fs (insert dst (File c)) w)
    | Some Dir => (Raise (IsADirectoryError src), w)
    | None => (Raise (FileNotFoundError src), w)
    end.

(** A new list object. *)
Definition new_list (l : list string) : M loc :=
  fun w =>
    let r := fresh (dom (lists w)) in
    (Return r, set_lists (insert r l) w).

(** The elements of the list object at [r]. A name always refers to a live
    object, so the second case is met by no Python program. *)
Definition list_items (r : loc) : M (list string) :=
  fun w =>
    match lists w !! r with
    | Some l => (Return l, w)
    | None => (Raise TypeError, w)
    end.

(** [r.append(x)] *)
Definition list_append (r : loc) (x : string) : M unit :=
  modify (set_lists (alter (fun l => l ++ [x]) r)).

(** [r.extend(xs)] *)
Definition list_extend (r : loc) (xs : list string) : M unit :=
  modify (set_lists (alter (fun l => l ++ xs) r)).

(** [MypycifyExtension(...)]: a new extension object. *)
Definition new_extension (e : MypycifyExtension.t) : M loc :=
  fun w =>
    let r := fresh (dom (extensions w)) in
    (Return r, set_extensions (insert r e) w).

(** ** The collaborators of build.py

    What the module imports and calls without defining it: the platform,
    the location of the package, [glob], mypy's [process_options], mypyc's
    [exported_name] and [emitmodule], the compiler object of distutils and
    the clock. They read the file system and do not change the world. A
    collaborator that fails hands back the exception it raises. *)
Class External : Type := {
  sys_platform : string;
  (** [os.path.abspath(os.path.dirname(__file__))] *)
  module_dir : string;
  glob_glob : gmap string node -> string -> list string;
  process_options :
    gmap string node -> list string -> outcome (list BuildSource.t * Options.t);
  exported_name : string -> string;
  (** [CompilerOptions()], the options built without arguments. *)
  default_compiler_options : CompilerOptions.t;
  BuildResult : Type;
  parse_and_typecheck :
    gmap string node -> list BuildSource.t -> Options.t -> outcome BuildResult;
  (** The texts [(cfile, ctext)] and the lines appended to [ops]. *)
  compile_modules_to_c :
    BuildResult -> list string -> option string -> CompilerOptions.t ->
    outcome (list (string * string) * list string);
  (** [ccompiler.new_compiler()] after [sysconfig.customize_compiler]. *)
  new_compiler : outcome Compiler.t;
  (** The text of ['{:.3f}'.format(t1 - t0)] for the n-th interval measured. *)
  elapsed : nat -> string;
}.

(** ** build.py *)

Definition dq : string := String "034"%char EmptyString.

Definition shim_template_unix : string :=
  "#include <Python.h>

PyObject *CPyInit_{full_modname}(void);

PyMODINIT_FUNC
PyInit_{modname}(void)
{{
    return CPyInit_{full_modname}();
}}
".

Definition shim_template_windows : string :=
  "\
#include <Python.h>
#include <windows.h>
#include <stdlib.h>
#include <stdio.h>

EXTERN_C IMAGE_DOS_HEADER __ImageBase;

typedef PyObject *(__cdecl *INITPROC)();

PyMODINIT_FUNC
PyInit_{modname}(void)
{{
    char path[MAX_PATH];
    char drive[MAX_PATH];
    char directory[MAX_PATH];
    HINSTANCE hinstLib;
    INITPROC proc;

    // get the file name of this dll
    DWORD res = GetModuleFileName((HINSTANCE)&__ImageBase, path, sizeof(path));
    if (res == 0 || res == sizeof(path)) {{
        PyErr_SetString(PyExc_RuntimeError, " +:+ dq +:+
  "GetModuleFileName failed" +:+ dq +:+
  ");
        return NULL;
    }}

    // find the directory this dll is in
    _splitpath(path, drive, directory, NULL, NULL);
    // and use it to construct a path to the shared library
    snprintf(path, sizeof(path), " +:+ dq +:+
  "%s%s%s" +:+ dq +:+
  ", drive, directory, MYPYC_LIBRARY);

    hinstLib = LoadLibrary(path);
    if (!hinstLib) {{
        PyErr_SetString(PyExc_RuntimeError, " +:+ dq +:+
  "LoadLibrary failed" +:+ dq +:+
  ");
        return NULL;
    }}
    proc = (INITPROC)GetProcAddress(hinstLib, " +:+ dq +:+
  "CPyInit_{full_modname}" +:+ dq +:+
  ");
    if (!proc) {{
        PyErr_SetString(PyExc_RuntimeError, " +:+ dq +:+
  "GetProcAddress failed" +:+ dq +:+
  ");
        return NULL;
    }}

    return proc();
}}

// distutils sometimes spuriously tells cl to export CPyInit___init__,
// so provide that so it chills out
PyMODINIT_FUNC PyInit___init__(void) {{ return PyInit_{modname}(); }}
".

Section build.
Context {E : External}.

(** [setup_mypycify_vars]: rewrite a bunch of config vars. [vars] is the
    dictionary of [sysconfig], changed in place. *)
Definition replace_in_var (key old new : string) : M unit :=
  let* vars := gets config_vars in
  match vars !! key with
  | None => raise (KeyError key)
  | Some v => modify (set_config_vars (insert key (Py.str_replace old new v)))
  end.

Definition setup_mypycify_vars : M unit :=
  if String.eqb sys_platform "darwin" then
    replace_in_var "LDSHARED" "-bundle" "-dynamiclib" ;;
    replace_in_var "LDFLAGS" "-arch i386" "" ;;
    replace_in_var "CFLAGS" "-arch i386" ""
  else ret tt.

(** [fail(message)]: [sys.exit(message)]. *)
Definition fail {A} (message : string) : M A :=
  raise (SystemExit (ExitMessage message)).

(** [mypy_options or []]: the list passed when there is one and it is not
    empty, a new empty list otherwise. *)
Definition mypy_options_or_new (mypy_options : option loc) : M loc :=
  match mypy_options with
  | None => new_list []
  | Some r =>
      let* items := list_items r in
      match items with
      | [] => new_list []
      | _ :: _ => ret r
      end
  end.

Definition mark_mypyc (pmo : gmap string (gmap string bool)) (source : BuildSource.t)
  : gmap string (gmap string bool) :=
  let m := BuildSource.module source in
  <[m := <["mypyc" := true]> (default ∅ (pmo !! m))]> pmo.

(** [get_mypy_config]: construct mypy BuildSources and Options from file
    and options lists. *)
Definition get_mypy_config (paths : list string) (mypy_options : option loc)
  : M (list BuildSource.t * Options.t) :=
  let* mypy_options := mypy_options_or_new mypy_options in
  list_append mypy_options "--" ;;
  list_extend mypy_options paths ;;
  let* args := list_items mypy_options in
  let* files := gets fs in
  let* (sources, options) := lift (process_options files args) in
  (if fst (Options.python_version options) =? 2
   then fail "Python 2 not supported" else ret tt) ;;
  (if negb (Options.strict_optional options)
   then fail "Disabling strict optional checking not supported" else ret tt) ;;
  let options :=
    Options.mk (Options.python_version options) (Options.strict_optional options)
      true true false
      (fold_left mark_mypyc sources (Options.per_module_options options)) in
  ret (sources, options).

(** [generate_c_extension_shim]: create a C extension shim with a
    passthrough PyInit function. *)
Definition generate_c_extension_shim (full_module_name module_name dirname : string)
  : M string :=
  let cname := Py.str_replace "." "___" full_module_name +:+ ".c" in
  let cpath := posixpath.join dirname [cname] in
  open_w cpath ;;
  let shim_template :=
    if String.eqb sys_platform "win32" then shim_template_windows else shim_template_unix in
  let* text := lift (str_format shim_template
                       [("modname", module_name);
                        ("full_modname", exported_name full_module_name)]) in
  f_write cpath text ;;
  ret cpath.

(** [include_dir]: the path of the lib-rt dir that needs to be included. *)
Definition include_dir : string := posixpath.join module_dir ["lib-rt"].

(** [generate_c]: drive the actual core compilation step. Returns the C
    source code and the pretty printed IR. *)
Definition generate_c (sources : list BuildSource.t) (options : Options.t)
    (shared_lib_name : option string) (compiler_options : option CompilerOptions.t)
  : M (list (string * string) * string) :=
  let module_names := map BuildSource.module sources in
  let compiler_options := default default_compiler_options compiler_options in
  let* files := gets fs in
  let* result :=
    try_except (lift (parse_and_typecheck files sources options))
      (fun e =>
         match e with
         | CompileError messages =>
             Some (for_each messages (fun _ line => print line) tt ;;
                   fail "Typechecking failure")
         | _ => None
         end) in
  (if CompilerOptions.verbose compiler_options
   then print ("Parsed and typechecked in " +:+ elapsed 0 +:+ "s") else ret tt) ;;
  let* (ctext, ops) :=
    lift (compile_modules_to_c result module_names shared_lib_name compiler_options) in
  (if CompilerOptions.verbose compiler_options
   then print ("Compiled to C in " +:+ elapsed 1 +:+ "s") else ret tt) ;;
  ret (ctext, Py.str_join (String "010"%char EmptyString) ops).

(** The truth value of an optional string: [None] and [''] are false. *)
Definition truthy (s : option string) : bool :=
  match s with
  | None | Some EmptyString => false
  | Some _ => true
  end.

(** [s.split('.')[-1]] *)
Definition last_component (s : string) : string :=
  List.last (Py.str_split "." s) "".

(** The body of the loop of [build_using_shared_lib]: the shim of one
    module. *)
Definition shim_extension (shared_lib : loc) (build_dir : string)
    (extra_compile_args : list string) (extensions : list loc) (source : BuildSource.t)
  : M (list loc) :=
  let module_name := last_component (BuildSource.module source) in
  let* shim_file :=
    generate_c_extension_shim (BuildSource.module source) module_name build_dir in
  let full_module_name := BuildSource.module source in
  match BuildSource.path source with
  | None | Some EmptyString => raise AssertionError
  | Some path =>
      let full_module_name :=
        if String.eqb (snd (posixpath.split path)) "__init__.py"
        then full_module_name +:+ ".__init__" else full_module_name in
      let* ext := new_extension
        (MypycifyExtension.mk full_module_name [shim_file] [] extra_compile_args
           false (Some shared_lib)) in
      ret (extensions ++ [ext])
  end.

(** [build_using_shared_lib]: produce the list of extension modules when a
    shared library is needed. *)
Definition build_using_shared_lib (sources : list BuildSource.t) (lib_name : string)
    (cfiles : list string) (build_dir : string) (extra_compile_args : list string)
  : M (list loc) :=
  let* shared_lib := new_extension
    (MypycifyExtension.mk ("lib" +:+ lib_name) cfiles [include_dir] extra_compile_args
       true None) in
  let extensions := [shared_lib] in
  for_each sources (shim_extension shared_lib build_dir extra_compile_args) extensions.

(** [build_single_module]: produce the list of extension modules for a
    standalone extension. *)
Definition build_single_module (sources : list BuildSource.t) (cfiles : list string)
    (extra_compile_args : list string) : M (list loc) :=
  match sources with
  | [] => raise IndexError
  | source0 :: _ =>
      let* ext := new_extension
        (MypycifyExtension.mk (BuildSource.module source0) cfiles [include_dir]
           extra_compile_args false None) in
      ret [ext]
  end.

(** [len(sources) > 1 or any('.' in x.module for x in sources)] *)
Definition use_shared_lib (sources : list BuildSource.t) : bool :=
  (1 <? length sources)%nat
  || existsb (fun x => Py.str_contains "." (BuildSource.module x)) sources.

(** The compiler flags that [mypycify] derives from the compiler object. *)
Definition cflags_for (compiler : Compiler.t) (opt_level : string) (multi_file : bool)
  : M (list string) :=
  let cflags := [] in
  if String.eqb (Compiler.compiler_type compiler) "unix" then
    let cflags := cflags ++
      ["-O" +:+ opt_level; "-Werror"; "-Wno-unused-function"; "-Wno-unused-label";
       "-Wno-unreachable-code"; "-Wno-unused-variable"; "-Wno-trigraphs";
       "-Wno-unused-command-line-argument"] in
    match Compiler.compiler compiler with
    | [] => raise IndexError
    | c0 :: _ =>
        if Py.str_contains "gcc" c0
        then ret (cflags ++ ["-Wno-unused-but-set-variable"])
        else ret cflags
    end
  else if String.eqb (Compiler.compiler_type compiler) "msvc" then
    let opt_level := if String.eqb opt_level "3" then "2" else opt_level in
    let cflags := cflags ++ ["/O" +:+ opt_level; "/wd4102"; "/wd4101"; "/wd4146"] in
    if multi_file then ret (cflags ++ ["/GL-"; "/wd9025"]) else ret cflags
  else ret cflags.

(** The body of the loop that writes the generated C files. *)
Definition write_cfile (build_dir : string) (cfilenames : list string)
    (entry : string * string) : M (list string) :=
  let '(cfile, ctext) := entry in
  let cfile := posixpath.join build_dir [cfile] in
  open_w cfile ;;
  f_write cfile ctext ;;
  if String.eqb (snd (posixpath.splitext cfile)) ".c"
  then ret (cfilenames ++ [cfile]) else ret cfilenames.

(** [mypycify]: main entry point to building using mypyc. It produces the
    list of extension objects to be passed as [ext_modules] to [setup]. *)
Definition mypycify (paths : list string) (mypy_options : option loc)
    (opt_level : string) (multi_file skip_cgen verbose strip_asserts : bool)
  : M (list loc) :=
  setup_mypycify_vars ;;
  let compiler_options := CompilerOptions.mk strip_asserts multi_file verbose in
  let* compiler := lift new_compiler in
  let* files := gets fs in
  let expanded_paths := concat (map (glob_glob files) paths) in
  let build_dir := "build" in
  try_except (os_mkdir build_dir)
    (fun e => match e with FileExistsError _ => Some (ret tt) | _ => None end) ;;
  let* (sources, options) := get_mypy_config expanded_paths mypy_options in
  let use_shared_lib := use_shared_lib sources in
  let lib_name :=
    if use_shared_lib then Some (shared_lib_name (map BuildSource.module sources))
    else None in
  let* cfilenames :=
    if negb skip_cgen then
      let* (cfiles, ops_text) :=
        generate_c sources options lib_name (Some compiler_options) in
      let ops_file := posixpath.join build_dir ["ops.txt"] in
      open_w ops_file ;;
      f_write ops_file ops_text ;;
      for_each cfiles (write_cfile build_dir) []
    else
      let* files := gets fs in
      ret (glob_glob files (posixpath.join build_dir ["*.c"])) in
  let* cflags := cflags_for compiler opt_level multi_file in
  let rt_file := posixpath.join build_dir ["CPy.c"] in
  shutil_copyfile (posixpath.join include_dir ["CPy.c"]) rt_file ;;
  let cfilenames := cfilenames ++ [rt_file] in
  if use_shared_lib then
    match lib_name with
    | None | Some EmptyString => raise AssertionError
    | Some lib_name =>
        build_using_shared_lib sources lib_name cfilenames build_dir cflags
    end
  else
    build_single_module sources cfilenames cflags.

End build.

(** [MypycifyBuildExt]: the custom build_ext command. *)
Module MypycifyBuildExt.

(** [os.path.join] applied to an unpacked argument list: calling it
    without a first argument is a [TypeError]. *)
Definition os_path_join_args (args : list string) : outcome string :=
  match args with
  | [] => Raise TypeError
  | a :: p => Return (posixpath.join a p)
  end.

Definition _get_rt_lib_path (ext : MypycifyExtension.t) : outcome string :=
  let module_parts := Py.str_split "." (MypycifyExtension.name ext) in
  if (1 <? length module_parts)%nat then
    os_path_join_args (repeat ".." (length module_parts - 1))
  else Return ".".

End MypycifyBuildExt.

(** ** The stages of [mypycify]

    The body of [mypycify] cut at the two places where the properties
    below look at it: once the module set is known, and once the builder
    is chosen. [mypycify_stages] shows that the cuts change nothing. *)

Section stages.
Context {E : External}.

(** Up to the creation of the build directory. *)
Definition prepare (paths : list string) : M (Compiler.t * list string) :=
  setup_mypycify_vars ;;
  let* compiler := lift new_compiler in
  let* files := gets fs in
  let expanded_paths := concat (map (glob_glob files) paths) in
  try_except (os_mkdir "build")
    (fun e => match e with FileExistsError _ => Some (ret tt) | _ => None end) ;;
  ret (compiler, expanded_paths).

(** From the module set to the C files and the flags of the extensions. *)
Definition outputs (compiler : Compiler.t) (opt_level : string)
    (multi_file skip_cgen verbose strip_asserts : bool)
    (sources : list BuildSource.t) (options : Options.t)
  : M (list string * list string) :=
  let build_dir := "build" in
  let compiler_options := CompilerOptions.mk strip_asserts multi_file verbose in
  let lib_name :=
    if use_shared_lib sources then Some (shared_lib_name (map BuildSource.module sources))
    else None in
  let* cfilenames :=
    if negb skip_cgen then
      let* (cfiles, ops_text) :=
        generate_c sources options lib_name (Some compiler_options) in
      let ops_file := posixpath.join build_dir ["ops.txt"] in
      open_w ops_file ;;
      f_write ops_file ops_text ;;
      for_each cfiles (write_cfile build_dir) []
    else
      let* files := gets fs in
      ret (glob_glob files (posixpath.join build_dir ["*.c"])) in
  let* cflags := cflags_for compiler opt_level multi_file in
  let rt_file := posixpath.join build_dir ["CPy.c"] in
  shutil_copyfile (posixpath.join include_dir ["CPy.c"]) rt_file ;;
  ret (cfilenames ++ [rt_file], cflags).

(** The choice of the builder. *)
Definition dispatch (sources : list BuildSource.t) (cfilenames cflags : list string)
  : M (list loc) :=
  if use_shared_lib sources then
    match shared_lib_name (map BuildSource.module sources) with
    | EmptyString => raise AssertionError
    | lib_name => build_using_shared_lib sources lib_name cfilenames "build" cflags
    end
  else
    build_single_module sources cfilenames cflags.

Definition mypycify_staged (paths : list string) (mypy_options : option loc)
    (opt_level : string) (multi_file skip_cgen verbose strip_asserts : bool)
  : M (list loc) :=
  let* (compiler, expanded_paths) := prepare paths in
  let* (sources, options) := get_mypy_config expanded_paths mypy_options in
  let* (cfilenames, cflags) :=
    outputs compiler opt_level multi_file skip_cgen verbose strip_asserts sources options in
  dispatch sources cfilenames cflags.

End stages.

(** ** Vocabulary of the properties *)

(** [sources] is the module set of every build on the host: what mypy's
    [process_options] hands back whenever it returns. *)
Definition module_set {E : External} (sources : list BuildSource.t) : Prop :=
  ∀ files args ss options,
    process_options files args = Return (ss, options) → ss = sources.

(** The module is a package member: its dotted name has a dot. *)
Definition in_package (x : BuildSource.t) : bool :=
  Py.str_contains "." (BuildSource.module x).

(** The source file of the module is a package initializer. *)
Definition is_package_init (x : BuildSource.t) : bool :=
  match BuildSource.path x with
  | Some p => String.eqb (snd (posixpath.split p)) "__init__.py"
  | None => false
  end.

(** The source has a path that is neither [None] nor empty. *)
Definition has_path (x : BuildSource.t) : Prop :=
  truthy (BuildSource.path x) = true.

(** The fully-qualified name of the module, with ['.__init__'] behind it
    when the source file is a package initializer. *)
Definition shim_name (x : BuildSource.t) : string :=
  if is_package_init x then BuildSource.module x +:+ ".__init__"
  else BuildSource.module x.

(** The descriptor at [r] carries the shared-library marker. *)
Definition is_shared_at (w : world) (r : loc) : bool :=
  match extensions w !! r with
  | Some e => MypycifyExtension.is_mypyc_shared e
  | None => false
  end.

(** The descriptor at [r] is a shim of the shared library at [target]. *)
Definition is_shim_of (w : world) (target : loc) (r : loc) : Prop :=
  ∃ e, extensions w !! r = Some e
       ∧ MypycifyExtension.is_mypyc_shared e = false
       ∧ MypycifyExtension.mypyc_shared_target e = Some target.

(** The argument [mypy_options] is [None] or names a list of the store. *)
Definition live (mypy_options : option loc) (w : world) : Prop :=
  match mypy_options with
  | None => True
  | Some r => is_Some (lists w !! r)
  end.

(** [keeps R m]: whatever the world and the outcome, the world after [m] is
    related by [R] to the world before. *)
Definition keeps {A} (R : relation world) (m : M A) : Prop :=
  ∀ w, R w (snd (m w)).

(** The three frames: the extension objects, the list objects, and the
    paths bound in the file system. *)
Definition same_extensions : relation world :=
  fun w w' => extensions w' = extensions w.
Definition same_lists : relation world :=
  fun w w' => lists w' = lists w.
Definition fs_grows : relation world :=
  fun w w' => ∀ p, is_Some (fs w !! p) → is_Some (fs w' !! p).

(** The descriptors [exts] in the world [w'] are those of a Shared build
    over [sources]: one more than there are modules, the first one with
    the shared-library marker and alone with it, every other one a shim
    whose back-reference is the first one. *)
Definition shared_plan (w' : world) (sources : list BuildSource.t) (exts : list loc) : Prop :=
  ∃ shared shims,
    exts = shared :: shims
    ∧ length exts = S (length sources)
    ∧ is_shared_at w' shared = true
    ∧ Forall (is_shim_of w' shared) shims
    ∧ (shared ∉ shims)
    ∧ List.filter (is_shared_at w') exts = [shared].

(** The options are among those that [get_mypy_config] refuses. *)
Definition unsupported (options : Options.t) : bool :=
  (fst (Options.python_version options) =? 2) || negb (Options.strict_optional options).

Definition lower_hex (c : ascii) : Prop :=
  In c (list_ascii_of_string "0123456789abcdef").

(** ** A concrete host

    A Linux host with gcc on which the collaborators are small total
    functions: a path names at most itself, every path after ['--'] is a
    source whose module name is read off the path, and the translator
    emits one C file and one header. *)

Definition module_of_path (p : string) : string :=
  let n := String.length p in
  let stem :=
    if Py.endswith p "/__init__.py" then substring 0 (n - 12) p
    else if Py.endswith p ".py" then substring 0 (n - 3) p
    else p in
  Py.str_replace "/" "." stem.

Fixpoint sources_after_dashes (seen : bool) (args : list string) : list BuildSource.t :=
  match args with
  | [] => []
  | a :: rest =>
      if seen then BuildSource.mk (Some a) (module_of_path a) :: sources_after_dashes true rest
      else sources_after_dashes (String.eqb a "--") rest
  end.

Definition default_options : Options.t :=
  Options.mk (3, 7) true false false true ∅.

Definition host (process : list string → outcome (list BuildSource.t * Options.t))
  : External := {|
  sys_platform := "linux";
  module_dir := "/opt/mypyc";
  glob_glob := fun files p => match files !! p with Some _ => [p] | None => [] end;
  process_options := fun _ args => process args;
  exported_name := fun s => Py.str_replace "." "___" (Py.str_replace "___" "___3_" s);
  default_compiler_options := CompilerOptions.mk false false false;
  BuildResult := unit;
  parse_and_typecheck := fun _ _ _ => Return tt;
  compile_modules_to_c := fun _ _ _ _ =>
    Return ([("__native.c", "/* native */"); ("__native.h", "/* header */")],
            ["L0:"; "return"]);
  new_compiler := Return (Compiler.mk "unix" ["gcc"]);
  elapsed := fun _ => "0.000";
|}.

(** The host on which mypy finds the sources named on the command line. *)
Definition linux_host : External :=
  host (fun args => Return (sources_after_dashes false args, default_options)).

(** The host on which mypy finds the module set [sources] and hands back
    [options]. *)
Definition host_with (sources : list BuildSource.t) (options : Options.t) : External :=
  host (fun _ => Return (sources, options)).

Definition initial_world (files : list string) : world :=
  World (list_to_map (("/opt/mypyc/lib-rt/CPy.c", File "/* runtime */")
                      :: map (fun p => (p, File "")) files))
        ∅ ∅ ∅ [].

(** The initial world in which the caller holds a list of mypy options, at
    location 0. *)
Definition world_with_options (files : list string) (mypy_options : list string) : world :=
  World (fs (initial_world files)) {[0%nat := mypy_options]} ∅ ∅ [].

(** Options that select Python 2.7. *)
Definition python2_options : Options.t :=
  Options.mk (2, 7) true false false true ∅.

(** A package [a] with its module [a.b], and a lone module [foo]. *)
Definition package_sources : list BuildSource.t :=
  [BuildSource.mk (Some "a/__init__.py") "a"; BuildSource.mk (Some "a/b.py") "a.b"].

Definition lone_source : list BuildSource.t :=
  [BuildSource.mk (Some "foo.py") "foo"].

(** * The rest of the code *)

(** ** MypycifyBuildExt.build_extension

    The command builds one extension: it completes the link attributes of a
    shim, runs the C build of distutils, and on OS X patches the library
    paths of the artifact. *)

(** What the C build of distutils is handed: the extension object and
    its link attributes at that time. *)
Record c_build : Type := CBuild {
  built_ext : loc;
  built_descriptor : MypycifyExtension.t;
  built_libraries : list string;
  built_library_dirs : list string;
  built_runtime_library_dirs : list string;
}.

(** The world of the command: the world of [mypycify], the three link
    attributes of the extension objects (lists that distutils creates empty
    with each object), the C builds run and the external commands called,
    oldest first. *)
Record link_world : Type := LinkWorld {
  base : world;
  libraries : gmap loc (list string);
  library_dirs : gmap loc (list string);
  runtime_library_dirs : gmap loc (list string);
  c_builds : list c_build;
  calls : list (list string);
}.

(** The collaborators of the command: [get_ext_fullpath] and
    [build_extension] of the build_ext of distutils, and
    [subprocess.check_call]. The last two fail by handing back the
    exception that they raise. *)
Class Distutils : Type := {
  get_ext_fullpath : string -> string;
  super_build_extension : gmap string node -> c_build -> outcome unit;
  check_call : list string -> outcome unit;
}.

Definition L (A : Type) : Type := link_world -> outcome A * link_world.

Definition lret {A} (a : A) : L A := fun s => (Return a, s).

Definition lbind {A B} (m : L A) (k : A -> L B) : L B :=
  fun s =>
    match m s with
    | (Return a, s') => k a s'
    | (Raise e, s') => (Raise e, s')
    end.

Definition llift {A} (o : outcome A) : L A := fun s => (o, s).

Notation "'let+' x ':=' m 'in' k" := (lbind m (fun x => k))
  (at level 10, x pattern, m at level 100, k at level 200).

(** The list attribute [m] of the object at [r]. *)
Definition attribute (m : gmap loc (list string)) (r : loc) : list string :=
  default [] (m !! r).

(** The extension object at [r]. A name always refers to a live object,
    so the second case is met by no Python program. *)
Definition the_extension (r : loc) : L MypycifyExtension.t :=
  fun s =>
    match extensions (base s) !! r with
    | Some e => (Return e, s)
    | None => (Raise TypeError, s)
    end.

(** [ext.libraries.append(x)] *)
Definition append_library (r : loc) (x : string) : L unit :=
  fun s =>
    (Return tt,
     LinkWorld (base s) (<[r := attribute (libraries s) r ++ [x]]> (libraries s))
       (library_dirs s) (runtime_library_dirs s) (c_builds s) (calls s)).

(** [ext.library_dirs.append(x)] *)
Definition append_library_dir (r : loc) (x : string) : L unit :=
  fun s =>
    (Return tt,
     LinkWorld (base s) (libraries s)
       (<[r := attribute (library_dirs s) r ++ [x]]> (library_dirs s))
       (runtime_library_dirs s) (c_builds s) (calls s)).

(** [ext.runtime_library_dirs.append(x)] *)
Definition append_runtime_library_dir (r : loc) (x : string) : L unit :=
  fun s =>
    (Return tt,
     LinkWorld (base s) (libraries s) (library_dirs s)
       (<[r := attribute (runtime_library_dirs s) r ++ [x]]> (runtime_library_dirs s))
       (c_builds s) (calls s)).

(** [ext.extra_compile_args = ext.extra_compile_args + [x]]: the attribute
    is bound to a new list. *)
Definition add_compile_arg (r : loc) (x : string) : L unit :=
  fun s =>
    (Return tt,
     LinkWorld
       (set_extensions
          (alter (fun e =>
                    MypycifyExtension.mk (MypycifyExtension.name e)
                      (MypycifyExtension.sources e) (MypycifyExtension.include_dirs e)
                      (MypycifyExtension.extra_compile_args e ++ [x])
                      (MypycifyExtension.is_mypyc_shared e)
                      (MypycifyExtension.mypyc_shared_target e)) r)
          (base s))
       (libraries s) (library_dirs s) (runtime_library_dirs s) (c_builds s) (calls s)).

Section build_ext.
Context {E : External} {D : Distutils}.

(** [super().build_extension(ext)]: the C build, with the attributes that
    the extension has by then. *)
Definition run_c_build (r : loc) : L unit :=
  let+ e := the_extension r in
  fun s =>
    let b := CBuild r e (attribute (libraries s) r) (attribute (library_dirs s) r)
               (attribute (runtime_library_dirs s) r) in
    (super_build_extension (fs (base s)) b,
     LinkWorld (base s) (libraries s) (library_dirs s) (runtime_library_dirs s)
       (c_builds s ++ [b]) (calls s)).

(** [subprocess.check_call(cmd)] *)
Definition subprocess_check_call (cmd : list string) : L unit :=
  fun s =>
    (check_call cmd,
     LinkWorld (base s) (libraries s) (library_dirs s) (runtime_library_dirs s)
       (c_builds s) (calls s ++ [cmd])).

(** The first block of [build_extension]: the real names of the shared
    library are set up in the shim. It hands on the two local variables
    that the last block reads, [relative_lib_path] and [shared_file]. *)
Definition link_to_shared_lib (r : loc) (e : MypycifyExtension.t) (target : loc)
  : L (string * string) :=
  let+ relative_lib_path := llift (MypycifyBuildExt._get_rt_lib_path e) in
  let+ t := the_extension target in
  let '(shared_dir, shared_file) :=
    posixpath.split (get_ext_fullpath (MypycifyExtension.name t)) in
  let shared_name := Py.slice_from 3 (fst (posixpath.splitext shared_file)) in
  let+ _ :=
    if String.eqb sys_platform "win32" then
      let path := posixpath.join relative_lib_path [shared_file] in
      add_compile_arg r
        ("/DMYPYC_LIBRARY=\" +:+ dq +:+ Py.str_replace "\" "\\" path +:+ "\" +:+ dq)
    else
      let+ _ := append_library r shared_name in
      append_library_dir r shared_dir in
  let+ _ :=
    if String.eqb sys_platform "linux" then
      append_runtime_library_dir r ("$ORIGIN/" +:+ relative_lib_path)
    else lret tt in
  lret (relative_lib_path, shared_file).

(** [build_extension]. An extension that is not a [MypycifyExtension] is
    taken as a descriptor with neither the marker nor a back-reference,
    which is how the two [isinstance] tests treat it. *)
Definition build_extension (ext : loc) : L unit :=
  let+ e := the_extension ext in
  let+ shim :=
    match MypycifyExtension.mypyc_shared_target e with
    | Some target =>
        let+ names := link_to_shared_lib ext e target in lret (Some names)
    | None => lret None
    end in
  let+ _ := run_c_build ext in
  if String.eqb sys_platform "darwin" then
    let out_path := get_ext_fullpath (MypycifyExtension.name e) in
    let+ _ :=
      if MypycifyExtension.is_mypyc_shared e then
        subprocess_check_call
          ["install_name_tool"; "-id"; snd (posixpath.split out_path); out_path]
      else lret tt in
    match shim with
    | Some (relative_lib_path, shared_file) =>
        let new_path := posixpath.join "@loader_path" [relative_lib_path; shared_file] in
        subprocess_check_call
          ["install_name_tool"; "-change"; shared_file; new_path; out_path]
    | None => lret tt
    end
  else lret tt.

End build_ext.

(** ** common.py *)

Module common.

Definition PREFIX : string := "CPyPy_".
Definition NATIVE_PREFIX : string := "CPyDef_".
Definition DUNDER_PREFIX : string := "CPyDunder_".
Definition REG_PREFIX : string := "cpy_r_".
Definition STATIC_PREFIX : string := "CPyStatic_".
Definition TYPE_PREFIX : string := "CPyType_".
Definition ATTR_PREFIX : string := "_".

Definition ENV_ATTR_NAME : string := "__mypyc_env__".
Definition NEXT_LABEL_ATTR_NAME : string := "__mypyc_next_label__".
Definition TEMP_ATTR_NAME : string := "__mypyc_temp__".
Definition LAMBDA_NAME : string := "__mypyc_lambda__".
Definition SELF_NAME : string := "__mypyc_self__".
Definition INT_PREFIX : string := "__tmp_literal_int_".

Definition MAX_LITERAL_SHORT_INT : Z := Z.shiftl 1 30 - 1.

Definition TOP_LEVEL_NAME : string := "__top_level__".

Definition FAST_ISINSTANCE_MAX_SUBCLASSES : Z := 2.

(** ['__mypyc_{}_decorator_helper__'.format(func_name)] *)
Definition decorator_helper_name (func_name : string) : string :=
  "__mypyc_" +:+ func_name +:+ "_decorator_helper__".

End common.

(** ** Vocabulary of the further properties *)

(** The output printed so far is kept. *)
Definition same_stdout : relation world :=
  fun w w' => stdout w' = stdout w.

(** The items of the list of mypy options that is passed: none when
    nothing is passed. *)
Definition passed_items (mypy_options : option loc) (w : world) : list string :=
  match mypy_options with
  | Some r => default [] (lists w !! r)
  | None => []
  end.

(** The path of the shim of a module in the build directory. *)
Definition shim_path (build_dir : string) (source : BuildSource.t) : string :=
  posixpath.join build_dir [Py.str_replace "." "___" (BuildSource.module source) +:+ ".c"].

(** The parent-directory steps of a dotted name, joined: the value of
    [_get_rt_lib_path]. *)
Definition parent_steps (name : string) : string :=
  Py.str_join "/"
    (match Py.str_count "." name with
     | O => ["."]
     | S d => repeat ".." (S d)
     end).

(** A darwin host and a host of a platform without special treatment, with
    the collaborators of [linux_host]. *)
Definition on_platform (platform : string) (H : External) : External := {|
  sys_platform := platform;
  module_dir := @module_dir H;
  glob_glob := @glob_glob H;
  process_options := @process_options H;
  exported_name := @exported_name H;
  default_compiler_options := @default_compiler_options H;
  BuildResult := @BuildResult H;
  parse_and_typecheck := @parse_and_typecheck H;
  compile_modules_to_c := @compile_modules_to_c H;
  new_compiler := @new_compiler H;
  elapsed := @elapsed H;
|}.

(** The host [H] with a type checker that reports [messages]. *)
Definition with_type_errors (messages : list string) (H : External) : External := {|
  sys_platform := @sys_platform H;
  module_dir := @module_dir H;
  glob_glob := @glob_glob H;
  process_options := @process_options H;
  exported_name := @exported_name H;
  default_compiler_options := @default_compiler_options H;
  BuildResult := @BuildResult H;
  parse_and_typecheck := fun _ _ _ => Raise (CompileError messages);
  compile_modules_to_c := @compile_modules_to_c H;
  new_compiler := @new_compiler H;
  elapsed := @elapsed H;
|}.

(** The build_ext of a host that installs extensions under [build/lib],
    with the suffix [.so], and whose tools succeed. *)
Definition plain_distutils : Distutils := {|
  get_ext_fullpath := fun name =>
    "build/lib/" +:+ Py.str_replace "." "/" name +:+ ".so";
  super_build_extension := fun _ _ => Return tt;
  check_call := fun _ => Return tt;
|}.

(** The build_ext of a host whose C compiler fails. *)
Definition failing_distutils : Distutils := {|
  get_ext_fullpath := fun name =>
    "build/lib/" +:+ Py.str_replace "." "/" name +:+ ".so";
  super_build_extension := fun _ _ => Raise (ExternalError "CompileError");
  check_call := fun _ => Return tt;
|}.

(** The build_ext of a host whose C compiler fails on the extension
    [a.b] and on no other. *)
Definition picky_distutils : Distutils := {|
  get_ext_fullpath := fun name =>
    "build/lib/" +:+ Py.str_replace "." "/" name +:+ ".so";
  super_build_extension := fun _ b =>
    if String.eqb (MypycifyExtension.name (built_descriptor b)) "a.b"
    then Raise (ExternalError "CompileError") else Return tt;
  check_call := fun _ => Return tt;
|}.

(** A world in which a shared library and the shim of [a.b] are
    described, at the locations 0 and 1. *)
Definition linked_world : link_world :=
  LinkWorld
    (World ∅ ∅
       (<[1%nat := MypycifyExtension.mk "a.b" ["build/a___b.c"] [] [] false (Some 0%nat)]>
          {[0%nat := MypycifyExtension.mk "libmypyc_0" ["build/CPy.c"] [] [] true None]})
       ∅ [])
    ∅ ∅ ∅ [] [].

(** A world of the darwin linker: the three config vars of
    [setup_mypycify_vars]. *)
Definition darwin_world : world :=
  World ∅ ∅ ∅
    (<["LDSHARED" := "cc -bundle -undefined dynamic_lookup"]>
       (<["LDFLAGS" := "-arch i386 -arch x86_64"]>
          {["CFLAGS" := "-arch i386 -arch x86_64 -g"]}))
    [].

Section build_ext_outcome.
Context {E : External} {D : Distutils}.

(** The link attributes that the C build of a shim is handed on a
    platform other than win32. *)
Definition shim_c_build (ext : loc) (e : MypycifyExtension.t)
    (shared_dir shared_file : string) (s : link_world) : c_build :=
  CBuild ext e
    (attribute (libraries s) ext ++ [Py.slice_from 3 (fst (posixpath.splitext shared_file))])
    (attribute (library_dirs s) ext ++ [shared_dir])
    (attribute (runtime_library_dirs s) ext
     ++ (if String.eqb sys_platform "linux"
         then ["$ORIGIN/" +:+ parent_steps (MypycifyExtension.name e)]
         else [])).

(** The world after the C build of a shim. *)
Definition shim_built (ext : loc) (e : MypycifyExtension.t)
    (shared_dir shared_file : string) (s : link_world) : link_world :=
  let b := shim_c_build ext e shared_dir shared_file s in
  LinkWorld (base s)
    (<[ext := built_libraries b]> (libraries s))
    (<[ext := built_library_dirs b]> (library_dirs s))
    (if String.eqb sys_platform "linux"
     then <[ext := built_runtime_library_dirs b]> (runtime_library_dirs s)
     else runtime_library_dirs s)
    (c_builds s ++ [b]) (calls s).

End build_ext_outcome.

(** ** The calls that a build makes

    [mypycify] calls its collaborators at fixed places. What they are
    handed there is written out here, so that a property can speak of the
    answers given to one build and not of every answer that a host could
    give. *)

(** The file system once [os.mkdir('build')] has been tried: the
    directory is created unless something is at its path, and the
    [FileExistsError] is passed over. *)
Definition build_files (w : world) : gmap string node :=
  match fs w !! "build" with
  | Some _ => fs w
  | None => <["build" := Dir]> (fs w)
  end.

(** The answer of mypy to the build that starts in [w]: the one call of
    [process_options], made by [get_mypy_config] with the file system as
    [os.mkdir] leaves it and with the items of the list passed, ['--'] and
    the expanded paths as arguments. *)
Definition mypy_answer {E : External} (paths : list string) (mypy_options : option loc)
    (w : world) : outcome (list BuildSource.t * Options.t) :=
  process_options (build_files w)
    (passed_items mypy_options w ++ "--" :: concat (map (glob_glob (fs w)) paths)).

(** The options that [get_mypy_config] hands on: those of mypy with the
    three settings of mypyc and the mark of every module. *)
Definition configured (sources : list BuildSource.t) (options : Options.t) : Options.t :=
  Options.mk (Options.python_version options) (Options.strict_optional options)
    true true false
    (fold_left mark_mypyc sources (Options.per_module_options options)).

(** The steps between the configuration and the choice of the builder go
    through: the compiler object names a compiler when it is a unix one,
    the type checker and the translator return at the calls that
    [generate_c] makes, unless C generation is skipped, and the runtime
    source is a file. *)
Definition translation_returns {E : External} (multi_file skip_cgen verbose strip_asserts : bool)
    (compiler : Compiler.t) (files : gmap string node) (sources : list BuildSource.t)
    (options : Options.t) : Prop :=
  (Compiler.compiler_type compiler = "unix" → Compiler.compiler compiler ≠ [])
  ∧ (skip_cgen = false →
     ∃ result ctext ops,
       parse_and_typecheck files sources (configured sources options) = Return result
       ∧ compile_modules_to_c result (map BuildSource.module sources)
           (if use_shared_lib sources
            then Some (shared_lib_name (map BuildSource.module sources)) else None)
           (CompilerOptions.mk strip_asserts multi_file verbose)
         = Return (ctext, ops))
  ∧ (∃ c, files !! posixpath.join include_dir ["CPy.c"] = Some (File c)).

(** The module set has more than one module, or a module of a package. *)
Definition needs_shared_lib (sources : list BuildSource.t) : Prop :=
  (1 < length sources)%nat ∨ Exists (fun x => in_package x = true) sources.

(** A file at [p] is still a file afterwards; what is at [p] is the same
    afterwards. *)
Definition file_stays (p : string) : relation world :=
  fun w w' => (∃ c, fs w !! p = Some (File c)) → ∃ c, fs w' !! p = Some (File c).
Definition same_at (p : string) : relation world :=
  fun w w' => fs w' !! p = fs w !! p.

(** The file system is left as it is. *)
Definition same_files : relation world :=
  fun w w' => fs w' = fs w.

(** A host like [linux_host] whose mypy reads two flags: [--py2] selects
    Python 2.7 and [--no-strict-optional] disables strict-optional
    checking. *)
Definition flags_host : External :=
  host (fun args =>
          Return (sources_after_dashes false args,
                  Options.mk
                    (if existsb (String.eqb "--py2") args then (2, 7) else (3, 7))
                    (negb (existsb (String.eqb "--no-strict-optional") args))
                    false false true ∅)).

(** * Properties *)

(** ** The primitives on concrete inputs *)

Section primitives_run.

Example split_dotted : Py.str_split "." "a.b.c" = ["a"; "b"; "c"].
Proof. reflexivity. Qed.

Example split_trailing_dot : Py.str_split "." "a." = ["a"; ""].
Proof. reflexivity. Qed.

Example replace_dots : Py.str_replace "." "___" "a.b.c" = "a___b___c".
Proof. reflexivity. Qed.

Example replace_bundle :
  Py.str_replace "-bundle" "-dynamiclib" "cc -bundle -undefined" = "cc -dynamiclib -undefined".
Proof. reflexivity. Qed.

Example split_package_init : posixpath.split "a/b/__init__.py" = ("a/b", "__init__.py").
Proof. reflexivity. Qed.

Example split_bare_name : posixpath.split "__init__.py" = ("", "__init__.py").
Proof. reflexivity. Qed.

Example splitext_c_file : posixpath.splitext "build/__native.c" = ("build/__native", ".c").
Proof. reflexivity. Qed.

Example splitext_hidden : posixpath.splitext "build/.hidden" = ("build/.hidden", "").
Proof. reflexivity. Qed.

Example join_relative : posixpath.join "build" ["a___b.c"] = "build/a___b.c".
Proof. reflexivity. Qed.

Example join_absolute : posixpath.join "build" ["/tmp/x.c"] = "/tmp/x.c".
Proof. reflexivity. Qed.

Example format_unix_shim :
  str_format shim_template_unix [("modname", "b"); ("full_modname", "a___b")]
  = Return "#include <Python.h>

PyObject *CPyInit_a___b(void);

PyMODINIT_FUNC
PyInit_b(void)
{
    return CPyInit_a___b();
}
".
Proof. reflexivity. Qed.

Example format_missing_argument :
  str_format shim_template_unix [("modname", "b")] = Raise (KeyError "full_modname").
Proof. reflexivity. Qed.

End primitives_run.

(** ** The shared-library name *)

Section sha1_form.

(** The digests of the FIPS 180 test messages. *)
Example sha1_abc :
  Sha1.hexdigest (Py.encode "abc") = "a9993e364706816aba3e25717850c26c9cd0d89d".
Proof. vm_compute. reflexivity. Qed.

Example sha1_empty :
  Sha1.hexdigest (Py.encode "") = "da39a3ee5e6b4b0d3255bfef95601890afd80709".
Proof. vm_compute. reflexivity. Qed.

Example sha1_two_blocks :
  Sha1.hexdigest (Py.encode "abcdbcdecdefdefgefghfghighijhijkijkljklmklmnlmnomnopnopq")
  = "84983e441c3bd26ebaae4aa1f95129e5e54670f1".
Proof. vm_compute. reflexivity. Qed.

Lemma hexdigit_lower (x : Z) : lower_hex (Sha1.hexdigit (Z.land x 15)).
Proof.
  assert (Hr : 0 <= Z.land x 15 < 16).
  { change 15 with (Z.ones 4). rewrite Z.land_ones by lia.
    apply Z.mod_pos_bound. lia. }
  set (n := Z.land x 15) in *.
  assert (Hn : n = Z.of_nat (Z.to_nat n)) by lia.
  assert (Hk : (Z.to_nat n < 16)%nat) by lia.
  unfold Sha1.hexdigit, lower_hex.
  generalize dependent (Z.to_nat n). intros k _ Hk.
  do 16 (destruct k as [|k]; [simpl; tauto|]). lia.
Qed.

Lemma hex8_length (w : Z) : length (Sha1.hex8 w) = 8%nat.
Proof. reflexivity. Qed.

Lemma hex8_lower (w : Z) : Forall lower_hex (Sha1.hex8 w).
Proof.
  unfold Sha1.hex8. apply Forall_map, Forall_forall.
  intros i _. apply hexdigit_lower.
Qed.

Lemma substring_take (n : nat) (l : list ascii) :
  substring 0 n (string_of_list_ascii l) = string_of_list_ascii (take n l).
Proof.
  revert l. induction n as [|n IH]; intros [|c l]; simpl; try reflexivity.
  now rewrite IH.
Qed.

Lemma length_string_of_list (l : list ascii) :
  String.length (string_of_list_ascii l) = length l.
Proof. induction l as [|c l IH]; simpl; congruence. Qed.

(** The first twenty characters of a digest are twenty lowercase
    hexadecimal digits, whatever was hashed. *)
Lemma hexdigest_prefix (data : list Z) :
  ∃ l, Py.slice_to 20 (Sha1.hexdigest data) = string_of_list_ascii l
       ∧ length l = 20%nat ∧ Forall lower_hex l.
Proof.
  unfold Sha1.hexdigest, Py.slice_to.
  destruct (Sha1.digest data) as [[[[h0 h1] h2] h3] h4].
  rewrite substring_take.
  eexists. split; [reflexivity|]. split.
  - rewrite length_take, !length_app, !hex8_length. reflexivity.
  - apply Forall_take. repeat (apply Forall_app; split); apply hex8_lower.
Qed.

End sha1_form.

(** C9: the shared-library name is ['mypyc_'] followed by exactly twenty
    lowercase hexadecimal characters, and it is a function of the
    comma-joined module-name string only: two module lists with the same
    comma-joined string, such as [["a,b"]] and [["a"; "b"]], get the same
    name. *)
Theorem shared_lib_name_form (modules : list string) :
  (∃ h, shared_lib_name modules = "mypyc_" +:+ h
        ∧ String.length h = 20%nat
        ∧ Forall lower_hex (list_ascii_of_string h))
  ∧ (∀ modules', Py.str_join "," modules = Py.str_join "," modules' →
                 shared_lib_name modules = shared_lib_name modules')
  ∧ shared_lib_name ["a,b"] = shared_lib_name ["a"; "b"].
Proof.
  repeat split.
  - unfold shared_lib_name.
    destruct (hexdigest_prefix (Py.encode (Py.str_join "," modules)))
      as (l & -> & Hlen & Hhex).
    exists (string_of_list_ascii l). split; [reflexivity|]. split.
    + now rewrite length_string_of_list.
    + now rewrite list_ascii_of_string_of_list_ascii.
  - intros modules' Hjoin. unfold shared_lib_name. now rewrite Hjoin.
Qed.

Lemma shared_lib_name_form_witness :
  (∃ h, shared_lib_name ["a,b"] = "mypyc_" +:+ h
        ∧ String.length h = 20%nat
        ∧ Forall lower_hex (list_ascii_of_string h))
  ∧ shared_lib_name ["a,b"] = shared_lib_name ["a"; "b"].
Proof.
  destruct (shared_lib_name_form ["a,b"]) as (Hform & Hjoined & _).
  split; [exact Hform|]. apply Hjoined. reflexivity.
Defined.

(** The module list is hashed in the order in which it is given: the same
    two modules in the other order get another name, although the two
    lists have the same sorted contents (they are permutations of each
    other). *)
Lemma shared_lib_name_order_sensitive :
  Permutation ["pkg.mod1"; "pkg.mod2"] ["pkg.mod2"; "pkg.mod1"]
  ∧ shared_lib_name ["pkg.mod1"; "pkg.mod2"] ≠ shared_lib_name ["pkg.mod2"; "pkg.mod1"].
Proof.
  split; [apply perm_swap|].
  intros H. vm_compute in H. discriminate H.
Qed.

(** C3, as amended: the shared-library name is derived deterministically
    from a content hash of the module-name list in the order given, which
    is not sorted. Module lists with the same comma-joined string (the same
    list in particular) get the same name, the same modules in another
    order need not, and the name for [["pkg.mod1"; "pkg.mod2"]] differs
    from the name for [["pkg.mod1"]] alone. *)
Theorem shared_lib_name_of_joined_list (modules modules' : list string) :
  Py.str_join "," modules = Py.str_join "," modules' →
  shared_lib_name modules = shared_lib_name modules'
  ∧ shared_lib_name ["pkg.mod1"; "pkg.mod2"] ≠ shared_lib_name ["pkg.mod1"]
  ∧ shared_lib_name ["pkg.mod2"; "pkg.mod1"] ≠ shared_lib_name ["pkg.mod1"; "pkg.mod2"].
Proof.
  intros Hjoin. split; [|split].
  - unfold shared_lib_name. now rewrite Hjoin.
  - intros H. vm_compute in H. discriminate H.
  - intros H. vm_compute in H. discriminate H.
Qed.

Lemma shared_lib_name_of_joined_list_witness :
  Py.str_join "," ["pkg.mod1"; "pkg.mod2"] = Py.str_join "," ["pkg.mod1,pkg.mod2"]
  ∧ shared_lib_name ["pkg.mod1"; "pkg.mod2"] = shared_lib_name ["pkg.mod1,pkg.mod2"].
Proof.
  split; [reflexivity|].
  apply (shared_lib_name_of_joined_list ["pkg.mod1"; "pkg.mod2"] ["pkg.mod1,pkg.mod2"]).
  reflexivity.
Defined.

(** ** The link path *)

Section link_path.

Lemma append_cons (x : ascii) (a b : string) :
  String x a +:+ b = String x (a +:+ b).
Proof. reflexivity. Qed.

Lemma append_assoc (a b c : string) : (a +:+ b) +:+ c = a +:+ (b +:+ c).
Proof.
  induction a as [|x a IH]; [reflexivity|].
  rewrite !append_cons. now f_equal.
Qed.

Lemma append_length (a b : string) :
  String.length (a +:+ b) = (String.length a + String.length b)%nat.
Proof.
  induction a as [|x a IH]; [reflexivity|].
  rewrite append_cons. simpl. now f_equal.
Qed.

Lemma substring_append_skip (a b : string) (k m : nat) :
  substring (String.length a + k) m (a +:+ b) = substring k m b.
Proof.
  induction a as [|x a IH]; [reflexivity|].
  rewrite append_cons. simpl. apply IH.
Qed.

(** [s.split('.')] has one piece more than [s] has dots. *)
Lemma split_acc_length (c : ascii) (s cur : string) :
  length (Py.split_acc c cur s) = S (Py.str_count c s).
Proof.
  revert cur. induction s as [|a s IH]; intros cur; simpl; [reflexivity|].
  destruct (Ascii.eqb a c); simpl; now rewrite IH.
Qed.

Lemma str_split_length (c : ascii) (s : string) :
  length (Py.str_split c s) = S (Py.str_count c s).
Proof. apply split_acc_length. Qed.

(** A path that ends with a parent-directory step neither is empty nor
    ends with a slash. *)
Lemma ends_with_parent (a : string) :
  String.eqb (a +:+ "..") "" = false ∧ Py.endswith (a +:+ "..") "/" = false.
Proof.
  split.
  - destruct a; reflexivity.
  - unfold Py.endswith. rewrite append_length. simpl String.length.
    replace (String.length a + 2 - 1)%nat with (String.length a + 1)%nat by lia.
    rewrite substring_append_skip. simpl. apply andb_false_r.
Qed.

Lemma join_step_parent (a : string) :
  posixpath.join_step (a +:+ "..") ".." = (a +:+ "../") +:+ "..".
Proof.
  unfold posixpath.join_step, posixpath.sep.
  destruct (ends_with_parent a) as [-> ->].
  change (Py.startswith ".." "/") with false. cbn [orb].
  now rewrite !append_assoc.
Qed.

Lemma join_parents (k : nat) (a : string) :
  posixpath.join (a +:+ "..") (repeat ".." k)
  = a +:+ Py.str_join "/" (repeat ".." (S k)).
Proof.
  unfold posixpath.join. revert a. induction k as [|k IH]; intros a.
  - reflexivity.
  - cbn [repeat fold_left]. rewrite join_step_parent, IH.
    rewrite append_assoc. reflexivity.
Qed.

End link_path.

(** C4: the relative link path of a shim consists of exactly as many
    parent-directory steps as its descriptor name has dots: two steps,
    ['../..'], for [a.b.c], and the current directory ['.'] for a
    top-level name. *)
Theorem rt_lib_path_depth (ext : MypycifyExtension.t) :
  MypycifyBuildExt._get_rt_lib_path ext
  = Return (Py.str_join "/"
      (match Py.str_count "." (MypycifyExtension.name ext) with
       | O => ["."]
       | S d => repeat ".." (S d)
       end))
  ∧ MypycifyBuildExt._get_rt_lib_path (MypycifyExtension.mk "a.b.c" [] [] [] false (Some 0%nat))
    = Return "../.."
  ∧ MypycifyBuildExt._get_rt_lib_path (MypycifyExtension.mk "abc" [] [] [] false (Some 0%nat))
    = Return ".".
Proof.
  split; [|split; reflexivity].
  unfold MypycifyBuildExt._get_rt_lib_path.
  rewrite str_split_length.
  destruct (Py.str_count "." (MypycifyExtension.name ext)) as [|d]; [reflexivity|].
  replace (S (S d) - 1)%nat with (S d) by lia.
  change (1 <? S (S d))%nat with true. cbn [repeat MypycifyBuildExt.os_path_join_args].
  f_equal. apply (join_parents d "").
Qed.

(** ** Running computations *)

Section running.
Context {A B : Type}.

Lemma bind_returns (m : M A) (k : A → M B) (w w1 : world) (a : A) :
  m w = (Return a, w1) → bind m k w = k a w1.
Proof. unfold bind. now intros ->. Qed.

Lemma bind_raises (m : M A) (k : A → M B) (w w1 : world) (e : exn) :
  m w = (Raise e, w1) → bind m k w = (Raise e, w1).
Proof. unfold bind. now intros ->. Qed.

Lemma bind_returned (m : M A) (k : A → M B) (w w' : world) (b : B) :
  bind m k w = (Return b, w') →
  ∃ a w1, m w = (Return a, w1) ∧ k a w1 = (Return b, w').
Proof.
  unfold bind. destruct (m w) as [[a|e] w1]; [eauto|discriminate].
Qed.

End running.

Lemma mypycify_stages {E : External} paths mypy_options opt_level
    multi_file skip_cgen verbose strip_asserts (w : world) :
  mypycify paths mypy_options opt_level multi_file skip_cgen verbose strip_asserts w
  = mypycify_staged paths mypy_options opt_level multi_file skip_cgen verbose
      strip_asserts w.
Proof.
  unfold mypycify, mypycify_staged, prepare, outputs, dispatch, bind, ret, gets, lift.
  destruct (setup_mypycify_vars w) as [[[]|?] w1]; [|reflexivity].
  destruct new_compiler as [compiler|?]; [|reflexivity].
  destruct (try_except _ _ w1) as [[[]|?] w2]; [|reflexivity].
  destruct (get_mypy_config _ _ w2) as [[[sources options]|?] w3]; [|reflexivity].
  destruct skip_cgen; cbn [negb].
  - destruct (cflags_for _ _ _ _) as [[cflags|?] w4]; [|reflexivity].
    destruct (shutil_copyfile _ _ w4) as [[[]|?] w5]; [|reflexivity].
    destruct (use_shared_lib sources); [|reflexivity].
    destruct (shared_lib_name _); reflexivity.
  - destruct (generate_c _ _ _ _ w3) as [[[cfiles ops_text]|?] w4]; [|reflexivity].
    destruct (open_w _ w4) as [[[]|?] w5]; [|reflexivity].
    destruct (f_write _ _ w5) as [[[]|?] w6]; [|reflexivity].
    destruct (for_each _ _ _ w6) as [[cfilenames|?] w7]; [|reflexivity].
    destruct (cflags_for _ _ _ _) as [[cflags|?] w8]; [|reflexivity].
    destruct (shutil_copyfile _ _ w8) as [[[]|?] w9]; [|reflexivity].
    destruct (use_shared_lib sources); [|reflexivity].
    destruct (shared_lib_name _); reflexivity.
Qed.

(** ** What a computation leaves alone *)

Section keeps.
Context (R : relation world) `{!PreOrder R}.

Lemma keeps_ret {A} (a : A) : keeps R (ret a).
Proof. intros w. reflexivity. Qed.

Lemma keeps_raise {A} (e : exn) : keeps R (@raise A e).
Proof. intros w. reflexivity. Qed.

Lemma keeps_lift {A} (o : outcome A) : keeps R (lift o).
Proof. intros w. reflexivity. Qed.

Lemma keeps_gets {A} (f : world → A) : keeps R (gets f).
Proof. intros w. reflexivity. Qed.

Lemma keeps_bind {A B} (m : M A) (k : A → M B) :
  keeps R m → (∀ a, keeps R (k a)) → keeps R (bind m k).
Proof.
  intros Hm Hk w. unfold bind. specialize (Hm w).
  destruct (m w) as [[a|e] w1]; [|exact Hm].
  etransitivity; [exact Hm|apply Hk].
Qed.

Lemma keeps_try_except {A} (m : M A) (handler : exn → option (M A)) :
  keeps R m → (∀ e h, handler e = Some h → keeps R h) →
  keeps R (try_except m handler).
Proof.
  intros Hm Hh w. unfold try_except. specialize (Hm w).
  destruct (m w) as [[a|e] w1]; [exact Hm|].
  destruct (handler e) as [h|] eqn:He; [|exact Hm].
  etransitivity; [exact Hm|eapply Hh, He].
Qed.

Lemma keeps_for_each {A S} (l : list A) (body : S → A → M S) (s : S) :
  (∀ s x, keeps R (body s x)) → keeps R (for_each l body s).
Proof.
  intros Hbody. revert s. induction l as [|x l IH]; intros s; simpl.
  - apply keeps_ret.
  - apply keeps_bind; auto.
Qed.

End keeps.

#[local] Instance same_extensions_preorder : PreOrder same_extensions.
Proof. split; unfold same_extensions; [intros w|intros w1 w2 w3]; congruence. Qed.

#[local] Instance same_lists_preorder : PreOrder same_lists.
Proof. split; unfold same_lists; [intros w|intros w1 w2 w3]; congruence. Qed.

#[local] Instance fs_grows_preorder : PreOrder fs_grows.
Proof. split; unfold fs_grows; [intros w|intros w1 w2 w3]; auto. Qed.

Lemma insert_grows (files : gmap string node) (p q : string) (n : node) :
  is_Some (files !! q) → is_Some (<[p := n]> files !! q).
Proof.
  intros H. destruct (decide (p = q)) as [->|Hne].
  - rewrite lookup_insert_eq. eauto.
  - now rewrite lookup_insert_ne.
Qed.

(** Primitives are settled by running them. *)
Ltac run_primitive :=
  let w := fresh "w" in
  intros w;
  repeat match goal with
         | |- context [match ?x with _ => _ end] => destruct x
         end;
  unfold same_extensions, same_lists, fs_grows; cbn;
  try reflexivity; try (intros ?; apply insert_grows); auto.

Section primitives.

Lemma print_extensions line : keeps same_extensions (print line).
Proof. run_primitive. Qed.
Lemma print_lists line : keeps same_lists (print line).
Proof. run_primitive. Qed.
Lemma print_fs line : keeps fs_grows (print line).
Proof. run_primitive. Qed.

Lemma os_mkdir_extensions p : keeps same_extensions (os_mkdir p).
Proof. unfold os_mkdir. run_primitive. Qed.
Lemma os_mkdir_lists p : keeps same_lists (os_mkdir p).
Proof. unfold os_mkdir. run_primitive. Qed.
Lemma os_mkdir_fs p : keeps fs_grows (os_mkdir p).
Proof. unfold os_mkdir. run_primitive. Qed.

Lemma open_w_extensions p : keeps same_extensions (open_w p).
Proof. run_primitive. Qed.
Lemma open_w_lists p : keeps same_lists (open_w p).
Proof. run_primitive. Qed.
Lemma open_w_fs p : keeps fs_grows (open_w p).
Proof. run_primitive. Qed.

Lemma f_write_extensions p text : keeps same_extensions (f_write p text).
Proof. unfold f_write. run_primitive. Qed.
Lemma f_write_lists p text : keeps same_lists (f_write p text).
Proof. unfold f_write. run_primitive. Qed.
Lemma f_write_fs p text : keeps fs_grows (f_write p text).
Proof. unfold f_write. run_primitive. Qed.

Lemma shutil_copyfile_extensions src dst : keeps same_extensions (shutil_copyfile src dst).
Proof. unfold shutil_copyfile. run_primitive. Qed.
Lemma shutil_copyfile_lists src dst : keeps same_lists (shutil_copyfile src dst).
Proof. unfold shutil_copyfile. run_primitive. Qed.
Lemma shutil_copyfile_fs src dst : keeps fs_grows (shutil_copyfile src dst).
Proof. unfold shutil_copyfile. run_primitive. Qed.

Lemma new_list_extensions l : keeps same_extensions (new_list l).
Proof. run_primitive. Qed.
Lemma new_list_fs l : keeps fs_grows (new_list l).
Proof. run_primitive. Qed.

Lemma list_items_extensions r : keeps same_extensions (list_items r).
Proof. unfold list_items. run_primitive. Qed.
Lemma list_items_lists r : keeps same_lists (list_items r).
Proof. unfold list_items. run_primitive. Qed.
Lemma list_items_fs r : keeps fs_grows (list_items r).
Proof. unfold list_items. run_primitive. Qed.

Lemma list_append_extensions r x : keeps same_extensions (list_append r x).
Proof. run_primitive. Qed.
Lemma list_append_fs r x : keeps fs_grows (list_append r x).
Proof. run_primitive. Qed.

Lemma list_extend_extensions r xs : keeps same_extensions (list_extend r xs).
Proof. run_primitive. Qed.
Lemma list_extend_fs r xs : keeps fs_grows (list_extend r xs).
Proof. run_primitive. Qed.

Lemma new_extension_lists e : keeps same_lists (new_extension e).
Proof. run_primitive. Qed.
Lemma new_extension_fs e : keeps fs_grows (new_extension e).
Proof. run_primitive. Qed.

Lemma set_config_vars_extensions f : keeps same_extensions (modify (set_config_vars f)).
Proof. run_primitive. Qed.
Lemma set_config_vars_lists f : keeps same_lists (modify (set_config_vars f)).
Proof. run_primitive. Qed.
Lemma set_config_vars_fs f : keeps fs_grows (modify (set_config_vars f)).
Proof. run_primitive. Qed.

End primitives.

Create HintDb frames.

#[local] Hint Resolve
  print_extensions print_lists print_fs
  os_mkdir_extensions os_mkdir_lists os_mkdir_fs
  open_w_extensions open_w_lists open_w_fs
  f_write_extensions f_write_lists f_write_fs
  shutil_copyfile_extensions shutil_copyfile_lists shutil_copyfile_fs
  new_list_extensions new_list_fs
  list_items_extensions list_items_lists list_items_fs
  list_append_extensions list_append_fs
  list_extend_extensions list_extend_fs
  new_extension_lists new_extension_fs
  set_config_vars_extensions set_config_vars_lists set_config_vars_fs : frames.

(** Composite computations are settled along their structure. *)
Ltac frame :=
  repeat first
    [ apply keeps_ret; typeclasses eauto
    | apply keeps_raise; typeclasses eauto
    | apply keeps_lift; typeclasses eauto
    | apply keeps_gets; typeclasses eauto
    | solve [eauto with frames]
    | apply keeps_bind; [typeclasses eauto| |intros ?]
    | apply keeps_for_each; [typeclasses eauto|intros ? ?]
    | apply keeps_try_except; [typeclasses eauto| |intros ? ? ?]
    | match goal with
      | H : match ?x with _ => _ end = Some _ |- _ => destruct x; try discriminate H
      | H : Some _ = Some _ |- _ => injection H as <-
      | |- keeps _ (match ?x with _ => _ end) => destruct x
      | |- keeps _ (let '(_, _) := ?x in _) => destruct x
      end ].

Section frames.
Context {E : External}.

Lemma setup_mypycify_vars_extensions : keeps same_extensions setup_mypycify_vars.
Proof. unfold setup_mypycify_vars, replace_in_var. frame. Qed.
Lemma setup_mypycify_vars_lists : keeps same_lists setup_mypycify_vars.
Proof. unfold setup_mypycify_vars, replace_in_var. frame. Qed.
Lemma setup_mypycify_vars_fs : keeps fs_grows setup_mypycify_vars.
Proof. unfold setup_mypycify_vars, replace_in_var. frame. Qed.

Lemma generate_c_extension_shim_extensions full_module_name module_name dirname :
  keeps same_extensions (generate_c_extension_shim full_module_name module_name dirname).
Proof. unfold generate_c_extension_shim. frame. Qed.
Lemma generate_c_extension_shim_lists full_module_name module_name dirname :
  keeps same_lists (generate_c_extension_shim full_module_name module_name dirname).
Proof. unfold generate_c_extension_shim. frame. Qed.
Lemma generate_c_extension_shim_fs full_module_name module_name dirname :
  keeps fs_grows (generate_c_extension_shim full_module_name module_name dirname).
Proof. unfold generate_c_extension_shim. frame. Qed.

Lemma get_mypy_config_extensions paths mypy_options :
  keeps same_extensions (get_mypy_config paths mypy_options).
Proof. unfold get_mypy_config, mypy_options_or_new, fail. frame. Qed.
Lemma get_mypy_config_fs paths mypy_options :
  keeps fs_grows (get_mypy_config paths mypy_options).
Proof. unfold get_mypy_config, mypy_options_or_new, fail. frame. Qed.

Lemma generate_c_extensions sources options lib_name compiler_options :
  keeps same_extensions (generate_c sources options lib_name compiler_options).
Proof. unfold generate_c, fail. frame. Qed.
Lemma generate_c_lists sources options lib_name compiler_options :
  keeps same_lists (generate_c sources options lib_name compiler_options).
Proof. unfold generate_c, fail. frame. Qed.
Lemma generate_c_fs sources options lib_name compiler_options :
  keeps fs_grows (generate_c sources options lib_name compiler_options).
Proof. unfold generate_c, fail. frame. Qed.

Lemma cflags_for_extensions compiler opt_level multi_file :
  keeps same_extensions (cflags_for compiler opt_level multi_file).
Proof. unfold cflags_for. frame. Qed.
Lemma cflags_for_lists compiler opt_level multi_file :
  keeps same_lists (cflags_for compiler opt_level multi_file).
Proof. unfold cflags_for. frame. Qed.
Lemma cflags_for_fs compiler opt_level multi_file :
  keeps fs_grows (cflags_for compiler opt_level multi_file).
Proof. unfold cflags_for. frame. Qed.

Lemma write_cfile_extensions build_dir cfilenames entry :
  keeps same_extensions (write_cfile build_dir cfilenames entry).
Proof. unfold write_cfile. frame. Qed.
Lemma write_cfile_lists build_dir cfilenames entry :
  keeps same_lists (write_cfile build_dir cfilenames entry).
Proof. unfold write_cfile. frame. Qed.
Lemma write_cfile_fs build_dir cfilenames entry :
  keeps fs_grows (write_cfile build_dir cfilenames entry).
Proof. unfold write_cfile. frame. Qed.

#[local] Hint Resolve
  setup_mypycify_vars_extensions setup_mypycify_vars_lists setup_mypycify_vars_fs
  generate_c_extension_shim_extensions generate_c_extension_shim_lists
  generate_c_extension_shim_fs
  get_mypy_config_extensions get_mypy_config_fs
  generate_c_extensions generate_c_lists generate_c_fs
  cflags_for_extensions cflags_for_lists cflags_for_fs
  write_cfile_extensions write_cfile_lists write_cfile_fs : frames.

Lemma prepare_lists paths : keeps same_lists (prepare paths).
Proof. unfold prepare. frame. Qed.
Lemma prepare_fs paths : keeps fs_grows (prepare paths).
Proof. unfold prepare. frame. Qed.

Lemma outputs_extensions compiler opt_level multi_file skip_cgen verbose strip_asserts
    sources options :
  keeps same_extensions
    (outputs compiler opt_level multi_file skip_cgen verbose strip_asserts sources options).
Proof. unfold outputs. frame. Qed.
Lemma outputs_lists compiler opt_level multi_file skip_cgen verbose strip_asserts
    sources options :
  keeps same_lists
    (outputs compiler opt_level multi_file skip_cgen verbose strip_asserts sources options).
Proof. unfold outputs. frame. Qed.
Lemma outputs_fs compiler opt_level multi_file skip_cgen verbose strip_asserts
    sources options :
  keeps fs_grows
    (outputs compiler opt_level multi_file skip_cgen verbose strip_asserts sources options).
Proof. unfold outputs. frame. Qed.

Lemma shim_extension_lists shared_lib build_dir cflags extensions source :
  keeps same_lists (shim_extension shared_lib build_dir cflags extensions source).
Proof. unfold shim_extension. frame. Qed.
Lemma shim_extension_fs shared_lib build_dir cflags extensions source :
  keeps fs_grows (shim_extension shared_lib build_dir cflags extensions source).
Proof. unfold shim_extension. frame. Qed.

#[local] Hint Resolve shim_extension_lists shim_extension_fs : frames.

Lemma dispatch_lists sources cfilenames cflags :
  keeps same_lists (dispatch sources cfilenames cflags).
Proof. unfold dispatch, build_using_shared_lib, build_single_module. frame. Qed.
Lemma dispatch_fs sources cfilenames cflags :
  keeps fs_grows (dispatch sources cfilenames cflags).
Proof. unfold dispatch, build_using_shared_lib, build_single_module. frame. Qed.

End frames.

(** ** The configuration step *)

Section configuration.
Context {E : External}.

Lemma bind_keeps_tail {A B} (R : relation world) `{!PreOrder R}
    (m : M A) (k : A → M B) (w : world) :
  (∀ a, keeps R (k a)) → R (snd (m w)) (snd (bind m k w)).
Proof.
  intros Hk. unfold bind. destruct (m w) as [[a|e] w1]; cbn; [apply Hk|reflexivity].
Qed.

Lemma list_items_returns (r : loc) (l : list string) (w : world) :
  lists w !! r = Some l → list_items r w = (Return l, w).
Proof. unfold list_items. now intros ->. Qed.

(** A list that is passed and is not empty is the list that is used. *)
Lemma mypy_options_passed (r : loc) (old : list string) (w : world) :
  lists w !! r = Some old → old ≠ [] →
  mypy_options_or_new (Some r) w = (Return r, w).
Proof.
  intros Hold Hne. unfold mypy_options_or_new.
  rewrite (bind_returns _ _ _ _ _ (list_items_returns _ _ _ Hold)).
  destruct old; [contradiction|reflexivity].
Qed.

(** The module set that [get_mypy_config] returns is the one that
    [process_options] returned, with options that are supported. *)
Lemma get_mypy_config_returned paths mypy_options w sources options w' :
  get_mypy_config paths mypy_options w = (Return (sources, options), w') →
  ∃ files args options0,
    process_options files args = Return (sources, options0)
    ∧ unsupported options0 = false.
Proof.
  unfold get_mypy_config. intros H.
  apply bind_returned in H as (r & w1 & _ & H).
  apply bind_returned in H as ([] & w2 & _ & H).
  apply bind_returned in H as ([] & w3 & _ & H).
  apply bind_returned in H as (args & w4 & _ & H).
  apply bind_returned in H as (files & w5 & _ & H).
  apply bind_returned in H as ([ss oo] & w6 & Hcall & H).
  unfold lift in Hcall. injection Hcall as Hcall _.
  apply bind_returned in H as ([] & w7 & Hversion & H).
  apply bind_returned in H as ([] & w8 & Hstrict & H).
  injection H as <- _ _.
  exists files, args, oo. split; [exact Hcall|].
  unfold unsupported.
  destruct (fst (Options.python_version oo) =? 2); [discriminate Hversion|].
  destruct (Options.strict_optional oo); [reflexivity|discriminate Hstrict].
Qed.

(** A list that is passed and is not empty receives ['--'] and the
    paths, whatever happens next. *)
Lemma get_mypy_config_appends paths (r : loc) (old : list string) (w : world) :
  lists w !! r = Some old → old ≠ [] →
  lists (snd (get_mypy_config paths (Some r) w)) !! r = Some (old ++ "--" :: paths).
Proof.
  intros Hold Hne. unfold get_mypy_config.
  rewrite (bind_returns _ _ _ _ _ (mypy_options_passed _ _ _ Hold Hne)).
  erewrite bind_returns by reflexivity.
  erewrite bind_returns by reflexivity.
  match goal with
  | |- context [snd (?m ?w3)] =>
      assert (Hkeeps : keeps same_lists m) by (unfold fail; frame);
      pose proof (Hkeeps w3) as Hsame
  end.
  unfold same_lists in Hsame. rewrite Hsame. cbn.
  rewrite !lookup_alter_eq, Hold. cbn. now rewrite <- app_assoc.
Qed.

End configuration.

(** ** The shim generator *)

Section shims.
Context {E : External}.

(** Both templates are well formed and only name the two keyword
    arguments, so that formatting them returns. *)
Lemma shim_template_formats (platform module_name full_modname : string) :
  ∃ text,
    str_format
      (if String.eqb platform "win32" then shim_template_windows else shim_template_unix)
      [("modname", module_name); ("full_modname", full_modname)]
    = Return text.
Proof.
  destruct (String.eqb platform "win32"); eexists; lazy; reflexivity.
Qed.

Lemma set_fs_overwrite (p : string) (n1 n2 : node) (w : world) :
  set_fs (insert p n2) (set_fs (insert p n1) w) = set_fs (insert p n2) w.
Proof. unfold set_fs. cbn. now rewrite insert_insert_eq. Qed.

(** The shim generator returns the path of the shim and leaves, at that
    path, the formatted template. *)
Lemma generate_c_extension_shim_writes (full_module_name module_name : string) :
  ∃ text,
    str_format
      (if String.eqb sys_platform "win32" then shim_template_windows else shim_template_unix)
      [("modname", module_name); ("full_modname", exported_name full_module_name)]
    = Return text
    ∧ ∀ dirname w,
        let cpath := posixpath.join dirname
                       [Py.str_replace "." "___" full_module_name +:+ ".c"] in
        generate_c_extension_shim full_module_name module_name dirname w
        = (Return cpath, set_fs (insert cpath (File text)) w).
Proof.
  destruct (shim_template_formats sys_platform module_name (exported_name full_module_name))
    as [text Htext].
  exists text. split; [exact Htext|]. intros dirname w cpath. subst cpath.
  unfold generate_c_extension_shim. cbv zeta.
  generalize (posixpath.join dirname [Py.str_replace "." "___" full_module_name +:+ ".c"]).
  intros cpath.
  erewrite bind_returns by reflexivity.
  rewrite Htext.
  erewrite bind_returns by reflexivity.
  unfold bind, f_write, open_w, modify. cbn [fs set_fs].
  rewrite lookup_insert_eq. unfold ret. now rewrite set_fs_overwrite.
Qed.

End shims.

(** ** The builders *)

Section plan_lemmas.

Lemma existsb_false {A} (f : A → bool) (l : list A) :
  existsb f l = false ↔ Forall (fun x => f x = false) l.
Proof.
  induction l as [|x l IH]; cbn.
  - split; [constructor|reflexivity].
  - rewrite orb_false_iff, IH, Forall_cons. reflexivity.
Qed.

Lemma existsb_true {A} (f : A → bool) (l : list A) :
  existsb f l = true ↔ Exists (fun x => f x = true) l.
Proof.
  induction l as [|x l IH]; cbn.
  - split; [discriminate|intros H; inversion H].
  - rewrite orb_true_iff, IH, Exists_cons. reflexivity.
Qed.

Lemma Forall2_left {A B} (P : A → B → Prop) (Q : A → Prop) (l : list A) (k : list B) :
  Forall2 P l k → (∀ x y, P x y → Q x) → Forall Q l.
Proof. intros H HPQ. induction H; constructor; eauto. Qed.

Lemma filter_none {A} (f : A → bool) (l : list A) :
  Forall (fun x => f x = false) l → List.filter f l = [].
Proof.
  induction 1 as [|x l Hx _ IH]; cbn; [reflexivity|]. now rewrite Hx.
Qed.

End plan_lemmas.

Section builders.
Context {E : External}.

Lemma fresh_extension (w : world) : extensions w !! fresh (dom (extensions w)) = None.
Proof. apply not_elem_of_dom, is_fresh. Qed.

(** One turn of the loop: a new shim descriptor is appended. *)
Lemma shim_extension_returns shared build_dir cflags acc (source : BuildSource.t) w :
  has_path source →
  ∃ shim_file w',
    shim_extension shared build_dir cflags acc source w
    = (Return (acc ++ [fresh (dom (extensions w))]), w')
    ∧ extensions w'
      = <[fresh (dom (extensions w)) :=
            MypycifyExtension.mk (shim_name source) [shim_file] [] cflags false (Some shared)]>
          (extensions w).
Proof.
  unfold has_path, shim_name, is_package_init. intros Hpath.
  destruct (generate_c_extension_shim_writes (BuildSource.module source)
              (last_component (BuildSource.module source))) as (text & _ & Hgen).
  unfold shim_extension. rewrite (bind_returns _ _ _ _ _ (Hgen build_dir w)).
  destruct (BuildSource.path source) as [[|c p]|]; try discriminate Hpath.
  eexists _, _. split; reflexivity.
Qed.

(** A source without a path stops the loop with an [AssertionError]. *)
Lemma shim_extension_returned shared build_dir cflags acc (source : BuildSource.t) w r w' :
  shim_extension shared build_dir cflags acc source w = (Return r, w') →
  has_path source.
Proof.
  unfold has_path, shim_extension. intros H.
  apply bind_returned in H as (shim_file & w1 & _ & H).
  destruct (BuildSource.path source) as [[|c p]|]; try discriminate H. reflexivity.
Qed.

Lemma shim_loop shared build_dir cflags (sources : list BuildSource.t) :
  ∀ acc w,
    Forall has_path sources →
    ∃ shims w',
      for_each sources (shim_extension shared build_dir cflags) acc w
      = (Return (acc ++ shims), w')
      ∧ Forall2 (fun r source => ∃ shim_file,
                   extensions w' !! r
                   = Some (MypycifyExtension.mk (shim_name source) [shim_file] [] cflags
                             false (Some shared)))
          shims sources
      ∧ Forall (fun r => extensions w !! r = None) shims
      ∧ NoDup shims
      ∧ (∀ r, is_Some (extensions w !! r) → extensions w' !! r = extensions w !! r).
Proof.
  induction sources as [|source sources IH]; intros acc w Hpaths.
  - exists [], w. rewrite app_nil_r. repeat split; auto; constructor.
  - apply Forall_cons in Hpaths as [Hpath Hpaths].
    destruct (shim_extension_returns shared build_dir cflags acc source w Hpath)
      as (shim_file & w1 & Hstep & Hw1).
    set (r := fresh (dom (extensions w))) in *.
    assert (Hr : extensions w !! r = None) by apply fresh_extension.
    destruct (IH (acc ++ [r]) w1 Hpaths) as (shims & w' & Hloop & Hnew & Hfresh & Hdup & Hold).
    assert (Hr1 : is_Some (extensions w1 !! r)).
    { rewrite Hw1, lookup_insert_eq. eauto. }
    exists (r :: shims), w'. split; [|repeat split].
    + cbn [for_each]. rewrite (bind_returns _ _ _ _ _ Hstep), Hloop.
      now rewrite <- app_assoc.
    + constructor; [|exact Hnew].
      exists shim_file. rewrite (Hold r Hr1), Hw1. apply lookup_insert_eq.
    + constructor; [exact Hr|].
      eapply Forall_impl; [exact Hfresh|]. intros r' Hr'. cbn in Hr'.
      rewrite Hw1 in Hr'. apply lookup_insert_None in Hr'. tauto.
    + constructor; [|exact Hdup].
      intros Hin. rewrite Forall_forall in Hfresh.
      specialize (Hfresh r Hin). destruct Hr1 as [e He]. congruence.
    + intros r' Hr'.
      assert (Hne : r ≠ r') by (intros ->; destruct Hr' as [e He]; congruence).
      rewrite Hold; rewrite Hw1, lookup_insert_ne; auto.
Qed.

Lemma shim_loop_returned shared build_dir cflags (sources : list BuildSource.t) :
  ∀ acc w r w',
    for_each sources (shim_extension shared build_dir cflags) acc w = (Return r, w') →
    Forall has_path sources.
Proof.
  induction sources as [|source sources IH]; intros acc w r w' H; [constructor|].
  cbn [for_each] in H. apply bind_returned in H as (acc1 & w1 & Hstep & H).
  constructor; [eapply shim_extension_returned, Hstep|eapply IH, H].
Qed.

(** The shared build: the shared-library descriptor, then one shim per
    module, all of them new objects. *)
Lemma build_using_shared_lib_returns sources lib_name cfiles build_dir cflags w :
  Forall has_path sources →
  ∃ shared shims w',
    build_using_shared_lib sources lib_name cfiles build_dir cflags w
    = (Return (shared :: shims), w')
    ∧ extensions w' !! shared
      = Some (MypycifyExtension.mk ("lib" +:+ lib_name) cfiles [include_dir] cflags true None)
    ∧ Forall2 (fun r source => ∃ shim_file,
                 extensions w' !! r
                 = Some (MypycifyExtension.mk (shim_name source) [shim_file] [] cflags
                           false (Some shared)))
        shims sources
    ∧ (shared ∉ shims)
    ∧ NoDup shims.
Proof.
  intros Hpaths. unfold build_using_shared_lib.
  erewrite bind_returns by reflexivity.
  set (shared := fresh (dom (extensions w))).
  set (w1 := set_extensions _ w).
  assert (H1 : extensions w1 !! shared = Some
            (MypycifyExtension.mk ("lib" +:+ lib_name) cfiles [include_dir] cflags true None)).
  { apply lookup_insert_eq. }
  destruct (shim_loop shared build_dir cflags sources [shared] w1 Hpaths)
    as (shims & w' & Hloop & Hnew & Hfresh & Hdup & Hold).
  exists shared, shims, w'. split; [exact Hloop|]. repeat split; auto.
  - rewrite Hold; eauto.
  - intros Hin. rewrite Forall_forall in Hfresh. specialize (Hfresh _ Hin). congruence.
Qed.

Lemma build_using_shared_lib_returned sources lib_name cfiles build_dir cflags w r w' :
  build_using_shared_lib sources lib_name cfiles build_dir cflags w = (Return r, w') →
  Forall has_path sources.
Proof.
  unfold build_using_shared_lib. intros H.
  apply bind_returned in H as (shared & w1 & _ & H).
  eapply shim_loop_returned, H.
Qed.

(** The single build: one new descriptor, named after the first module. *)
Lemma build_single_module_returns source sources cfiles cflags w :
  build_single_module (source :: sources) cfiles cflags w
  = (Return [fresh (dom (extensions w))],
     set_extensions
       (insert (fresh (dom (extensions w)))
          (MypycifyExtension.mk (BuildSource.module source) cfiles [include_dir] cflags
             false None)) w).
Proof. reflexivity. Qed.

(** A build that returns went through the builder that the module set
    selects. *)
Lemma mypycify_returned paths mypy_options opt_level multi_file skip_cgen verbose
    strip_asserts w exts w' :
  mypycify paths mypy_options opt_level multi_file skip_cgen verbose strip_asserts w
  = (Return exts, w') →
  ∃ files args sources options cfilenames cflags w3,
    process_options files args = Return (sources, options)
    ∧ dispatch sources cfilenames cflags w3 = (Return exts, w').
Proof.
  rewrite mypycify_stages. unfold mypycify_staged. intros H.
  apply bind_returned in H as ([compiler expanded] & w1 & _ & H).
  apply bind_returned in H as ([sources options] & w2 & Hconfig & H).
  apply bind_returned in H as ([cfilenames cflags] & w3 & _ & H).
  apply get_mypy_config_returned in Hconfig as (files & args & options0 & Hcall & _).
  eauto 10.
Qed.

(** A Shared build that returns followed the plan. *)
Lemma build_using_shared_lib_plan sources lib_name cfiles build_dir cflags w exts w' :
  build_using_shared_lib sources lib_name cfiles build_dir cflags w = (Return exts, w') →
  shared_plan w' sources exts.
Proof.
  intros Hrun.
  pose proof (build_using_shared_lib_returned _ _ _ _ _ _ _ _ Hrun) as Hpaths.
  destruct (build_using_shared_lib_returns sources lib_name cfiles build_dir cflags w Hpaths)
    as (shared & shims & w2 & Hrun2 & Hshared & Hshims & Hnotin & _).
  rewrite Hrun in Hrun2. injection Hrun2 as -> ->.
  assert (Hmark : is_shared_at w2 shared = true).
  { unfold is_shared_at. now rewrite Hshared. }
  assert (Hall : Forall (is_shim_of w2 shared) shims).
  { eapply Forall2_left; [exact Hshims|].
    intros r source [shim_file Hr]. eexists. split; [exact Hr|]. split; reflexivity. }
  exists shared, shims. split; [reflexivity|]. repeat split; auto.
  - cbn. f_equal. eapply Forall2_length, Hshims.
  - cbn [List.filter]. rewrite Hmark. f_equal. apply filter_none.
    eapply Forall_impl; [exact Hall|]. intros r (e & Hr & Hfalse & _).
    unfold is_shared_at. now rewrite Hr.
Qed.

(** The shims of a Shared build that returns are named after their
    modules. *)
Lemma build_using_shared_lib_names sources lib_name cfiles build_dir cflags w exts w' :
  build_using_shared_lib sources lib_name cfiles build_dir cflags w = (Return exts, w') →
  ∃ shared shims,
    exts = shared :: shims
    ∧ Forall2 (fun r source => ∃ e,
                 extensions w' !! r = Some e
                 ∧ MypycifyExtension.name e = shim_name source)
        shims sources.
Proof.
  intros Hrun.
  pose proof (build_using_shared_lib_returned _ _ _ _ _ _ _ _ Hrun) as Hpaths.
  destruct (build_using_shared_lib_returns sources lib_name cfiles build_dir cflags w Hpaths)
    as (shared & shims & w2 & Hrun2 & _ & Hshims & _).
  rewrite Hrun in Hrun2. injection Hrun2 as -> ->.
  exists shared, shims. split; [reflexivity|].
  eapply Forall2_impl; [exact Hshims|].
  intros r source [shim_file Hr]. eexists. split; [exact Hr|reflexivity].
Qed.

(** A build that returns on a module set for which the strategy is Shared
    went through [build_using_shared_lib]. *)
Lemma mypycify_shared_returned sources paths mypy_options opt_level multi_file skip_cgen
    verbose strip_asserts w exts w' :
  module_set sources →
  use_shared_lib sources = true →
  mypycify paths mypy_options opt_level multi_file skip_cgen verbose strip_asserts w
  = (Return exts, w') →
  ∃ lib_name cfiles cflags w3,
    build_using_shared_lib sources lib_name cfiles "build" cflags w3 = (Return exts, w').
Proof.
  intros Hset Hshared Hrun.
  apply mypycify_returned
    in Hrun as (files & args & ss & options & cfilenames & cflags & w3 & Hcall & Hrun).
  apply Hset in Hcall as ->.
  unfold dispatch in Hrun. rewrite Hshared in Hrun.
  destruct (shared_lib_name (map BuildSource.module sources)); [discriminate Hrun|].
  eauto.
Qed.

End builders.


(** ** The build plan *)

(** C2: a Shared build over N modules returns N + 1 descriptors: the
    descriptor with the shared-library marker comes first and is the only
    one that carries the marker, and each of the N others is a shim whose
    back-reference points to it. It holds of [build_using_shared_lib],
    which returns when every source has a path, and of [mypycify] when it
    returns on a module set for which the strategy is Shared. *)
Theorem shared_build_descriptors {E : External} (sources : list BuildSource.t) :
  (∀ lib_name cfiles build_dir cflags w,
      Forall has_path sources →
      ∃ exts w',
        build_using_shared_lib sources lib_name cfiles build_dir cflags w
        = (Return exts, w')
        ∧ shared_plan w' sources exts)
  ∧ (∀ paths mypy_options opt_level multi_file skip_cgen verbose strip_asserts w exts w',
        module_set sources →
        use_shared_lib sources = true →
        mypycify paths mypy_options opt_level multi_file skip_cgen verbose strip_asserts w
        = (Return exts, w') →
        shared_plan w' sources exts).
Proof.
  split.
  - intros lib_name cfiles build_dir cflags w Hpaths.
    destruct (build_using_shared_lib_returns sources lib_name cfiles build_dir cflags w
                Hpaths) as (shared & shims & w' & Hrun & _).
    exists (shared :: shims), w'. split; [exact Hrun|].
    eapply build_using_shared_lib_plan, Hrun.
  - intros paths mypy_options opt_level multi_file skip_cgen verbose strip_asserts
      w exts w' Hset Hshared Hrun.
    destruct (mypycify_shared_returned _ _ _ _ _ _ _ _ _ _ _ Hset Hshared Hrun)
      as (lib_name & cfiles & cflags & w3 & Hbuild).
    eapply build_using_shared_lib_plan, Hbuild.
Qed.

Lemma shared_build_descriptors_witness :
  Forall has_path package_sources
  ∧ @use_shared_lib package_sources = true
  ∧ (∃ exts w',
       @build_using_shared_lib linux_host package_sources "mypyc_0" ["build/CPy.c"] "build" []
         (initial_world [])
       = (Return exts, w')
       ∧ shared_plan w' package_sources exts)
  ∧ (∃ exts w',
       @mypycify (host_with package_sources default_options) ["a/__init__.py"; "a/b.py"]
         None "3" false false false false (initial_world ["a/__init__.py"; "a/b.py"])
       = (Return exts, w')
       ∧ shared_plan w' package_sources exts).
Proof.
  assert (Hpaths : Forall has_path package_sources) by (repeat constructor).
  split; [exact Hpaths|]. split; [reflexivity|]. split.
  - destruct (@shared_build_descriptors linux_host package_sources) as [Hbuild _].
    apply (Hbuild "mypyc_0" ["build/CPy.c"] "build" [] (initial_world []) Hpaths).
  - destruct (@shared_build_descriptors (host_with package_sources default_options)
                package_sources) as [_ Hentry].
    destruct (@mypycify (host_with package_sources default_options)
                ["a/__init__.py"; "a/b.py"] None "3" false false false false
                (initial_world ["a/__init__.py"; "a/b.py"]))
      as [[exts|e] w'] eqn:Hrun;
      [|apply (f_equal fst) in Hrun; vm_compute in Hrun; discriminate Hrun].
    exists exts, w'. split; [reflexivity|].
    eapply Hentry; [|reflexivity|exact Hrun].
    intros files args ss options H. injection H as <- _. reflexivity.
Defined.

(** C5: in a Shared build the name of each shim descriptor is the
    fully-qualified name of its module, followed by ['.__init__'] if and
    only if the source file of the module is a package initializer (the
    last component of its path is ['__init__.py']). It holds of
    [build_using_shared_lib], which returns when every source has a path,
    and of [mypycify] when it returns on a module set for which the
    strategy is Shared. *)
Theorem shim_descriptor_names {E : External} (sources : list BuildSource.t) :
  (∀ lib_name cfiles build_dir cflags w,
      Forall has_path sources →
      ∃ shared shims w',
        build_using_shared_lib sources lib_name cfiles build_dir cflags w
        = (Return (shared :: shims), w')
        ∧ Forall2 (fun r source => ∃ e,
                     extensions w' !! r = Some e
                     ∧ MypycifyExtension.name e
                       = (if is_package_init source
                          then BuildSource.module source +:+ ".__init__"
                          else BuildSource.module source))
            shims sources)
  ∧ (∀ paths mypy_options opt_level multi_file skip_cgen verbose strip_asserts w exts w',
        module_set sources →
        use_shared_lib sources = true →
        mypycify paths mypy_options opt_level multi_file skip_cgen verbose strip_asserts w
        = (Return exts, w') →
        ∃ shared shims,
          exts = shared :: shims
          ∧ Forall2 (fun r source => ∃ e,
                       extensions w' !! r = Some e
                       ∧ MypycifyExtension.name e
                         = (if is_package_init source
                            then BuildSource.module source +:+ ".__init__"
                            else BuildSource.module source))
              shims sources).
Proof.
  split.
  - intros lib_name cfiles build_dir cflags w Hpaths.
    destruct (build_using_shared_lib_returns sources lib_name cfiles build_dir cflags w
                Hpaths) as (shared & shims & w' & Hrun & _).
    exists shared, shims, w'. split; [exact Hrun|].
    destruct (build_using_shared_lib_names _ _ _ _ _ _ _ _ Hrun)
      as (shared' & shims' & Heq & Hnames).
    injection Heq as <- <-. exact Hnames.
  - intros paths mypy_options opt_level multi_file skip_cgen verbose strip_asserts
      w exts w' Hset Hshared Hrun.
    destruct (mypycify_shared_returned _ _ _ _ _ _ _ _ _ _ _ Hset Hshared Hrun)
      as (lib_name & cfiles & cflags & w3 & Hbuild).
    eapply build_using_shared_lib_names, Hbuild.
Qed.

Lemma shim_descriptor_names_witness :
  Forall has_path package_sources
  ∧ map is_package_init package_sources = [true; false]
  ∧ (∃ shared shims w',
       @build_using_shared_lib linux_host package_sources "mypyc_0" ["build/CPy.c"] "build" []
         (initial_world [])
       = (Return (shared :: shims), w')
       ∧ Forall2 (fun r name => ∃ e,
                    extensions w' !! r = Some e ∧ MypycifyExtension.name e = name)
           shims ["a.__init__"; "a.b"])
  ∧ (∃ shared shims w',
       @mypycify (host_with package_sources default_options) ["a/__init__.py"; "a/b.py"]
         None "3" false false false false (initial_world ["a/__init__.py"; "a/b.py"])
       = (Return (shared :: shims), w')
       ∧ Forall2 (fun r name => ∃ e,
                    extensions w' !! r = Some e ∧ MypycifyExtension.name e = name)
           shims ["a.__init__"; "a.b"]).
Proof.
  assert (Hpaths : Forall has_path package_sources) by (repeat constructor).
  assert (Hlist : ∀ (w' : world) (shims : list loc),
            Forall2 (fun r source => ∃ e,
                       extensions w' !! r = Some e
                       ∧ MypycifyExtension.name e
                         = (if is_package_init source
                            then BuildSource.module source +:+ ".__init__"
                            else BuildSource.module source))
              shims package_sources →
            Forall2 (fun r name => ∃ e,
                       extensions w' !! r = Some e ∧ MypycifyExtension.name e = name)
              shims ["a.__init__"; "a.b"]).
  { intros w' shims Hnames.
    inversion Hnames as [|r1 s1 l1 k1 H1 Hrest]; subst.
    inversion Hrest as [|r2 s2 l2 k2 H2 Hnil]; subst.
    inversion Hnil; subst.
    repeat constructor; assumption. }
  split; [exact Hpaths|]. split; [reflexivity|]. split.
  - destruct (@shim_descriptor_names linux_host package_sources) as [Hbuild _].
    destruct (Hbuild "mypyc_0" ["build/CPy.c"] "build" [] (initial_world []) Hpaths)
      as (shared & shims & w' & Hrun & Hnames).
    exists shared, shims, w'. split; [exact Hrun|]. apply Hlist, Hnames.
  - destruct (@shim_descriptor_names (host_with package_sources default_options)
                package_sources) as [_ Hentry].
    destruct (@mypycify (host_with package_sources default_options)
                ["a/__init__.py"; "a/b.py"] None "3" false false false false
                (initial_world ["a/__init__.py"; "a/b.py"]))
      as [[exts|e] w'] eqn:Hrun;
      [|apply (f_equal fst) in Hrun; vm_compute in Hrun; discriminate Hrun].
    destruct (Hentry ["a/__init__.py"; "a/b.py"] None "3" false false false false
                (initial_world ["a/__init__.py"; "a/b.py"]) exts w')
      as (shared & shims & -> & Hnames);
      [|reflexivity|exact Hrun|].
    { intros files args ss options H. injection H as <- _. reflexivity. }
    exists shared, shims, w'. split; [reflexivity|]. apply Hlist, Hnames.
Defined.

(** C7: shim source generation is deterministic. Whatever the directory
    and the world, and on any two hosts with the same platform and the same
    exported name for the module, the generator returns and leaves the
    same text at the path it returns: the text depends on the module name,
    the short module name and the platform only. *)
Theorem shim_source_deterministic (E1 E2 : External)
    (full_module_name module_name : string) (dirname1 dirname2 : string)
    (w1 w2 : world) :
  @sys_platform E1 = @sys_platform E2 →
  @exported_name E1 full_module_name = @exported_name E2 full_module_name →
  ∃ cpath1 cpath2 text w1' w2',
    @generate_c_extension_shim E1 full_module_name module_name dirname1 w1
    = (Return cpath1, w1')
    ∧ @generate_c_extension_shim E2 full_module_name module_name dirname2 w2
      = (Return cpath2, w2')
    ∧ fs w1' !! cpath1 = Some (File text)
    ∧ fs w2' !! cpath2 = Some (File text).
Proof.
  intros Hplatform Hname.
  destruct (@generate_c_extension_shim_writes E1 full_module_name module_name)
    as (text1 & Htext1 & Hgen1).
  destruct (@generate_c_extension_shim_writes E2 full_module_name module_name)
    as (text2 & Htext2 & Hgen2).
  rewrite Hplatform, Hname, Htext2 in Htext1. injection Htext1 as <-.
  eexists _, _, text2, _, _.
  split; [apply Hgen1|]. split; [apply Hgen2|].
  split; apply lookup_insert_eq.
Qed.

Lemma shim_source_deterministic_witness :
  ∃ cpath1 cpath2 text w1' w2',
    @generate_c_extension_shim linux_host "a.b" "b" "build" (initial_world [])
    = (Return cpath1, w1')
    ∧ @generate_c_extension_shim linux_host "a.b" "b" "out" (initial_world ["a/b.py"])
      = (Return cpath2, w2')
    ∧ fs w1' !! cpath1 = Some (File text)
    ∧ fs w2' !! cpath2 = Some (File text).
Proof.
  apply (shim_source_deterministic linux_host linux_host "a.b" "b" "build" "out"
           (initial_world []) (initial_world ["a/b.py"])); reflexivity.
Defined.

(** ** The entry point *)

Section entry_point.
Context {E : External}.

Lemma keeps_run {A} (R : relation world) (m : M A) (w w' : world) (o : outcome A) :
  keeps R m → m w = (o, w') → R w w'.
Proof. intros Hkeeps Hrun. specialize (Hkeeps w). now rewrite Hrun in Hkeeps. Qed.

(** Once the config vars are set up and the compiler object exists, the
    build directory is there: it is created, or it was there already. *)
Lemma prepare_returns paths w w1 compiler :
  setup_mypycify_vars w = (Return tt, w1) →
  new_compiler = Return compiler →
  ∃ w2,
    prepare paths w = (Return (compiler, concat (map (glob_glob (fs w1)) paths)), w2)
    ∧ is_Some (fs w2 !! "build").
Proof.
  intros Hsetup Hcompiler. unfold prepare.
  rewrite (bind_returns _ _ _ _ _ Hsetup), Hcompiler.
  erewrite bind_returns by reflexivity.
  erewrite bind_returns by reflexivity.
  unfold bind, try_except, os_mkdir.
  destruct (fs w1 !! "build") as [n|] eqn:Hdir.
  - exists w1. split; [reflexivity|]. rewrite Hdir. eauto.
  - eexists. split; [reflexivity|]. cbn. rewrite lookup_insert_eq. eauto.
Qed.

End entry_point.

(** C10, as amended: when a list of mypy options that is not empty is
    passed to [mypycify], it is mutated in place: ['--'] and the expanded
    input paths are appended to the list of the caller, which therefore
    does not remain unchanged. *)
Theorem mypy_options_mutated {E : External} (paths : list string) (r : loc)
    (old : list string) (opt_level : string)
    (multi_file skip_cgen verbose strip_asserts : bool) (w w1 : world)
    (compiler : Compiler.t) :
  lists w !! r = Some old →
  old ≠ [] →
  setup_mypycify_vars w = (Return tt, w1) →
  new_compiler = Return compiler →
  lists (snd (mypycify paths (Some r) opt_level multi_file skip_cgen verbose
                strip_asserts w)) !! r
  = Some (old ++ "--" :: concat (map (glob_glob (fs w1)) paths))
  ∧ old ++ "--" :: concat (map (glob_glob (fs w1)) paths) ≠ old.
Proof.
  intros Hold Hne Hsetup Hcompiler. split.
  - rewrite mypycify_stages. unfold mypycify_staged.
    destruct (prepare_returns paths w w1 compiler Hsetup Hcompiler) as (w2 & Hprepare & _).
    rewrite (bind_returns _ _ _ _ _ Hprepare). cbn beta iota.
    assert (Hlists : lists w2 = lists w).
    { eapply (keeps_run same_lists), Hprepare. apply prepare_lists. }
    match goal with
    | |- context [bind ?m ?k w2] =>
        assert (Htail : same_lists (snd (m w2)) (snd (bind m k w2)))
    end.
    { apply bind_keeps_tail; [typeclasses eauto|]. intros [sources options].
      apply keeps_bind; [typeclasses eauto|apply outputs_lists|].
      intros [cfilenames cflags]. apply dispatch_lists. }
    unfold same_lists in Htail. rewrite Htail.
    apply get_mypy_config_appends; [now rewrite Hlists|exact Hne].
  - intros Heq. apply (f_equal length) in Heq.
    rewrite length_app in Heq. cbn in Heq. lia.
Qed.

Lemma mypy_options_mutated_witness :
  lists (snd (@mypycify linux_host ["foo.py"] (Some 0%nat) "3" false false false false
                (world_with_options ["foo.py"] ["--strict"]))) !! 0%nat
  = Some ["--strict"; "--"; "foo.py"].
Proof.
  apply (@mypy_options_mutated linux_host ["foo.py"] 0%nat ["--strict"] "3"
           false false false false
           (world_with_options ["foo.py"] ["--strict"])
           (world_with_options ["foo.py"] ["--strict"])
           (Compiler.mk "unix" ["gcc"])); [reflexivity|discriminate|reflexivity|reflexivity].
Defined.

(** A list of mypy options that is passed but empty is not mutated: the
    build returns, the list of the caller is as empty as before, and the
    arguments of mypy went to a new list. *)
Lemma empty_mypy_options_untouched :
  lists (world_with_options ["foo.py"] []) !! 0%nat = Some []
  ∧ (∃ exts,
       fst (@mypycify linux_host ["foo.py"] (Some 0%nat) "3" false false false false
              (world_with_options ["foo.py"] []))
       = Return exts)
  ∧ lists (snd (@mypycify linux_host ["foo.py"] (Some 0%nat) "3" false false false false
                  (world_with_options ["foo.py"] []))) !! 0%nat
    = Some []
  ∧ lists (snd (@mypycify linux_host ["foo.py"] (Some 0%nat) "3" false false false false
                  (world_with_options ["foo.py"] []))) !! 1%nat
    = Some ["--"; "foo.py"].
Proof.
  split; [|split; [|split]].
  - vm_compute. reflexivity.
  - eexists. vm_compute. reflexivity.
  - vm_compute. reflexivity.
  - vm_compute. reflexivity.
Qed.

(** * Further properties *)

(** ** The config vars *)

(** X1: on a platform other than darwin [setup_mypycify_vars] changes
    nothing, whatever the config vars. On darwin, when the three config
    vars are there, it returns after rewriting them and nothing else: the
    linker makes a dynamic library instead of a bundle, and the flags no
    longer ask for a 32-bit build. *)
Theorem setup_mypycify_vars_rewrites {E : External} (w : world) :
  (sys_platform ≠ "darwin" → setup_mypycify_vars w = (Return tt, w))
  ∧ (sys_platform = "darwin" →
     ∀ ldshared ldflags cflags,
       config_vars w !! "LDSHARED" = Some ldshared →
       config_vars w !! "LDFLAGS" = Some ldflags →
       config_vars w !! "CFLAGS" = Some cflags →
       setup_mypycify_vars w
       = (Return tt,
          set_config_vars
            (fun vars =>
               <["CFLAGS" := Py.str_replace "-arch i386" "" cflags]>
                 (<["LDFLAGS" := Py.str_replace "-arch i386" "" ldflags]>
                    (<["LDSHARED" := Py.str_replace "-bundle" "-dynamiclib" ldshared]>
                       vars)))
            w)).
Proof.
  unfold setup_mypycify_vars. split.
  - intros Hplatform. apply String.eqb_neq in Hplatform. now rewrite Hplatform.
  - intros Hplatform ldshared ldflags cflags Hshared Hflags Hcflags.
    rewrite Hplatform, String.eqb_refl.
    unfold replace_in_var, bind, gets, modify. cbn [config_vars set_config_vars].
    rewrite Hshared. cbn [config_vars set_config_vars].
    rewrite lookup_insert_ne by discriminate. rewrite Hflags.
    cbn [config_vars set_config_vars].
    rewrite !lookup_insert_ne by discriminate. rewrite Hcflags. reflexivity.
Qed.

Lemma setup_mypycify_vars_rewrites_witness :
  @setup_mypycify_vars linux_host (initial_world []) = (Return tt, initial_world [])
  ∧ @setup_mypycify_vars (on_platform "darwin" linux_host) darwin_world
    = (Return tt,
       World ∅ ∅ ∅
         (<["LDSHARED" := "cc -dynamiclib -undefined dynamic_lookup"]>
            (<["LDFLAGS" := " -arch x86_64"]> {["CFLAGS" := " -arch x86_64 -g"]}))
         []).
Proof.
  split.
  - apply (@setup_mypycify_vars_rewrites linux_host (initial_world [])). discriminate.
  - destruct (@setup_mypycify_vars_rewrites (on_platform "darwin" linux_host) darwin_world)
      as [_ Hdarwin].
    rewrite (Hdarwin eq_refl "cc -bundle -undefined dynamic_lookup"
               "-arch i386 -arch x86_64" "-arch i386 -arch x86_64 -g"
               eq_refl eq_refl eq_refl).
    vm_compute. reflexivity.
Defined.

(** X2: on darwin a config var that is missing ends
    [setup_mypycify_vars] with the [KeyError] of the first one missing, in
    the order LDSHARED, LDFLAGS, CFLAGS; the vars before it have been
    rewritten by then and stay so. *)
Theorem setup_mypycify_vars_missing {E : External} (w : world) :
  sys_platform = "darwin" →
  (config_vars w !! "LDSHARED" = None →
   setup_mypycify_vars w = (Raise (KeyError "LDSHARED"), w))
  ∧ (∀ ldshared,
       config_vars w !! "LDSHARED" = Some ldshared →
       config_vars w !! "LDFLAGS" = None →
       setup_mypycify_vars w
       = (Raise (KeyError "LDFLAGS"),
          set_config_vars
            (insert "LDSHARED" (Py.str_replace "-bundle" "-dynamiclib" ldshared)) w))
  ∧ (∀ ldshared ldflags,
       config_vars w !! "LDSHARED" = Some ldshared →
       config_vars w !! "LDFLAGS" = Some ldflags →
       config_vars w !! "CFLAGS" = None →
       setup_mypycify_vars w
       = (Raise (KeyError "CFLAGS"),
          set_config_vars
            (fun vars =>
               <["LDFLAGS" := Py.str_replace "-arch i386" "" ldflags]>
                 (<["LDSHARED" := Py.str_replace "-bundle" "-dynamiclib" ldshared]> vars))
            w)).
Proof.
  intros Hplatform. unfold setup_mypycify_vars. rewrite Hplatform, String.eqb_refl.
  unfold replace_in_var, bind, gets, modify, raise.
  split; [|split].
  - intros Hshared. cbn [config_vars]. now rewrite Hshared.
  - intros ldshared Hshared Hflags. cbn [config_vars]. rewrite Hshared.
    cbn [config_vars set_config_vars].
    rewrite lookup_insert_ne by discriminate. now rewrite Hflags.
  - intros ldshared ldflags Hshared Hflags Hcflags. cbn [config_vars]. rewrite Hshared.
    cbn [config_vars set_config_vars].
    rewrite lookup_insert_ne by discriminate. rewrite Hflags.
    cbn [config_vars set_config_vars].
    rewrite !lookup_insert_ne by discriminate. now rewrite Hcflags.
Qed.

Lemma setup_mypycify_vars_missing_witness :
  @setup_mypycify_vars (on_platform "darwin" linux_host) (initial_world [])
  = (Raise (KeyError "LDSHARED"), initial_world []).
Proof.
  destruct (@setup_mypycify_vars_missing (on_platform "darwin" linux_host)
              (initial_world []) eq_refl) as [Hmissing _].
  apply Hmissing. reflexivity.
Defined.

(** ** The configuration step, in full *)

Section configuration_run.
Context {E : External}.

Lemma alter_lookup_insert {A} (f : A → A) (m : gmap loc A) (r : loc) (x : A) :
  m !! r = Some x → alter f r m = <[r := f x]> m.
Proof.
  intros Hx. apply map_eq. intros k. destruct (decide (r = k)) as [<-|Hne].
  - now rewrite lookup_alter_eq, lookup_insert_eq, Hx.
  - now rewrite lookup_alter_ne, lookup_insert_ne.
Qed.

(** The list that the configuration step fills: the list passed when it
    has an item, a new list otherwise. *)
Lemma mypy_options_filled (paths : list string) (mypy_options : option loc) (w : world) :
  live mypy_options w →
  ∃ r w3,
    (let* r := mypy_options_or_new mypy_options in
     list_append r "--" ;; list_extend r paths ;; ret r) w = (Return r, w3)
    ∧ w3 = set_lists (insert r (passed_items mypy_options w ++ "--" :: paths)) w
    ∧ (passed_items mypy_options w = [] → lists w !! r = None)
    ∧ (passed_items mypy_options w ≠ [] → mypy_options = Some r).
Proof.
  intros Hlive.
  assert (Hnew : ∀ w0 : world,
            (let* r := new_list [] in
             list_append r "--" ;; list_extend r paths ;; ret r) w0
            = (Return (fresh (dom (lists w0))),
               set_lists (insert (fresh (dom (lists w0))) ("--" :: paths)) w0)).
  { intros w0. unfold bind, new_list, list_append, list_extend, modify, ret, set_lists.
    cbn. rewrite !alter_insert_eq. reflexivity. }
  destruct mypy_options as [r|]; cbn [live] in Hlive; unfold passed_items.
  - destruct Hlive as [old Hold]. rewrite Hold. cbn [default].
    destruct old as [|x old].
    + exists (fresh (dom (lists w))),
        (set_lists (insert (fresh (dom (lists w))) ("--" :: paths)) w).
      split; [|split; [reflexivity|split; [|intros Hne; now contradiction Hne]]].
      * rewrite <- Hnew. unfold mypy_options_or_new.
        unfold bind at 1 2. rewrite (list_items_returns _ _ _ Hold). reflexivity.
      * intros _. apply not_elem_of_dom, is_fresh.
    + exists r, (set_lists (insert r ((x :: old) ++ "--" :: paths)) w).
      split; [|split; [reflexivity|split; [discriminate|reflexivity]]].
      unfold bind at 1. rewrite (mypy_options_passed r (x :: old) w Hold) by discriminate.
      unfold bind, list_append, list_extend, modify, ret, set_lists. cbn.
      rewrite (alter_lookup_insert _ _ _ (x :: old) Hold), alter_insert_eq.
      cbn. now rewrite <- app_assoc.
  - exists (fresh (dom (lists w))),
      (set_lists (insert (fresh (dom (lists w))) ("--" :: paths)) w).
    split; [apply Hnew|]. split; [reflexivity|].
    split; [|intros Hne; now contradiction Hne].
    intros _. apply not_elem_of_dom, is_fresh.
Qed.

(** The configuration step as a function of what mypy answers. *)
Lemma get_mypy_config_run (paths : list string) (mypy_options : option loc) (w : world) :
  live mypy_options w →
  ∃ r,
    (passed_items mypy_options w = [] → lists w !! r = None)
    ∧ (passed_items mypy_options w ≠ [] → mypy_options = Some r)
    ∧ get_mypy_config paths mypy_options w
      = (match process_options (fs w) (passed_items mypy_options w ++ "--" :: paths) with
         | Raise e => Raise e
         | Return (sources, options) =>
             if fst (Options.python_version options) =? 2
             then Raise (SystemExit (ExitMessage "Python 2 not supported"))
             else if negb (Options.strict_optional options)
             then Raise (SystemExit
                           (ExitMessage "Disabling strict optional checking not supported"))
             else Return
                    (sources,
                     Options.mk (Options.python_version options)
                       (Options.strict_optional options) true true false
                       (fold_left mark_mypyc sources (Options.per_module_options options)))
         end,
         set_lists (insert r (passed_items mypy_options w ++ "--" :: paths)) w).
Proof.
  intros Hlive.
  destruct (mypy_options_filled paths mypy_options w Hlive) as (r & w3 & Hfill & -> & Hnew & Hold).
  exists r. split; [exact Hnew|]. split; [exact Hold|].
  unfold get_mypy_config.
  apply bind_returned in Hfill as (r1 & w1 & Hr1 & Hfill).
  apply bind_returned in Hfill as ([] & w2 & Happend & Hfill).
  apply bind_returned in Hfill as ([] & w4 & Hextend & Hfill).
  injection Hfill as -> ->.
  rewrite (bind_returns _ _ _ _ _ Hr1), (bind_returns _ _ _ _ _ Happend),
    (bind_returns _ _ _ _ _ Hextend).
  erewrite bind_returns by (apply list_items_returns; cbn; apply lookup_insert_eq).
  erewrite bind_returns by reflexivity.
  cbn [fs set_lists].
  destruct (process_options (fs w) (passed_items mypy_options w ++ "--" :: paths))
    as [[sources options]|e]; [|reflexivity].
  erewrite bind_returns by reflexivity. cbn beta iota.
  destruct (fst (Options.python_version options) =? 2); [reflexivity|].
  erewrite bind_returns by reflexivity.
  destruct (Options.strict_optional options); reflexivity.
Qed.

(** Marking the modules of the sources: the mark is set for each of them
    and the other modules are left alone. *)
Lemma mark_mypyc_other (sources : list BuildSource.t) :
  ∀ pmo m,
    m ∉ map BuildSource.module sources →
    fold_left mark_mypyc sources pmo !! m = pmo !! m.
Proof.
  induction sources as [|source sources IH]; intros pmo m Hm; [reflexivity|].
  cbn [map] in Hm. apply not_elem_of_cons in Hm as [Hne Hm].
  cbn [fold_left]. rewrite IH by exact Hm.
  unfold mark_mypyc. now rewrite lookup_insert_ne.
Qed.

Lemma mark_mypyc_marked (sources : list BuildSource.t) :
  ∀ pmo m,
    m ∈ map BuildSource.module sources →
    fold_left mark_mypyc sources pmo !! m
    = Some (<["mypyc" := true]> (default ∅ (pmo !! m))).
Proof.
  induction sources as [|source sources IH]; intros pmo m Hm; [inversion Hm|].
  cbn [fold_left].
  destruct (decide (m ∈ map BuildSource.module sources)) as [Hin|Hout].
  - rewrite IH by exact Hin. unfold mark_mypyc.
    destruct (decide (BuildSource.module source = m)) as [->|Hne].
    + cbv zeta. rewrite lookup_insert_eq. unfold default at 1. cbn [from_option id].
      now rewrite insert_insert_eq.
    + now rewrite lookup_insert_ne.
  - rewrite mark_mypyc_other by exact Hout.
    cbn [map] in Hm. apply elem_of_cons in Hm as [->|Hin]; [|contradiction].
    unfold mark_mypyc. apply lookup_insert_eq.
Qed.

End configuration_run.

(** X3: when [get_mypy_config] returns, the options have tracebacks and
    type export switched on and incremental checking switched off, the
    Python version and strict-optional setting of mypy are kept, the
    per-module options of every module among the sources carry
    ['mypyc': True] beside what they held, and the per-module options of
    the other modules are untouched. *)
Theorem get_mypy_config_options {E : External} (paths : list string)
    (mypy_options : option loc) (w w' : world) (sources : list BuildSource.t)
    (options : Options.t) :
  live mypy_options w →
  get_mypy_config paths mypy_options w = (Return (sources, options), w') →
  ∃ options0,
    process_options (fs w) (passed_items mypy_options w ++ "--" :: paths)
    = Return (sources, options0)
    ∧ Options.python_version options = Options.python_version options0
    ∧ Options.strict_optional options = true
    ∧ Options.show_traceback options = true
    ∧ Options.export_types options = true
    ∧ Options.incremental options = false
    ∧ (∀ m, m ∈ map BuildSource.module sources →
            Options.per_module_options options !! m
            = Some (<["mypyc" := true]>
                      (default ∅ (Options.per_module_options options0 !! m))))
    ∧ (∀ m, m ∉ map BuildSource.module sources →
            Options.per_module_options options !! m
            = Options.per_module_options options0 !! m).
Proof.
  intros Hlive Hrun.
  destruct (get_mypy_config_run paths mypy_options w Hlive) as (r & _ & _ & Heq).
  rewrite Hrun in Heq.
  destruct (process_options (fs w) (passed_items mypy_options w ++ "--" :: paths))
    as [[ss options0]|e]; [|discriminate Heq].
  destruct (fst (Options.python_version options0) =? 2); [discriminate Heq|].
  destruct (Options.strict_optional options0) eqn:Hstrict; [|discriminate Heq].
  injection Heq as -> -> _.
  exists options0. cbn. repeat split; auto.
  - intros m Hm. now apply mark_mypyc_marked.
  - intros m Hm. now apply mark_mypyc_other.
Qed.

Lemma get_mypy_config_options_witness :
  ∃ options w',
    @get_mypy_config linux_host ["a/__init__.py"; "a/b.py"] None (initial_world [])
    = (Return (package_sources, options), w')
    ∧ Options.incremental options = false
    ∧ Options.per_module_options options !! "a.b" = Some {["mypyc" := true]}.
Proof.
  destruct (@get_mypy_config linux_host ["a/__init__.py"; "a/b.py"] None (initial_world []))
    as [[[sources options]|e] w'] eqn:Hrun;
    [|apply (f_equal fst) in Hrun; vm_compute in Hrun; discriminate Hrun].
  assert (Hsources : sources = package_sources).
  { apply (f_equal fst) in Hrun. vm_compute in Hrun. now injection Hrun as <- _. }
  subst sources.
  destruct (@get_mypy_config_options linux_host ["a/__init__.py"; "a/b.py"] None
              (initial_world []) w' package_sources options I Hrun)
    as (options0 & Hcall & _ & _ & _ & _ & Hincremental & Hmarked & _).
  exists options, w'. split; [reflexivity|]. split; [exact Hincremental|].
  rewrite (Hmarked "a.b") by (right; left).
  injection Hcall as <-. reflexivity.
Defined.

(** X4: [get_mypy_config] hands mypy the items of the list passed, then
    ['--'], then the paths, and the file system as it finds it. A failure
    of mypy comes out unchanged; options that are accepted come out with
    the module set that mypy found; Python 2 is refused before the
    strict-optional setting is looked at. The world changes in one list
    only. *)
Theorem get_mypy_config_outcome {E : External} (paths : list string)
    (mypy_options : option loc) (w : world) :
  live mypy_options w →
  ∃ r,
    snd (get_mypy_config paths mypy_options w)
    = set_lists (insert r (passed_items mypy_options w ++ "--" :: paths)) w
    ∧ match process_options (fs w) (passed_items mypy_options w ++ "--" :: paths) with
      | Raise e => fst (get_mypy_config paths mypy_options w) = Raise e
      | Return (sources, options) =>
          if fst (Options.python_version options) =? 2
          then fst (get_mypy_config paths mypy_options w)
               = Raise (SystemExit (ExitMessage "Python 2 not supported"))
          else if Options.strict_optional options
          then ∃ options', fst (get_mypy_config paths mypy_options w)
                           = Return (sources, options')
          else fst (get_mypy_config paths mypy_options w)
               = Raise (SystemExit
                          (ExitMessage "Disabling strict optional checking not supported"))
      end.
Proof.
  intros Hlive.
  destruct (get_mypy_config_run paths mypy_options w Hlive) as (r & _ & _ & ->).
  exists r. split; [reflexivity|]. cbn [fst].
  destruct (process_options (fs w) (passed_items mypy_options w ++ "--" :: paths))
    as [[sources options]|e]; [|reflexivity].
  destruct (fst (Options.python_version options) =? 2); [reflexivity|].
  destruct (Options.strict_optional options); cbn [negb]; eauto.
Qed.

Lemma get_mypy_config_outcome_witness :
  fst (@get_mypy_config (host_with lone_source python2_options) ["foo.py"] (Some 0%nat)
         (world_with_options ["foo.py"] ["--strict"]))
  = Raise (SystemExit (ExitMessage "Python 2 not supported")).
Proof.
  destruct (@get_mypy_config_outcome (host_with lone_source python2_options) ["foo.py"]
              (Some 0%nat) (world_with_options ["foo.py"] ["--strict"]))
    as (r & _ & Houtcome).
  { cbn. rewrite lookup_singleton_eq. eauto. }
  exact Houtcome.
Defined.

(** X5: when no list of mypy options is passed, or an empty one, the
    arguments of mypy go to a new list: every list that was in the store,
    the empty list of the caller included, is as it was. *)
Theorem get_mypy_config_new_list {E : External} (paths : list string)
    (mypy_options : option loc) (w : world) :
  live mypy_options w →
  passed_items mypy_options w = [] →
  ∃ r,
    lists w !! r = None
    ∧ lists (snd (get_mypy_config paths mypy_options w)) !! r = Some ("--" :: paths)
    ∧ (∀ r0, is_Some (lists w !! r0) →
             lists (snd (get_mypy_config paths mypy_options w)) !! r0 = lists w !! r0).
Proof.
  intros Hlive Hempty.
  destruct (get_mypy_config_run paths mypy_options w Hlive) as (r & Hnew & _ & ->).
  rewrite Hempty. exists r. specialize (Hnew Hempty).
  split; [exact Hnew|]. cbn. split; [apply lookup_insert_eq|].
  intros r0 [l Hl]. apply lookup_insert_ne. congruence.
Qed.

Lemma get_mypy_config_new_list_witness :
  ∃ r,
    lists (snd (@get_mypy_config linux_host ["foo.py"] (Some 0%nat)
                  (world_with_options ["foo.py"] []))) !! r
    = Some ["--"; "foo.py"]
    ∧ lists (snd (@get_mypy_config linux_host ["foo.py"] (Some 0%nat)
                    (world_with_options ["foo.py"] []))) !! 0%nat
      = Some [].
Proof.
  destruct (@get_mypy_config_new_list linux_host ["foo.py"] (Some 0%nat)
              (world_with_options ["foo.py"] []))
    as (r & _ & Hr & Hold).
  { cbn. rewrite lookup_singleton_eq. eauto. }
  { cbn. now rewrite lookup_singleton_eq. }
  exists r. split; [exact Hr|].
  rewrite Hold; cbn; rewrite lookup_singleton_eq; eauto.
Defined.

(** X6: the list of mypy options of the caller accumulates: after two
    configuration steps with the same list, which is not empty, it holds
    the paths of both, so that the second step hands mypy the paths of the
    first as well. *)
Theorem get_mypy_config_accumulates {E : External} (paths1 paths2 : list string)
    (r : loc) (old : list string) (w : world) :
  lists w !! r = Some old →
  old ≠ [] →
  lists (snd (get_mypy_config paths2 (Some r)
                (snd (get_mypy_config paths1 (Some r) w)))) !! r
  = Some (old ++ "--" :: paths1 ++ "--" :: paths2)
  ∧ passed_items (Some r) (snd (get_mypy_config paths1 (Some r) w))
    = old ++ "--" :: paths1.
Proof.
  intros Hold Hne.
  pose proof (get_mypy_config_appends paths1 r old w Hold Hne) as Hfirst.
  split.
  - rewrite (get_mypy_config_appends paths2 r _ _ Hfirst).
    + now rewrite <- app_assoc.
    + destruct old; [contradiction|discriminate].
  - cbn. now rewrite Hfirst.
Qed.

Lemma get_mypy_config_accumulates_witness :
  lists (snd (@get_mypy_config linux_host ["bar.py"] (Some 0%nat)
                (snd (@get_mypy_config linux_host ["foo.py"] (Some 0%nat)
                        (world_with_options ["foo.py"; "bar.py"] ["--strict"]))))) !! 0%nat
  = Some ["--strict"; "--"; "foo.py"; "--"; "bar.py"].
Proof.
  apply (@get_mypy_config_accumulates linux_host ["foo.py"] ["bar.py"] 0%nat ["--strict"]
           (world_with_options ["foo.py"; "bar.py"] ["--strict"]));
    [reflexivity|discriminate].
Defined.

(** ** The shim files *)

Section shim_files.

Lemma replace_dot_cons (a : ascii) (s : string) :
  Py.str_replace "." "___" (String a s)
  = if Ascii.eqb a "." then "___" +:+ Py.str_replace "." "___" s
    else String a (Py.str_replace "." "___" s).
Proof.
  cbn [Py.str_replace Py.replace_from String.prefix String.length Nat.sub].
  destruct (ascii_dec "." a) as [<-|Hne].
  - destruct s; reflexivity.
  - apply not_eq_sym, Ascii.eqb_neq in Hne. rewrite Hne. reflexivity.
Qed.

Lemma contains_dot_cons (a : ascii) (s : string) :
  Py.str_contains "." (String a s) = Ascii.eqb a "." || Py.str_contains "." s.
Proof.
  cbn [Py.str_contains String.prefix].
  destruct (ascii_dec "." a) as [<-|Hne].
  - destruct s; reflexivity.
  - apply not_eq_sym, Ascii.eqb_neq in Hne. now rewrite Hne.
Qed.

(** After the replacement no dot is left. *)
Lemma replace_dot_no_dot (s : string) :
  Py.str_contains "." (Py.str_replace "." "___" s) = false.
Proof.
  induction s as [|a s IH]; [reflexivity|].
  rewrite replace_dot_cons. destruct (Ascii.eqb a ".") eqn:Ha.
  - rewrite !append_cons, !contains_dot_cons. exact IH.
  - now rewrite contains_dot_cons, Ha, IH.
Qed.

(** A name without dots is left as it is. *)
Lemma replace_dot_id (s : string) :
  Py.str_contains "." s = false → Py.str_replace "." "___" s = s.
Proof.
  induction s as [|a s IH]; [reflexivity|].
  rewrite contains_dot_cons, replace_dot_cons.
  intros [Ha Hs]%orb_false_iff. now rewrite Ha, IH.
Qed.

End shim_files.

(** X7: the file of a shim is named after the module with every dot
    replaced by ['___'], and this naming is not injective: a module whose
    name has a dot and the module named by the replaced name get the same
    file in the same directory, so that generating the two shims leaves the
    shim of the second one only. *)
Theorem shim_file_shared {E : External} (full_module_name module_name1 module_name2 : string)
    (dirname : string) (w : world) :
  Py.str_contains "." full_module_name = true →
  Py.str_replace "." "___" full_module_name ≠ full_module_name
  ∧ ∃ cpath w1 w2,
      generate_c_extension_shim full_module_name module_name1 dirname w
      = (Return cpath, w1)
      ∧ generate_c_extension_shim (Py.str_replace "." "___" full_module_name)
          module_name2 dirname w1
        = (Return cpath, w2)
      ∧ fs w2
        = fs (snd (generate_c_extension_shim (Py.str_replace "." "___" full_module_name)
                     module_name2 dirname w)).
Proof.
  intros Hdot. split.
  - intros Heq. pose proof (replace_dot_no_dot full_module_name) as Hnone.
    rewrite Heq in Hnone. congruence.
  - destruct (generate_c_extension_shim_writes full_module_name module_name1)
      as (text1 & _ & Hgen1).
    destruct (generate_c_extension_shim_writes
                (Py.str_replace "." "___" full_module_name) module_name2)
      as (text2 & _ & Hgen2).
    cbv zeta in Hgen1, Hgen2.
    rewrite (replace_dot_id _ (replace_dot_no_dot full_module_name)) in Hgen2.
    eexists _, _, _. split; [apply Hgen1|]. split; [apply Hgen2|].
    rewrite Hgen2. cbn. now rewrite insert_insert_eq.
Qed.

Lemma shim_file_shared_witness :
  ∃ w1 w2,
    @generate_c_extension_shim linux_host "a.b" "b" "build" (initial_world [])
    = (Return "build/a___b.c", w1)
    ∧ @generate_c_extension_shim linux_host "a___b" "a___b" "build" w1
      = (Return "build/a___b.c", w2).
Proof.
  destruct (@shim_file_shared linux_host "a.b" "b" "a___b" "build" (initial_world []) eq_refl)
    as (_ & cpath & w1 & w2 & Hgen1 & Hgen2 & _).
  assert (Hpath : cpath = "build/a___b.c").
  { apply (f_equal fst) in Hgen1. vm_compute in Hgen1. now injection Hgen1 as <-. }
  subst cpath. exists w1, w2. split; [exact Hgen1|exact Hgen2].
Defined.

(** X8: on every platform but win32 the shim is the C file that declares
    the initializer of the shared library under the exported name of the
    module and defines [PyInit_] of the short name as a call of it; the
    doubled braces of the template come out as single ones. Nothing but
    that file changes. *)
Theorem unix_shim_text {E : External} (full_module_name module_name dirname : string)
    (w : world) :
  sys_platform ≠ "win32" →
  generate_c_extension_shim full_module_name module_name dirname w
  = (Return (posixpath.join dirname [Py.str_replace "." "___" full_module_name +:+ ".c"]),
     set_fs
       (insert (posixpath.join dirname [Py.str_replace "." "___" full_module_name +:+ ".c"])
          (File ("#include <Python.h>

PyObject *CPyInit_" +:+ exported_name full_module_name +:+ "(void);

PyMODINIT_FUNC
PyInit_" +:+ module_name +:+ "(void)
{
    return CPyInit_" +:+ exported_name full_module_name +:+ "();
}
")))
       w).
Proof.
  intros Hplatform. apply String.eqb_neq in Hplatform.
  destruct (generate_c_extension_shim_writes full_module_name module_name)
    as (text & Htext & Hgen).
  rewrite Hplatform in Htext. rewrite Hgen.
  assert (Hunix : str_format shim_template_unix
                    [("modname", module_name);
                     ("full_modname", exported_name full_module_name)]
                  = Return ("#include <Python.h>

PyObject *CPyInit_" +:+ exported_name full_module_name +:+ "(void);

PyMODINIT_FUNC
PyInit_" +:+ module_name +:+ "(void)
{
    return CPyInit_" +:+ exported_name full_module_name +:+ "();
}
")) by reflexivity.
  rewrite Hunix in Htext. injection Htext as <-. reflexivity.
Qed.

Lemma unix_shim_text_witness :
  fs (snd (@generate_c_extension_shim linux_host "a.b" "b" "build" (initial_world [])))
  !! "build/a___b.c"
  = Some (File "#include <Python.h>

PyObject *CPyInit_a___b(void);

PyMODINIT_FUNC
PyInit_b(void)
{
    return CPyInit_a___b();
}
").
Proof.
  rewrite (@unix_shim_text linux_host "a.b" "b" "build" (initial_world []))
    by discriminate.
  vm_compute. reflexivity.
Defined.

(** ** The compilation step *)

Section printing.

Lemma set_stdout_nothing (w : world) : set_stdout (fun out => out ++ []) w = w.
Proof. destruct w. unfold set_stdout. cbn. now rewrite app_nil_r. Qed.

Lemma set_stdout_twice (l1 l2 : list string) (w : world) :
  set_stdout (fun out => out ++ l2) (set_stdout (fun out => out ++ l1) w)
  = set_stdout (fun out => out ++ l1 ++ l2) w.
Proof. unfold set_stdout. cbn. now rewrite app_assoc. Qed.

(** Printing the lines of a list, one after the other. *)
Lemma print_lines (messages : list string) :
  ∀ w, for_each messages (fun (_ : unit) line => print line) tt w
       = (Return tt, set_stdout (fun out => out ++ messages) w).
Proof.
  induction messages as [|line messages IH]; intros w.
  - cbn. now rewrite set_stdout_nothing.
  - cbn [for_each]. erewrite bind_returns by reflexivity.
    rewrite IH, set_stdout_twice. reflexivity.
Qed.

End printing.

(** The compilation step when the type checker raises. *)
Lemma generate_c_fails {E : External} (sources : list BuildSource.t)
    (options : Options.t) (lib_name : option string)
    (compiler_options : option CompilerOptions.t) (w : world) (e : exn) :
  parse_and_typecheck (fs w) sources options = Raise e →
  generate_c sources options lib_name compiler_options w
  = match e with
    | CompileError messages =>
        (Raise (SystemExit (ExitMessage "Typechecking failure")),
         set_stdout (fun out => out ++ messages) w)
    | _ => (Raise e, w)
    end.
Proof.
  intros Hparse. unfold generate_c.
  erewrite bind_returns by reflexivity.
  unfold bind at 1, try_except, lift. cbn [fs]. rewrite Hparse.
  destruct e; try reflexivity.
  unfold bind. rewrite print_lines. reflexivity.
Qed.

(** X9: when the type checker raises [CompileError], [generate_c] prints
    its messages in their order and ends with
    [sys.exit('Typechecking failure')]; any other exception of the type
    checker comes out unchanged and nothing is printed. No file is
    written in either case. *)
Theorem generate_c_typecheck_failure {E : External} (sources : list BuildSource.t)
    (options : Options.t) (lib_name : option string)
    (compiler_options : option CompilerOptions.t) (w : world) (e : exn) :
  parse_and_typecheck (fs w) sources options = Raise e →
  generate_c sources options lib_name compiler_options w
  = match e with
    | CompileError messages =>
        (Raise (SystemExit (ExitMessage "Typechecking failure")),
         set_stdout (fun out => out ++ messages) w)
    | _ => (Raise e, w)
    end.
Proof. apply generate_c_fails. Qed.

Lemma generate_c_typecheck_failure_witness :
  @generate_c
    {| sys_platform := "linux";
       module_dir := "/opt/mypyc";
       glob_glob := fun _ _ => [];
       process_options := fun _ _ => Return (lone_source, default_options);
       exported_name := fun s => s;
       default_compiler_options := CompilerOptions.mk false false false;
       BuildResult := unit;
       parse_and_typecheck := fun _ _ _ =>
         Raise (CompileError ["foo.py:1: error: Unsupported operand"; "Found 1 error"]);
       compile_modules_to_c := fun _ _ _ _ => Return ([], []);
       new_compiler := Return (Compiler.mk "unix" ["gcc"]);
       elapsed := fun _ => "0.000" |}
    lone_source default_options None None (initial_world ["foo.py"])
  = (Raise (SystemExit (ExitMessage "Typechecking failure")),
     set_stdout (fun out => out ++ ["foo.py:1: error: Unsupported operand"; "Found 1 error"])
       (initial_world ["foo.py"])).
Proof.
  apply (@generate_c_typecheck_failure _ lone_source default_options None None
           (initial_world ["foo.py"])
           (CompileError ["foo.py:1: error: Unsupported operand"; "Found 1 error"])).
  reflexivity.
Defined.

(** The compilation step when the type checker and the translator
    return. *)
Lemma generate_c_run {E : External} (sources : list BuildSource.t)
    (options : Options.t) (lib_name : option string)
    (compiler_options : option CompilerOptions.t) (w : world)
    (result : BuildResult) (ctext : list (string * string)) (ops : list string) :
  parse_and_typecheck (fs w) sources options = Return result →
  compile_modules_to_c result (map BuildSource.module sources) lib_name
    (default default_compiler_options compiler_options)
  = Return (ctext, ops) →
  generate_c sources options lib_name compiler_options w
  = (Return (ctext, Py.str_join (String "010"%char EmptyString) ops),
     set_stdout
       (fun out =>
          out ++
          if CompilerOptions.verbose (default default_compiler_options compiler_options)
          then ["Parsed and typechecked in " +:+ elapsed 0 +:+ "s";
                "Compiled to C in " +:+ elapsed 1 +:+ "s"]
          else [])
       w).
Proof.
  intros Hparse Hcompile. unfold generate_c.
  erewrite bind_returns by reflexivity.
  erewrite bind_returns by (unfold try_except, lift; cbn [fs]; rewrite Hparse; reflexivity).
  destruct (CompilerOptions.verbose (default default_compiler_options compiler_options)).
  - erewrite bind_returns by reflexivity.
    rewrite Hcompile. erewrite bind_returns by reflexivity. cbn beta iota.
    erewrite bind_returns by reflexivity.
    unfold ret. now rewrite set_stdout_twice.
  - erewrite bind_returns by reflexivity.
    rewrite Hcompile. erewrite bind_returns by reflexivity. cbn beta iota.
    erewrite bind_returns by reflexivity.
    unfold ret. now rewrite set_stdout_nothing.
Qed.

(** X10: when the type checker and the translator return, [generate_c]
    returns the C texts of the translator and its IR lines joined by
    newlines, and changes the world by what it prints only: the two timing
    lines when it is verbose, nothing otherwise. The options default to
    [CompilerOptions()] when none are given. *)
Theorem generate_c_returns {E : External} (sources : list BuildSource.t)
    (options : Options.t) (lib_name : option string)
    (compiler_options : option CompilerOptions.t) (w : world)
    (result : BuildResult) (ctext : list (string * string)) (ops : list string) :
  parse_and_typecheck (fs w) sources options = Return result →
  compile_modules_to_c result (map BuildSource.module sources) lib_name
    (default default_compiler_options compiler_options)
  = Return (ctext, ops) →
  generate_c sources options lib_name compiler_options w
  = (Return (ctext, Py.str_join (String "010"%char EmptyString) ops),
     set_stdout
       (fun out =>
          out ++
          if CompilerOptions.verbose (default default_compiler_options compiler_options)
          then ["Parsed and typechecked in " +:+ elapsed 0 +:+ "s";
                "Compiled to C in " +:+ elapsed 1 +:+ "s"]
          else [])
       w).
Proof. apply generate_c_run. Qed.

Lemma generate_c_returns_witness :
  @generate_c linux_host lone_source default_options None
    (Some (CompilerOptions.mk false false true)) (initial_world ["foo.py"])
  = (Return ([("__native.c", "/* native */"); ("__native.h", "/* header */")],
             "L0:
return"),
     set_stdout
       (fun out => out ++ ["Parsed and typechecked in 0.000s"; "Compiled to C in 0.000s"])
       (initial_world ["foo.py"])).
Proof.
  apply (@generate_c_returns linux_host lone_source default_options None
           (Some (CompilerOptions.mk false false true)) (initial_world ["foo.py"]) tt
           [("__native.c", "/* native */"); ("__native.h", "/* header */")]
           ["L0:"; "return"]); reflexivity.
Defined.

(** ** The builders, in full *)

#[local] Set Warnings "-clear-no-such-hyp".

#[local] Instance same_stdout_preorder : PreOrder same_stdout.
Proof. split; unfold same_stdout; [intros w|intros w1 w2 w3]; congruence. Qed.

Section builders_run.
Context {E : External}.

(** One turn of the loop of [build_using_shared_lib], in full: the shim
    is written, then its descriptor is created. *)
Lemma shim_extension_run shared build_dir cflags acc (source : BuildSource.t) w :
  has_path source →
  ∃ text,
    str_format
      (if String.eqb sys_platform "win32" then shim_template_windows else shim_template_unix)
      [("modname", last_component (BuildSource.module source));
       ("full_modname", exported_name (BuildSource.module source))]
    = Return text
    ∧ shim_extension shared build_dir cflags acc source w
    = (Return (acc ++ [fresh (dom (extensions w))]),
       World (<[shim_path build_dir source := File text]> (fs w)) (lists w)
         (<[fresh (dom (extensions w)) :=
              MypycifyExtension.mk (shim_name source) [shim_path build_dir source] []
                cflags false (Some shared)]> (extensions w))
         (config_vars w) (stdout w)).
Proof.
  unfold has_path, shim_name, is_package_init, shim_path. intros Hpath.
  destruct (generate_c_extension_shim_writes (BuildSource.module source)
              (last_component (BuildSource.module source))) as (text & Htext & Hgen).
  exists text. split; [exact Htext|].
  unfold shim_extension. rewrite (bind_returns _ _ _ _ _ (Hgen build_dir w)).
  destruct (BuildSource.path source) as [[|c p]|]; try discriminate Hpath.
  reflexivity.
Qed.

(** The turn of a source without a path: the shim is written, then the
    assertion fails. *)
Lemma shim_extension_fails shared build_dir cflags acc (source : BuildSource.t) w :
  ¬ has_path source →
  ∃ text,
    shim_extension shared build_dir cflags acc source w
    = (Raise AssertionError, set_fs (insert (shim_path build_dir source) (File text)) w).
Proof.
  unfold has_path, shim_path. intros Hpath.
  destruct (generate_c_extension_shim_writes (BuildSource.module source)
              (last_component (BuildSource.module source))) as (text & _ & Hgen).
  exists text.
  unfold shim_extension. rewrite (bind_returns _ _ _ _ _ (Hgen build_dir w)).
  destruct (BuildSource.path source) as [[|c p]|]; try reflexivity.
  contradiction Hpath. reflexivity.
Qed.

Lemma for_each_app {A S} (l1 l2 : list A) (body : S → A → M S) :
  ∀ s w,
    for_each (l1 ++ l2) body s w
    = (let* s' := for_each l1 body s in for_each l2 body s') w.
Proof.
  induction l1 as [|x l1 IH]; intros s w; [reflexivity|].
  cbn [app for_each]. unfold bind.
  destruct (body s x w) as [[s1|e] w1]; [|reflexivity].
  rewrite IH. reflexivity.
Qed.

(** The loop of [build_using_shared_lib] over sources that have a path. *)
Lemma shim_loop_run shared build_dir cflags (sources : list BuildSource.t) :
  ∀ acc w,
    Forall has_path sources →
    ∃ shims w',
      for_each sources (shim_extension shared build_dir cflags) acc w
      = (Return (acc ++ shims), w')
      ∧ Forall2 (fun r source =>
                   extensions w' !! r
                   = Some (MypycifyExtension.mk (shim_name source)
                             [shim_path build_dir source] [] cflags false (Some shared))
                   ∧ is_Some (fs w' !! shim_path build_dir source))
          shims sources
      ∧ Forall (fun r => extensions w !! r = None) shims
      ∧ NoDup shims
      ∧ (∀ r, is_Some (extensions w !! r) → extensions w' !! r = extensions w !! r)
      ∧ dom (extensions w') = list_to_set shims ∪ dom (extensions w)
      ∧ fs_grows w w'.
Proof.
  induction sources as [|source sources IH]; intros acc w Hpaths.
  - exists [], w. rewrite app_nil_r.
    split; [reflexivity|]. split; [constructor|]. split; [constructor|].
    split; [constructor|]. split; [auto|]. split; [cbn; set_solver|].
    intros p Hp. exact Hp.
  - apply Forall_cons in Hpaths as [Hpath Hpaths].
    destruct (shim_extension_run shared build_dir cflags acc source w Hpath)
      as (text & _ & Hstep).
    set (r := fresh (dom (extensions w))) in *.
    set (w1 := World _ _ _ _ _) in Hstep.
    assert (Hr : extensions w !! r = None) by apply fresh_extension.
    destruct (IH (acc ++ [r]) w1 Hpaths)
      as (shims & w' & Hloop & Hnew & Hfresh & Hdup & Hold & Hdom & Hgrows).
    assert (Hr1 : is_Some (extensions w1 !! r)).
    { subst w1. cbn. rewrite lookup_insert_eq. eauto. }
    exists (r :: shims), w'. split; [|repeat split].
    + cbn [for_each]. rewrite (bind_returns _ _ _ _ _ Hstep), Hloop.
      now rewrite <- app_assoc.
    + constructor; [|exact Hnew]. split.
      * rewrite (Hold r Hr1). subst w1. cbn. apply lookup_insert_eq.
      * apply Hgrows. subst w1. cbn. rewrite lookup_insert_eq. eauto.
    + constructor; [exact Hr|].
      eapply Forall_impl; [exact Hfresh|]. intros r' Hr'. cbn in Hr'.
      apply lookup_insert_None in Hr'. tauto.
    + constructor; [|exact Hdup].
      intros Hin. rewrite Forall_forall in Hfresh.
      specialize (Hfresh r Hin). destruct Hr1 as [e He]. congruence.
    + intros r' Hr'.
      assert (Hne : r ≠ r') by (intros ->; destruct Hr' as [e He]; congruence).
      rewrite Hold; subst w1; cbn; rewrite lookup_insert_ne; auto.
    + rewrite Hdom. subst w1. cbn. rewrite dom_insert_L. set_solver.
    + intros p Hp. apply Hgrows. subst w1. cbn. now apply insert_grows.
Qed.

End builders_run.

(** The objects of a Shared build are new. *)
Lemma build_using_shared_lib_allocates {E : External} (sources : list BuildSource.t)
    (lib_name : string) (cfiles : list string) (build_dir : string)
    (cflags : list string) (w : world) :
  Forall has_path sources →
  ∃ exts w',
    build_using_shared_lib sources lib_name cfiles build_dir cflags w = (Return exts, w')
    ∧ NoDup exts
    ∧ Forall (fun r => extensions w !! r = None) exts
    ∧ dom (extensions w') = list_to_set exts ∪ dom (extensions w)
    ∧ (∀ r, is_Some (extensions w !! r) → extensions w' !! r = extensions w !! r).
Proof.
  intros Hpaths. unfold build_using_shared_lib.
  erewrite bind_returns by reflexivity.
  set (shared := fresh (dom (extensions w))).
  set (w1 := set_extensions _ w).
  assert (Hshared : extensions w !! shared = None) by apply fresh_extension.
  destruct (shim_loop_run shared build_dir cflags sources [shared] w1 Hpaths)
    as (shims & w' & Hloop & _ & Hfresh & Hdup & Hold & Hdom & _).
  exists (shared :: shims), w'. split; [exact Hloop|].
  assert (Hfresh0 : Forall (fun r => extensions w !! r = None ∧ r ≠ shared) shims).
  { eapply Forall_impl; [exact Hfresh|]. intros r Hr. subst w1. cbn in Hr.
    apply lookup_insert_None in Hr as [Hnone Hne]. split; [exact Hnone|congruence]. }
  repeat split.
  - constructor; [|exact Hdup]. intros Hin. rewrite Forall_forall in Hfresh0.
    destruct (Hfresh0 _ Hin) as [_ Hne]. now apply Hne.
  - constructor; [exact Hshared|]. eapply Forall_impl; [exact Hfresh0|].
    intros r [Hnone _]. exact Hnone.
  - rewrite Hdom. subst w1. cbn. rewrite dom_insert_L. set_solver.
  - intros r Hr.
    assert (Hne : shared ≠ r) by (intros ->; destruct Hr as [e He]; congruence).
    rewrite Hold; subst w1; cbn; rewrite lookup_insert_ne; auto.
Qed.

(** X11: a Shared build creates its descriptors as new objects: the
    locations that it returns are pairwise distinct and were free, they
    are all that the store of extension objects gains, and every object
    that was in the store is as it was. *)
Theorem shared_build_allocates {E : External} (sources : list BuildSource.t)
    (lib_name : string) (cfiles : list string) (build_dir : string)
    (cflags : list string) (w : world) :
  Forall has_path sources →
  ∃ exts w',
    build_using_shared_lib sources lib_name cfiles build_dir cflags w = (Return exts, w')
    ∧ NoDup exts
    ∧ Forall (fun r => extensions w !! r = None) exts
    ∧ dom (extensions w') = list_to_set exts ∪ dom (extensions w)
    ∧ (∀ r, is_Some (extensions w !! r) → extensions w' !! r = extensions w !! r).
Proof. apply build_using_shared_lib_allocates. Qed.

Lemma shared_build_allocates_witness :
  ∃ exts w',
    @build_using_shared_lib linux_host package_sources "mypyc_0" ["build/CPy.c"] "build" []
      (initial_world [])
    = (Return exts, w')
    ∧ NoDup exts
    ∧ dom (extensions w') = list_to_set exts ∪ dom (extensions (initial_world [])).
Proof.
  destruct (@shared_build_allocates linux_host package_sources "mypyc_0" ["build/CPy.c"]
              "build" [] (initial_world []))
    as (exts & w' & Hrun & Hdup & _ & Hdom & _); [repeat constructor|].
  exists exts, w'. auto.
Defined.

(** X12: the descriptors of a Shared build, attribute by attribute. The
    shared library is named ['lib'] followed by the library name, is built
    from the C files handed in and includes the lib-rt directory; each
    shim is built from one file, the shim of its module in the build
    directory, which exists after the build, and has no include
    directory; all of them carry the same compile flags. *)
Theorem shared_build_attributes {E : External} (sources : list BuildSource.t)
    (lib_name : string) (cfiles : list string) (build_dir : string)
    (cflags : list string) (w : world) :
  Forall has_path sources →
  ∃ shared shims w',
    build_using_shared_lib sources lib_name cfiles build_dir cflags w
    = (Return (shared :: shims), w')
    ∧ extensions w' !! shared
      = Some (MypycifyExtension.mk ("lib" +:+ lib_name) cfiles [include_dir] cflags
                true None)
    ∧ Forall2 (fun r source => ∃ e,
                 extensions w' !! r = Some e
                 ∧ MypycifyExtension.sources e = [shim_path build_dir source]
                 ∧ MypycifyExtension.include_dirs e = []
                 ∧ MypycifyExtension.extra_compile_args e = cflags
                 ∧ is_Some (fs w' !! shim_path build_dir source))
        shims sources.
Proof.
  intros Hpaths. unfold build_using_shared_lib.
  erewrite bind_returns by reflexivity.
  set (shared := fresh (dom (extensions w))).
  set (w1 := set_extensions _ w).
  destruct (shim_loop_run shared build_dir cflags sources [shared] w1 Hpaths)
    as (shims & w' & Hloop & Hnew & _ & _ & Hold & _).
  exists shared, shims, w'. split; [exact Hloop|]. split.
  - rewrite Hold; subst w1; cbn; rewrite lookup_insert_eq; eauto.
  - eapply Forall2_impl; [exact Hnew|].
    intros r source [Hr Hfile]. eexists. split; [exact Hr|]. repeat split. exact Hfile.
Qed.

Lemma shared_build_attributes_witness :
  ∃ shared shims w',
    @build_using_shared_lib linux_host package_sources "mypyc_0" ["build/CPy.c"] "build"
      ["-O3"] (initial_world [])
    = (Return (shared :: shims), w')
    ∧ extensions w' !! shared
      = Some (MypycifyExtension.mk "libmypyc_0" ["build/CPy.c"] ["/opt/mypyc/lib-rt"]
                ["-O3"] true None)
    ∧ is_Some (fs w' !! "build/a___b.c").
Proof.
  destruct (@shared_build_attributes linux_host package_sources "mypyc_0" ["build/CPy.c"]
              "build" ["-O3"] (initial_world []))
    as (shared & shims & w' & Hrun & Hshared & Hshims); [repeat constructor|].
  exists shared, shims, w'. split; [exact Hrun|]. split; [exact Hshared|].
  inversion Hshims as [|r1 s1 l1 k1 H1 Hrest]; subst.
  inversion Hrest as [|r2 s2 l2 k2 H2 Hnil]; subst.
  destruct H2 as (e & _ & _ & _ & _ & Hfile). exact Hfile.
Defined.

(** X13: a source without a path stops a Shared build with an
    [AssertionError], and nothing is undone: the descriptor of the shared
    library and the shims of the sources before it stay in the store, and
    the shim file of the source without a path has been written. *)
Theorem shared_build_stops {E : External} (good rest : list BuildSource.t)
    (bad : BuildSource.t) (lib_name : string) (cfiles : list string)
    (build_dir : string) (cflags : list string) (w : world) :
  Forall has_path good →
  ¬ has_path bad →
  ∃ w' created,
    build_using_shared_lib (good ++ bad :: rest) lib_name cfiles build_dir cflags w
    = (Raise AssertionError, w')
    ∧ length created = S (length good)
    ∧ NoDup created
    ∧ dom (extensions w') = list_to_set created ∪ dom (extensions w)
    ∧ Forall (fun r => extensions w !! r = None) created
    ∧ is_Some (fs w' !! shim_path build_dir bad).
Proof.
  intros Hpaths Hbad.
  destruct (build_using_shared_lib_allocates good lib_name cfiles build_dir cflags w Hpaths)
    as (exts & w1 & Hrun & Hdup & Hfresh & Hdom & _).
  unfold build_using_shared_lib in Hrun |- *.
  apply bind_returned in Hrun as (shared & w0 & Hshared & Hloop).
  rewrite (bind_returns _ _ _ _ _ Hshared), for_each_app.
  rewrite (bind_returns _ _ _ _ _ Hloop). cbn [for_each].
  destruct (shim_extension_fails shared build_dir cflags exts bad w1 Hbad)
    as (text & Hstep).
  rewrite (bind_raises _ _ _ _ _ Hstep).
  exists (set_fs (insert (shim_path build_dir bad) (File text)) w1), exts.
  split; [reflexivity|]. repeat split; auto.
  - unfold new_extension in Hshared. injection Hshared as <- <-.
    match type of Hloop with
    | for_each _ _ _ ?w0 = _ =>
        destruct (shim_loop_run (fresh (dom (extensions w))) build_dir cflags good
                    [fresh (dom (extensions w))] w0 Hpaths)
          as (shims & w2 & Hloop2 & Hnew & _)
    end.
    rewrite Hloop in Hloop2. injection Hloop2 as -> _.
    cbn. f_equal. eapply Forall2_length, Hnew.
  - cbn. rewrite lookup_insert_eq. eauto.
Qed.

Lemma shared_build_stops_witness :
  ∃ w',
    @build_using_shared_lib linux_host
      (package_sources ++ [BuildSource.mk None "a.c"]) "mypyc_0" ["build/CPy.c"] "build" []
      (initial_world [])
    = (Raise AssertionError, w')
    ∧ size (extensions w') = 3%nat
    ∧ is_Some (fs w' !! "build/a___c.c").
Proof.
  destruct (@shared_build_stops linux_host package_sources [] (BuildSource.mk None "a.c")
              "mypyc_0" ["build/CPy.c"] "build" [] (initial_world []))
    as (w' & created & Hrun & _ & _ & _ & _ & Hfile);
    [repeat constructor|discriminate|].
  exists w'. split; [exact Hrun|]. split; [|exact Hfile].
  apply (f_equal snd) in Hrun. cbn [snd] in Hrun. subst w'. vm_compute. reflexivity.
Defined.

(** ** The entry point, in full *)

Ltac run_quietly :=
  let w := fresh "w" in
  intros w; unfold same_stdout;
  repeat match goal with
         | |- context [match ?x with _ => _ end] => destruct x
         end;
  reflexivity.

Section quiet.
Context {E : External}.

Lemma os_mkdir_stdout p : keeps same_stdout (os_mkdir p).
Proof. unfold os_mkdir. run_quietly. Qed.
Lemma open_w_stdout p : keeps same_stdout (open_w p).
Proof. run_quietly. Qed.
Lemma f_write_stdout p text : keeps same_stdout (f_write p text).
Proof. unfold f_write. run_quietly. Qed.
Lemma shutil_copyfile_stdout src dst : keeps same_stdout (shutil_copyfile src dst).
Proof. unfold shutil_copyfile. run_quietly. Qed.
Lemma new_list_stdout l : keeps same_stdout (new_list l).
Proof. run_quietly. Qed.
Lemma list_items_stdout r : keeps same_stdout (list_items r).
Proof. unfold list_items. run_quietly. Qed.
Lemma list_append_stdout r x : keeps same_stdout (list_append r x).
Proof. run_quietly. Qed.
Lemma list_extend_stdout r xs : keeps same_stdout (list_extend r xs).
Proof. run_quietly. Qed.
Lemma new_extension_stdout e : keeps same_stdout (new_extension e).
Proof. run_quietly. Qed.
Lemma set_config_vars_stdout f : keeps same_stdout (modify (set_config_vars f)).
Proof. run_quietly. Qed.

#[local] Hint Resolve
  os_mkdir_stdout open_w_stdout f_write_stdout shutil_copyfile_stdout new_list_stdout
  list_items_stdout list_append_stdout list_extend_stdout new_extension_stdout
  set_config_vars_stdout : frames.

Lemma setup_mypycify_vars_stdout : keeps same_stdout setup_mypycify_vars.
Proof. unfold setup_mypycify_vars, replace_in_var. frame. Qed.

Lemma get_mypy_config_stdout paths mypy_options :
  keeps same_stdout (get_mypy_config paths mypy_options).
Proof. unfold get_mypy_config, mypy_options_or_new, fail. frame. Qed.

Lemma cflags_for_stdout compiler opt_level multi_file :
  keeps same_stdout (cflags_for compiler opt_level multi_file).
Proof. unfold cflags_for. frame. Qed.

Lemma generate_c_extension_shim_stdout full_module_name module_name dirname :
  keeps same_stdout (generate_c_extension_shim full_module_name module_name dirname).
Proof. unfold generate_c_extension_shim. frame. Qed.

#[local] Hint Resolve
  setup_mypycify_vars_stdout get_mypy_config_stdout cflags_for_stdout
  generate_c_extension_shim_stdout : frames.

Lemma prepare_stdout paths : keeps same_stdout (prepare paths).
Proof. unfold prepare. frame. Qed.

Lemma shim_extension_stdout shared_lib build_dir cflags extensions source :
  keeps same_stdout (shim_extension shared_lib build_dir cflags extensions source).
Proof. unfold shim_extension. frame. Qed.

#[local] Hint Resolve shim_extension_stdout : frames.

Lemma dispatch_stdout sources cfilenames cflags :
  keeps same_stdout (dispatch sources cfilenames cflags).
Proof. unfold dispatch, build_using_shared_lib, build_single_module. frame. Qed.

(** Without C generation the outputs are collected in silence. *)
Lemma outputs_stdout_skipped compiler opt_level multi_file verbose strip_asserts
    sources options :
  keeps same_stdout
    (outputs compiler opt_level multi_file true verbose strip_asserts sources options).
Proof. unfold outputs. cbn [negb]. frame. Qed.

(** The files that the loop over the generated texts lists are C files. *)
Lemma write_cfiles_c (cfiles : list (string * string)) :
  ∀ acc w r w',
    for_each cfiles (write_cfile "build") acc w = (Return r, w') →
    Forall (fun f => snd (posixpath.splitext f) = ".c") acc →
    Forall (fun f => snd (posixpath.splitext f) = ".c") r.
Proof.
  induction cfiles as [|[cfile ctext] cfiles IH]; intros acc w r w' Hrun Hacc.
  - injection Hrun as <- _. exact Hacc.
  - cbn [for_each] in Hrun. apply bind_returned in Hrun as (acc1 & w1 & Hstep & Hrun).
    eapply IH; [exact Hrun|].
    unfold write_cfile in Hstep.
    apply bind_returned in Hstep as ([] & w2 & _ & Hstep).
    apply bind_returned in Hstep as ([] & w3 & _ & Hstep).
    destruct (String.eqb _ ".c") eqn:Hc; injection Hstep as <- _; [|exact Hacc].
    apply Forall_app. split; [exact Hacc|]. constructor; [|constructor].
    now apply String.eqb_eq.
Qed.

(** What the outputs are when they are returned: the C files, then the
    copy of the runtime source. *)
Lemma outputs_returned compiler opt_level multi_file skip_cgen verbose strip_asserts
    sources options w cfilenames cflags w' :
  outputs compiler opt_level multi_file skip_cgen verbose strip_asserts sources options w
  = (Return (cfilenames, cflags), w') →
  ∃ cf0 c,
    cfilenames = cf0 ++ ["build/CPy.c"]
    ∧ fs w' !! "build/CPy.c" = Some (File c)
    ∧ fs w' !! posixpath.join include_dir ["CPy.c"] = Some (File c)
    ∧ (skip_cgen = false → Forall (fun f => snd (posixpath.splitext f) = ".c") cf0).
Proof.
  unfold outputs. intros H.
  apply bind_returned in H as (cf0 & w1 & Hfiles & H).
  apply bind_returned in H as (cflags0 & w2 & _ & H).
  apply bind_returned in H as ([] & w3 & Hcopy & H).
  injection H as <- <- <-.
  change (posixpath.join "build" ["CPy.c"]) with "build/CPy.c" in *.
  unfold shutil_copyfile in Hcopy.
  destruct (fs w2 !! posixpath.join include_dir ["CPy.c"]) as [[|c]|] eqn:Hsrc;
    try discriminate Hcopy.
  injection Hcopy as <-. exists cf0, c. split; [reflexivity|]. cbn [fs set_fs].
  split; [apply lookup_insert_eq|]. split.
  - destruct (decide ("build/CPy.c" = posixpath.join include_dir ["CPy.c"])) as [<-|Hne].
    + apply lookup_insert_eq.
    + now rewrite lookup_insert_ne.
  - intros ->. cbn [negb] in Hfiles.
    apply bind_returned in Hfiles as ([cfiles ops_text] & w4 & _ & Hfiles).
    apply bind_returned in Hfiles as ([] & w5 & _ & Hfiles).
    apply bind_returned in Hfiles as ([] & w6 & _ & Hfiles).
    eapply write_cfiles_c; [exact Hfiles|constructor].
Qed.

(** A build that returns went through its four stages. *)
Lemma mypycify_returned_stages paths mypy_options opt_level multi_file skip_cgen verbose
    strip_asserts w exts w' :
  mypycify paths mypy_options opt_level multi_file skip_cgen verbose strip_asserts w
  = (Return exts, w') →
  ∃ compiler expanded w1 sources options w2 cfilenames cflags w3,
    prepare paths w = (Return (compiler, expanded), w1)
    ∧ get_mypy_config expanded mypy_options w1 = (Return (sources, options), w2)
    ∧ outputs compiler opt_level multi_file skip_cgen verbose strip_asserts sources options w2
      = (Return (cfilenames, cflags), w3)
    ∧ dispatch sources cfilenames cflags w3 = (Return exts, w').
Proof.
  rewrite mypycify_stages. unfold mypycify_staged. intros H.
  apply bind_returned in H as ([compiler expanded] & w1 & Hprepare & H).
  apply bind_returned in H as ([sources options] & w2 & Hconfig & H).
  apply bind_returned in H as ([cfilenames cflags] & w3 & Houtputs & H).
  exists compiler, expanded, w1, sources, options, w2, cfilenames, cflags, w3. auto.
Qed.

(** The first descriptor that [dispatch] returns. *)
Lemma dispatch_returned sources cfilenames cflags w exts w' :
  dispatch sources cfilenames cflags w = (Return exts, w') →
  ∃ first rest e,
    exts = first :: rest
    ∧ extensions w' !! first = Some e
    ∧ Some (MypycifyExtension.name e)
      = (if use_shared_lib sources
         then Some ("lib" +:+ shared_lib_name (map BuildSource.module sources))
         else BuildSource.module <$> head sources)
    ∧ MypycifyExtension.sources e = cfilenames
    ∧ MypycifyExtension.include_dirs e = [include_dir]
    ∧ MypycifyExtension.extra_compile_args e = cflags
    ∧ MypycifyExtension.is_mypyc_shared e = use_shared_lib sources.
Proof.
  unfold dispatch. intros H. destruct (use_shared_lib sources).
  - destruct (shared_lib_name (map BuildSource.module sources)) as [|c name] eqn:Hname;
      [discriminate H|].
    pose proof (build_using_shared_lib_returned _ _ _ _ _ _ _ _ H) as Hpaths.
    destruct (build_using_shared_lib_returns sources (String c name) cfilenames "build"
                cflags w Hpaths) as (shared & shims & w2 & Hrun & Hshared & _).
    rewrite H in Hrun. injection Hrun as -> ->.
    eexists _, _, _. split; [reflexivity|]. split; [exact Hshared|]. repeat split.
  - destruct sources as [|source sources]; [discriminate H|].
    rewrite build_single_module_returns in H. injection H as <- <-.
    eexists _, _, _. split; [reflexivity|]. split; [apply lookup_insert_eq|]. repeat split.
Qed.

End quiet.

(** X15: with [skip_cgen] a build prints nothing, verbose or not and
    whatever its outcome. *)
Theorem skip_cgen_is_silent {E : External} (paths : list string)
    (mypy_options : option loc) (opt_level : string)
    (multi_file verbose strip_asserts : bool) (w : world) :
  stdout (snd (mypycify paths mypy_options opt_level multi_file true verbose
                 strip_asserts w))
  = stdout w.
Proof.
  rewrite mypycify_stages.
  assert (Hkeeps : keeps same_stdout
            (mypycify_staged paths mypy_options opt_level multi_file true verbose
               strip_asserts)).
  { unfold mypycify_staged.
    apply keeps_bind; [typeclasses eauto|apply prepare_stdout|]. intros [compiler expanded].
    apply keeps_bind; [typeclasses eauto|apply get_mypy_config_stdout|].
    intros [sources options].
    apply keeps_bind; [typeclasses eauto|apply outputs_stdout_skipped|].
    intros [cfilenames cflags]. apply dispatch_stdout. }
  apply Hkeeps.
Qed.



(** ** The build, end to end *)

#[local] Instance file_stays_preorder p : PreOrder (file_stays p).
Proof. split; [intros w H; exact H|intros w1 w2 w3 H12 H23 H; auto]. Qed.

#[local] Instance same_at_preorder p : PreOrder (same_at p).
Proof.
  split; [intros w; reflexivity|].
  intros w1 w2 w3 H12 H23. unfold same_at in *. congruence.
Qed.

#[local] Instance same_files_preorder : PreOrder same_files.
Proof.
  split; [intros w; reflexivity|].
  intros w1 w2 w3 H12 H23. unfold same_files in *. congruence.
Qed.

Section end_to_end.
Context {E : External}.

(** *** Up to the configuration *)

Lemma replace_in_var_files key old new w :
  fs (snd (replace_in_var key old new w)) = fs w.
Proof.
  unfold replace_in_var, bind, gets, raise, modify.
  destruct (config_vars w !! key); reflexivity.
Qed.

Lemma setup_mypycify_vars_files w : fs (snd (setup_mypycify_vars w)) = fs w.
Proof.
  unfold setup_mypycify_vars. destruct (String.eqb sys_platform "darwin"); [|reflexivity].
  unfold bind.
  pose proof (replace_in_var_files "LDSHARED" "-bundle" "-dynamiclib" w) as H1.
  destruct (replace_in_var "LDSHARED" "-bundle" "-dynamiclib" w) as [[[]|e1] w1];
    cbn [snd] in *; [|exact H1].
  pose proof (replace_in_var_files "LDFLAGS" "-arch i386" "" w1) as H2.
  destruct (replace_in_var "LDFLAGS" "-arch i386" "" w1) as [[[]|e2] w2];
    cbn [snd] in *; [|congruence].
  pose proof (replace_in_var_files "CFLAGS" "-arch i386" "" w2) as H3.
  destruct (replace_in_var "CFLAGS" "-arch i386" "" w2) as [[[]|e3] w3];
    cbn [snd] in *; congruence.
Qed.

(** The first stage as a function of the world: the paths are expanded
    in the file system of the start, and the build directory is asked
    for. *)
Lemma prepare_run paths w w1 compiler :
  setup_mypycify_vars w = (Return tt, w1) →
  new_compiler = Return compiler →
  ∃ w2,
    prepare paths w = (Return (compiler, concat (map (glob_glob (fs w)) paths)), w2)
    ∧ fs w2 = build_files w
    ∧ lists w2 = lists w
    ∧ extensions w2 = extensions w
    ∧ stdout w2 = stdout w.
Proof.
  intros Hsetup Hcompiler.
  assert (Hfs : fs w1 = fs w).
  { pose proof (setup_mypycify_vars_files w) as H. now rewrite Hsetup in H. }
  assert (Hlists : lists w1 = lists w)
    by (eapply (keeps_run same_lists), Hsetup; apply setup_mypycify_vars_lists).
  assert (Hext : extensions w1 = extensions w)
    by (eapply (keeps_run same_extensions), Hsetup; apply setup_mypycify_vars_extensions).
  assert (Hout : stdout w1 = stdout w)
    by (eapply (keeps_run same_stdout), Hsetup; apply setup_mypycify_vars_stdout).
  unfold prepare.
  rewrite (bind_returns _ _ _ _ _ Hsetup), Hcompiler.
  erewrite bind_returns by reflexivity.
  erewrite bind_returns by reflexivity.
  rewrite Hfs. unfold bind, try_except, os_mkdir, build_files. rewrite Hfs.
  destruct (fs w !! "build") as [n|] eqn:Hdir.
  - exists w1. auto.
  - eexists. split; [reflexivity|]. cbn. rewrite Hfs. auto.
Qed.

Lemma prepare_returned paths w compiler expanded w2 :
  prepare paths w = (Return (compiler, expanded), w2) →
  (∃ w1, setup_mypycify_vars w = (Return tt, w1))
  ∧ new_compiler = Return compiler
  ∧ expanded = concat (map (glob_glob (fs w)) paths)
  ∧ fs w2 = build_files w
  ∧ lists w2 = lists w
  ∧ extensions w2 = extensions w
  ∧ stdout w2 = stdout w.
Proof.
  intros Hprepare.
  destruct (setup_mypycify_vars w) as [[[]|e] w1] eqn:Hsetup.
  - destruct new_compiler as [c|e] eqn:Hcompiler.
    + destruct (prepare_run paths w w1 c Hsetup Hcompiler) as (w3 & Hrun & Hworld).
      rewrite Hprepare in Hrun. injection Hrun as -> -> ->. eauto.
    + unfold prepare in Hprepare.
      rewrite (bind_returns _ _ _ _ _ Hsetup), Hcompiler in Hprepare.
      discriminate Hprepare.
  - unfold prepare in Hprepare.
    rewrite (bind_raises _ _ _ _ _ Hsetup) in Hprepare. discriminate Hprepare.
Qed.

Lemma get_mypy_config_live paths mypy_options w r w' :
  get_mypy_config paths mypy_options w = (Return r, w') → live mypy_options w.
Proof.
  intros Hrun. destruct mypy_options as [l|]; [|exact I]. cbn [live].
  destruct (lists w !! l) as [items|] eqn:Hl; [eauto|].
  unfold get_mypy_config, mypy_options_or_new in Hrun.
  erewrite bind_raises in Hrun
    by (erewrite bind_raises by (unfold list_items; rewrite Hl; reflexivity); reflexivity).
  discriminate Hrun.
Qed.

(** The configuration step of a build, as a function of the answer of
    mypy. *)
Lemma configuration_run paths mypy_options w w2 :
  fs w2 = build_files w →
  lists w2 = lists w →
  live mypy_options w →
  ∃ r,
    get_mypy_config (concat (map (glob_glob (fs w)) paths)) mypy_options w2
    = (match mypy_answer paths mypy_options w with
       | Raise e => Raise e
       | Return (sources, options) =>
           if fst (Options.python_version options) =? 2
           then Raise (SystemExit (ExitMessage "Python 2 not supported"))
           else if negb (Options.strict_optional options)
           then Raise (SystemExit
                         (ExitMessage "Disabling strict optional checking not supported"))
           else Return (sources, configured sources options)
       end,
       set_lists
         (insert r (passed_items mypy_options w ++ "--"
                    :: concat (map (glob_glob (fs w)) paths)))
         w2).
Proof.
  intros Hfs Hlists Hlive.
  assert (Hlive2 : live mypy_options w2).
  { destruct mypy_options; cbn in *; [now rewrite Hlists|exact I]. }
  assert (Hitems : passed_items mypy_options w2 = passed_items mypy_options w).
  { unfold passed_items. now rewrite Hlists. }
  destruct (get_mypy_config_run (concat (map (glob_glob (fs w)) paths)) mypy_options w2 Hlive2)
    as (r & _ & _ & Hrun).
  exists r. rewrite Hrun, Hfs, Hitems. reflexivity.
Qed.

(** A build that returns: the answer of mypy, and the builder chosen for
    its module set. *)
Lemma mypycify_returned_answer paths mypy_options opt_level multi_file skip_cgen verbose
    strip_asserts w exts w' :
  mypycify paths mypy_options opt_level multi_file skip_cgen verbose strip_asserts w
  = (Return exts, w') →
  ∃ compiler sources options w3 cfilenames cflags w4,
    mypy_answer paths mypy_options w = Return (sources, options)
    ∧ unsupported options = false
    ∧ fs w3 = build_files w
    ∧ extensions w3 = extensions w
    ∧ outputs compiler opt_level multi_file skip_cgen verbose strip_asserts sources
        (configured sources options) w3
      = (Return (cfilenames, cflags), w4)
    ∧ dispatch sources cfilenames cflags w4 = (Return exts, w').
Proof.
  intros Hrun.
  apply mypycify_returned_stages in Hrun
    as (compiler & expanded & w2 & ss & oo & w3 & cfilenames & cflags & w4
        & Hprepare & Hconfig & Houtputs & Hdispatch).
  apply prepare_returned in Hprepare as (_ & _ & -> & Hfs & Hlists & Hext & _).
  assert (Hlive : live mypy_options w).
  { apply get_mypy_config_live in Hconfig.
    destruct mypy_options; cbn in *; [now rewrite <- Hlists|exact I]. }
  destruct (configuration_run paths mypy_options w w2 Hfs Hlists Hlive) as (r & Hrun).
  rewrite Hconfig in Hrun.
  destruct (mypy_answer paths mypy_options w) as [[sources options]|e];
    [|discriminate Hrun].
  destruct (fst (Options.python_version options) =? 2) eqn:Hversion; [discriminate Hrun|].
  destruct (Options.strict_optional options) eqn:Hstrict; [|discriminate Hrun].
  cbn [negb] in Hrun. injection Hrun as -> -> ->.
  eexists compiler, sources, options, _, cfilenames, cflags, w4.
  split; [reflexivity|]. split; [unfold unsupported; now rewrite Hversion, Hstrict|].
  split; [|split; [|split; [exact Houtputs|exact Hdispatch]]]; assumption.
Qed.


(** *** What the steps leave in the file system *)

Lemma print_files line : keeps same_files (print line).
Proof. intros w. reflexivity. Qed.
Lemma new_list_files l : keeps same_files (new_list l).
Proof. intros w. reflexivity. Qed.
Lemma list_items_files r : keeps same_files (list_items r).
Proof. intros w. unfold list_items. now destruct (lists w !! r). Qed.
Lemma list_append_files r x : keeps same_files (list_append r x).
Proof. intros w. reflexivity. Qed.
Lemma list_extend_files r xs : keeps same_files (list_extend r xs).
Proof. intros w. reflexivity. Qed.
Lemma new_extension_files e : keeps same_files (new_extension e).
Proof. intros w. reflexivity. Qed.

#[local] Hint Resolve
  print_files new_list_files list_items_files list_append_files list_extend_files
  new_extension_files : frames.

Lemma get_mypy_config_files paths mypy_options :
  keeps same_files (get_mypy_config paths mypy_options).
Proof. unfold get_mypy_config, mypy_options_or_new, fail. frame. Qed.



Lemma build_single_module_files sources cfiles cflags :
  keeps same_files (build_single_module sources cfiles cflags).
Proof. unfold build_single_module. frame. Qed.

Lemma same_files_at p w w' : same_files w w' → same_at p w w'.
Proof. unfold same_files, same_at. now intros ->. Qed.

Lemma same_files_stays p w w' : same_files w w' → file_stays p w w'.
Proof. unfold same_files, file_stays. now intros ->. Qed.

Lemma open_w_at p q : q ≠ p → keeps (same_at p) (open_w q).
Proof. intros Hne w. unfold same_at. cbn. now rewrite lookup_insert_ne. Qed.

Lemma f_write_at p q text : q ≠ p → keeps (same_at p) (f_write q text).
Proof.
  intros Hne w. unfold same_at, f_write.
  destruct (fs w !! q) as [[|c]|]; cbn; try reflexivity. now rewrite lookup_insert_ne.
Qed.


Lemma open_w_stays p q : keeps (file_stays p) (open_w q).
Proof.
  intros w [c Hc]. cbn. destruct (decide (q = p)) as [->|Hne].
  - rewrite lookup_insert_eq. eauto.
  - rewrite lookup_insert_ne by exact Hne. eauto.
Qed.

Lemma f_write_stays p q text : keeps (file_stays p) (f_write q text).
Proof.
  intros w [c Hc]. unfold f_write.
  destruct (fs w !! q) as [[|c']|] eqn:Hq; cbn; eauto.
  destruct (decide (q = p)) as [->|Hne].
  - rewrite lookup_insert_eq. eauto.
  - rewrite lookup_insert_ne by exact Hne. eauto.
Qed.



Lemma write_cfile_stays p acc entry : keeps (file_stays p) (write_cfile "build" acc entry).
Proof.
  destruct entry as [cfile ctext]. unfold write_cfile.
  apply keeps_bind; [typeclasses eauto|apply open_w_stays|]. intros _.
  apply keeps_bind; [typeclasses eauto|apply f_write_stays|]. intros _.
  destruct (String.eqb _ ".c"); apply keeps_ret; typeclasses eauto.
Qed.


(** *** The outputs go through *)

Lemma shared_lib_name_cons (modules : list string) :
  ∃ c name, shared_lib_name modules = String c name.
Proof. unfold shared_lib_name. rewrite append_cons. eauto. Qed.

Lemma cflags_for_run compiler opt_level multi_file :
  (Compiler.compiler_type compiler = "unix" → Compiler.compiler compiler ≠ []) →
  ∃ cflags, ∀ w, cflags_for compiler opt_level multi_file w = (Return cflags, w).
Proof.
  intros Hc. unfold cflags_for.
  destruct (String.eqb (Compiler.compiler_type compiler) "unix") eqn:Hunix.
  - apply String.eqb_eq in Hunix. specialize (Hc Hunix).
    destruct (Compiler.compiler compiler) as [|c0 l]; [contradiction|].
    destruct (Py.str_contains "gcc" c0); eexists; intros w; reflexivity.
  - destruct (String.eqb _ "msvc"); [destruct multi_file|]; eexists; intros w; reflexivity.
Qed.

Lemma write_cfiles_run (cfiles : list (string * string)) :
  ∀ acc w, ∃ r w', for_each cfiles (write_cfile "build") acc w = (Return r, w').
Proof.
  induction cfiles as [|[cfile ctext] cfiles IH]; intros acc w.
  - eexists _, _. reflexivity.
  - cbn [for_each].
    assert (Hstep : ∃ acc1 w1,
              write_cfile "build" acc (cfile, ctext) w = (Return acc1, w1)).
    { unfold write_cfile. erewrite bind_returns by reflexivity.
      erewrite bind_returns
        by (unfold f_write; cbn [fs set_fs]; rewrite lookup_insert_eq; reflexivity).
      destruct (String.eqb _ ".c"); eexists _, _; reflexivity. }
    destruct Hstep as (acc1 & w1 & Hstep). rewrite (bind_returns _ _ _ _ _ Hstep). apply IH.
Qed.

(** When the translation returns, so do the outputs. *)
Lemma outputs_run compiler opt_level multi_file skip_cgen verbose strip_asserts sources
    options w :
  translation_returns multi_file skip_cgen verbose strip_asserts compiler (fs w) sources
    options →
  ∃ cfilenames cflags w',
    outputs compiler opt_level multi_file skip_cgen verbose strip_asserts sources
      (configured sources options) w
    = (Return (cfilenames, cflags), w').
Proof.
  intros (Hcompiler & Htranslate & Hruntime). unfold outputs.
  destruct (cflags_for_run compiler opt_level multi_file Hcompiler) as [cflags Hcflags].
  match goal with
  | |- ∃ _ _ _, bind ?m _ w = _ =>
      assert (Hfirst : ∃ cf w1, m w = (Return cf, w1)
                                ∧ file_stays (posixpath.join include_dir ["CPy.c"]) w w1)
  end.
  { destruct skip_cgen; cbn [negb].
    - eexists _, _. split; [reflexivity|]. intros H. exact H.
    - destruct (Htranslate eq_refl) as (result & ctext & ops & Hparse & Hcompile).
      pose proof (generate_c_run sources (configured sources options)
                    (if use_shared_lib sources
                     then Some (shared_lib_name (map BuildSource.module sources)) else None)
                    (Some (CompilerOptions.mk strip_asserts multi_file verbose))
                    w result ctext ops Hparse Hcompile) as Hgen.
      rewrite (bind_returns _ _ _ _ _ Hgen). cbn beta iota.
      erewrite bind_returns by reflexivity.
      erewrite bind_returns
        by (unfold f_write; cbn [fs set_fs]; rewrite lookup_insert_eq; reflexivity).
      match goal with
      | |- ∃ _ _, for_each _ _ _ ?w0 = _ ∧ _ =>
          destruct (write_cfiles_run ctext [] w0) as (r & w1 & Hloop);
          assert (Hstays : file_stays (posixpath.join include_dir ["CPy.c"]) w w0)
      end.
      { etransitivity; [|etransitivity];
          [|apply (open_w_stays _ (posixpath.join "build" ["ops.txt"]))|].
        - apply same_files_stays. reflexivity.
        - cbn [snd open_w modify].
          pose proof (f_write_stays (posixpath.join include_dir ["CPy.c"])
                        (posixpath.join "build" ["ops.txt"])
                        (Py.str_join (String "010"%char EmptyString) ops)) as Hwrite.
          match goal with
          | |- file_stays _ ?wa _ => specialize (Hwrite wa)
          end.
          unfold f_write in Hwrite |- *. cbn [fs set_fs] in Hwrite |- *.
          rewrite lookup_insert_eq in Hwrite. exact Hwrite. }
      exists r, w1. split; [exact Hloop|].
      etransitivity; [exact Hstays|].
      eapply (keeps_run (file_stays _)), Hloop.
      apply keeps_for_each; [typeclasses eauto|]. intros acc entry. apply write_cfile_stays. }
  destruct Hfirst as (cf & w1 & Hfirst & Hstays).
  rewrite (bind_returns _ _ _ _ _ Hfirst), (bind_returns _ _ _ _ _ (Hcflags w1)).
  destruct (Hstays Hruntime) as [c Hc].
  erewrite bind_returns by (unfold shutil_copyfile; rewrite Hc; reflexivity).
  eexists _, _, _. reflexivity.
Qed.

(** *** The choice of the builder *)

Lemma use_shared_lib_needs (sources : list BuildSource.t) :
  use_shared_lib sources = true ↔ needs_shared_lib sources.
Proof.
  unfold use_shared_lib, needs_shared_lib.
  change (fun x => Py.str_contains "." (BuildSource.module x)) with in_package.
  rewrite orb_true_iff, Nat.ltb_lt, existsb_true. reflexivity.
Qed.

Lemma use_shared_lib_not_needed (sources : list BuildSource.t) :
  use_shared_lib sources = false ↔ ¬ needs_shared_lib sources.
Proof. rewrite <- use_shared_lib_needs. now destruct (use_shared_lib sources). Qed.

Lemma single_module_set (sources : list BuildSource.t) :
  sources ≠ [] →
  ¬ needs_shared_lib sources
  ↔ length sources = 1%nat ∧ Forall (fun x => in_package x = false) sources.
Proof.
  intros Hne. rewrite <- use_shared_lib_not_needed. unfold use_shared_lib.
  change (fun x => Py.str_contains "." (BuildSource.module x)) with in_package.
  rewrite orb_false_iff, Nat.ltb_ge, existsb_false.
  destruct sources as [|x [|y l]]; cbn; [contradiction| |]; intuition lia.
Qed.

(** What [dispatch] returns is the plan of the builder that the module
    set asks for. *)
Lemma dispatch_plan sources cfilenames cflags w exts w' :
  dispatch sources cfilenames cflags w = (Return exts, w') →
  (needs_shared_lib sources → shared_plan w' sources exts)
  ∧ (¬ needs_shared_lib sources →
     ∃ r e, exts = [r]
            ∧ extensions w !! r = None
            ∧ extensions w' !! r = Some e
            ∧ MypycifyExtension.is_mypyc_shared e = false
            ∧ MypycifyExtension.mypyc_shared_target e = None
            ∧ Some (MypycifyExtension.name e) = BuildSource.module <$> head sources).
Proof.
  unfold dispatch. intros Hrun.
  destruct (use_shared_lib sources) eqn:Hshared.
  - split; [intros _|intros Hnot; now apply use_shared_lib_needs in Hshared].
    destruct (shared_lib_name (map BuildSource.module sources)); [discriminate Hrun|].
    eapply build_using_shared_lib_plan, Hrun.
  - split; [intros Hneeds; apply use_shared_lib_needs in Hneeds; congruence|intros _].
    destruct sources as [|source sources]; [discriminate Hrun|].
    rewrite build_single_module_returns in Hrun. injection Hrun as <- <-.
    eexists _, _. split; [reflexivity|]. split; [apply fresh_extension|].
    split; [apply lookup_insert_eq|]. repeat split.
Qed.

(** [dispatch] returns on a module set that is not empty, when the
    sources of a Shared build have their paths. *)
Lemma dispatch_run sources cfilenames cflags w :
  sources ≠ [] →
  (needs_shared_lib sources → Forall has_path sources) →
  ∃ exts w', dispatch sources cfilenames cflags w = (Return exts, w').
Proof.
  intros Hne Hpaths. unfold dispatch.
  destruct (use_shared_lib sources) eqn:Hshared.
  - apply use_shared_lib_needs, Hpaths in Hshared.
    destruct (shared_lib_name_cons (map BuildSource.module sources)) as (c & name & ->).
    destruct (build_using_shared_lib_returns sources (String c name) cfilenames "build"
                cflags w Hshared) as (shared & shims & w' & Hrun & _).
    eauto.
  - destruct sources as [|source sources]; [contradiction|].
    rewrite build_single_module_returns. eauto.
Qed.

(** *** The build up to the choice of the builder *)


(** When the collaborators return, the build reaches the choice of the
    builder, with no descriptor made yet. *)
Lemma mypycify_run paths mypy_options opt_level multi_file skip_cgen verbose strip_asserts
    w w1 compiler sources options :
  setup_mypycify_vars w = (Return tt, w1) →
  new_compiler = Return compiler →
  live mypy_options w →
  mypy_answer paths mypy_options w = Return (sources, options) →
  unsupported options = false →
  translation_returns multi_file skip_cgen verbose strip_asserts compiler (build_files w)
    sources options →
  ∃ cfilenames cflags w4,
    mypycify paths mypy_options opt_level multi_file skip_cgen verbose strip_asserts w
    = dispatch sources cfilenames cflags w4
    ∧ extensions w4 = extensions w.
Proof.
  intros Hsetup Hcompiler Hlive Hanswer Hsupported Htranslation.
  rewrite mypycify_stages. unfold mypycify_staged.
  destruct (prepare_run paths w w1 compiler Hsetup Hcompiler)
    as (w2 & Hprepare & Hfs & Hlists & Hext & _).
  rewrite (bind_returns _ _ _ _ _ Hprepare). cbn beta iota.
  destruct (configuration_run paths mypy_options w w2 Hfs Hlists Hlive) as (r & Hconfig).
  rewrite Hanswer in Hconfig. unfold unsupported in Hsupported.
  apply orb_false_iff in Hsupported as [Hversion Hstrict].
  rewrite Hversion, Hstrict in Hconfig.
  rewrite (bind_returns _ _ _ _ _ Hconfig). cbn beta iota.
  match goal with
  | |- context [bind (outputs _ _ _ _ _ _ _ _) _ ?w3] =>
      destruct (outputs_run compiler opt_level multi_file skip_cgen verbose strip_asserts
                  sources options w3) as (cfilenames & cflags & w4 & Houtputs);
      [unfold set_lists; cbn [fs]; now rewrite Hfs|]
  end.
  rewrite (bind_returns _ _ _ _ _ Houtputs). cbn beta iota.
  exists cfilenames, cflags, w4. split; [reflexivity|].
  rewrite <- Hext.
  eapply (keeps_run same_extensions) in Houtputs; [|apply outputs_extensions].
  exact Houtputs.
Qed.

(** The shims leave alone every path that is not the path of a shim. *)
Lemma generate_c_extension_shim_at p full_module_name module_name :
  posixpath.join "build" [Py.str_replace "." "___" full_module_name +:+ ".c"] ≠ p →
  keeps (same_at p) (generate_c_extension_shim full_module_name module_name "build").
Proof.
  intros Hne. unfold generate_c_extension_shim.
  apply keeps_bind; [typeclasses eauto|now apply open_w_at|]. intros _.
  apply keeps_bind; [typeclasses eauto|apply keeps_lift; typeclasses eauto|]. intros text.
  apply keeps_bind; [typeclasses eauto|now apply f_write_at|]. intros _.
  apply keeps_ret. typeclasses eauto.
Qed.

Lemma shim_extension_at p shared cflags acc source :
  shim_path "build" source ≠ p →
  keeps (same_at p) (shim_extension shared "build" cflags acc source).
Proof.
  intros Hne. unfold shim_extension.
  apply keeps_bind; [typeclasses eauto|now apply generate_c_extension_shim_at|].
  intros shim_file.
  destruct (BuildSource.path source) as [[|a path]|];
    try (apply keeps_raise; typeclasses eauto).
  apply keeps_bind; [typeclasses eauto| |intros ext; apply keeps_ret; typeclasses eauto].
  intros w. apply same_files_at, new_extension_files.
Qed.

Lemma shim_loop_at p shared cflags (sources : list BuildSource.t) :
  Forall (fun source => shim_path "build" source ≠ p) sources →
  ∀ acc, keeps (same_at p) (for_each sources (shim_extension shared "build" cflags) acc).
Proof.
  induction 1 as [|source sources Hne _ IH]; intros acc.
  - cbn [for_each]. apply keeps_ret. typeclasses eauto.
  - cbn [for_each]. apply keeps_bind; [typeclasses eauto|now apply shim_extension_at|].
    intros acc1. apply IH.
Qed.

Lemma dispatch_at p sources cfilenames cflags :
  use_shared_lib sources = false
  ∨ Forall (fun source => shim_path "build" source ≠ p) sources →
  keeps (same_at p) (dispatch sources cfilenames cflags).
Proof.
  intros Hpaths. unfold dispatch. destruct (use_shared_lib sources).
  - destruct Hpaths as [Hsingle|Hpaths]; [discriminate Hsingle|].
    destruct (shared_lib_name (map BuildSource.module sources));
      [apply keeps_raise; typeclasses eauto|].
    unfold build_using_shared_lib.
    apply keeps_bind; [typeclasses eauto| |intros shared; now apply shim_loop_at].
    intros w. apply same_files_at, new_extension_files.
  - intros w. apply same_files_at, build_single_module_files.
Qed.

End end_to_end.

(** ** The build plan of the entry point *)

(** C1: for every module set that is not empty, the build is Shared
    exactly when the set has more than one module or some module name
    contains a dot, and Single otherwise, that is with exactly one module
    outside of any package. This is read off the result of [mypycify] on
    the module set that mypy answers to the build: whenever the build
    returns, its descriptors are the plan of a Shared build in the first
    case and one descriptor without marker and without back-reference in
    the second; and the build does return them once the collaborators
    return, the sources of a Shared build having their paths. *)
Theorem strategy_selection {E : External} (sources : list BuildSource.t)
    (options : Options.t) (paths : list string) (mypy_options : option loc)
    (opt_level : string) (multi_file skip_cgen verbose strip_asserts : bool) (w : world) :
  sources ≠ [] →
  mypy_answer paths mypy_options w = Return (sources, options) →
  (¬ needs_shared_lib sources
   ↔ length sources = 1%nat ∧ Forall (fun x => in_package x = false) sources)
  ∧ (∀ exts w',
        mypycify paths mypy_options opt_level multi_file skip_cgen verbose strip_asserts w
        = (Return exts, w') →
        (needs_shared_lib sources → shared_plan w' sources exts)
        ∧ (¬ needs_shared_lib sources →
           ∃ r e, exts = [r]
                  ∧ extensions w' !! r = Some e
                  ∧ MypycifyExtension.is_mypyc_shared e = false
                  ∧ MypycifyExtension.mypyc_shared_target e = None))
  ∧ (∀ w1 compiler,
        setup_mypycify_vars w = (Return tt, w1) →
        new_compiler = Return compiler →
        live mypy_options w →
        unsupported options = false →
        translation_returns multi_file skip_cgen verbose strip_asserts compiler
          (build_files w) sources options →
        (needs_shared_lib sources →
         Forall has_path sources →
         ∃ exts w',
           mypycify paths mypy_options opt_level multi_file skip_cgen verbose strip_asserts w
           = (Return exts, w')
           ∧ shared_plan w' sources exts)
        ∧ (¬ needs_shared_lib sources →
           ∃ r e w',
             mypycify paths mypy_options opt_level multi_file skip_cgen verbose
               strip_asserts w
             = (Return [r], w')
             ∧ extensions w !! r = None
             ∧ extensions w' !! r = Some e
             ∧ MypycifyExtension.is_mypyc_shared e = false
             ∧ MypycifyExtension.mypyc_shared_target e = None
             ∧ Some (MypycifyExtension.name e) = BuildSource.module <$> head sources)).
Proof.
  intros Hne Hanswer. split; [now apply single_module_set|]. split.
  - intros exts w' Hrun.
    apply mypycify_returned_answer in Hrun
      as (compiler & ss & oo & w3 & cfilenames & cflags & w4
          & Hanswer' & _ & _ & _ & _ & Hdispatch).
    rewrite Hanswer in Hanswer'. injection Hanswer' as <- <-.
    destruct (dispatch_plan _ _ _ _ _ _ Hdispatch) as [Hshared Hsingle].
    split; [exact Hshared|]. intros Hnot.
    destruct (Hsingle Hnot) as (r & e & -> & _ & He & Hmark & Htarget & _).
    exists r, e. auto.
  - intros w1 compiler Hsetup Hcompiler Hlive Hsupported Htranslation.
    destruct (mypycify_run paths mypy_options opt_level multi_file skip_cgen verbose
                strip_asserts w w1 compiler sources options
                Hsetup Hcompiler Hlive Hanswer Hsupported Htranslation)
      as (cfilenames & cflags & w4 & Hrun & Hext).
    rewrite Hrun. split.
    + intros Hneeds Hpaths.
      destruct (dispatch_run sources cfilenames cflags w4 Hne (fun _ => Hpaths))
        as (exts & w' & Hdispatch).
      exists exts, w'. split; [exact Hdispatch|].
      now apply (dispatch_plan _ _ _ _ _ _ Hdispatch).
    + intros Hnot.
      destruct (dispatch_run sources cfilenames cflags w4 Hne)
        as (exts & w' & Hdispatch); [intros Hneeds; contradiction|].
      destruct (dispatch_plan _ _ _ _ _ _ Hdispatch) as [_ Hsingle].
      destruct (Hsingle Hnot) as (r & e & -> & Hfresh & He & Hmark & Htarget & Hname).
      exists r, e, w'. rewrite <- Hext. auto 10.
Qed.

Lemma strategy_selection_witness :
  (∃ r e w',
     @mypycify linux_host ["foo.py"] None "3" false false false false
       (initial_world ["foo.py"])
     = (Return [r], w')
     ∧ extensions w' !! r = Some e
     ∧ MypycifyExtension.is_mypyc_shared e = false
     ∧ MypycifyExtension.mypyc_shared_target e = None)
  ∧ (∃ exts w',
       @mypycify linux_host ["a/__init__.py"; "a/b.py"] None "3" false false false false
         (initial_world ["a/__init__.py"; "a/b.py"])
       = (Return exts, w')
       ∧ shared_plan w' package_sources exts).
Proof.
  assert (Htranslation : ∀ files sources,
            @translation_returns linux_host false false false false
              (Compiler.mk "unix" ["gcc"])
              (build_files (initial_world files)) sources default_options).
  { intros files sources. split; [discriminate|]. split.
    - intros _. exists tt. eexists _, _. split; reflexivity.
    - exists "/* runtime */". unfold build_files, initial_world. cbn [fs].
      destruct (list_to_map _ !! "build"); [|rewrite lookup_insert_ne by discriminate];
        apply lookup_insert_eq. }
  split.
  - destruct (@strategy_selection linux_host lone_source default_options ["foo.py"] None "3"
                false false false false (initial_world ["foo.py"]))
      as (_ & _ & Hrun); [discriminate|vm_compute; reflexivity|].
    destruct (Hrun (initial_world ["foo.py"]) (Compiler.mk "unix" ["gcc"])
                eq_refl eq_refl I eq_refl (Htranslation _ _)) as [_ Hsingle].
    destruct Hsingle as (r & e & w' & Hbuild & _ & He & Hmark & Htarget & _).
    { apply use_shared_lib_not_needed. reflexivity. }
    exists r, e, w'. auto.
  - destruct (@strategy_selection linux_host package_sources default_options
                ["a/__init__.py"; "a/b.py"] None "3"
                false false false false (initial_world ["a/__init__.py"; "a/b.py"]))
      as (_ & _ & Hrun); [discriminate|vm_compute; reflexivity|].
    destruct (Hrun (initial_world ["a/__init__.py"; "a/b.py"]) (Compiler.mk "unix" ["gcc"])
                eq_refl eq_refl I eq_refl (Htranslation _ _)) as [Hshared _].
    apply Hshared.
    + apply use_shared_lib_needs. reflexivity.
    + repeat constructor.
Defined.




(** C8: a configuration that selects Python 2 or disables strict-optional
    checking ends the build at once. When the options that mypy answers
    to the build are such, [mypycify] raises [SystemExit] with a message,
    the one about Python 2 when both apply, which the interpreter prints
    before it exits with a status other than zero; no descriptor has been
    produced, nothing has been printed, and the file system has changed
    by the build directory only. *)
Theorem unsupported_configuration_exits {E : External} (paths : list string)
    (mypy_options : option loc) (opt_level : string)
    (multi_file skip_cgen verbose strip_asserts : bool) (w w1 : world)
    (compiler : Compiler.t) (sources : list BuildSource.t) (options : Options.t) :
  setup_mypycify_vars w = (Return tt, w1) →
  new_compiler = Return compiler →
  live mypy_options w →
  mypy_answer paths mypy_options w = Return (sources, options) →
  unsupported options = true →
  ∃ message w',
    mypycify paths mypy_options opt_level multi_file skip_cgen verbose strip_asserts w
    = (Raise (SystemExit (ExitMessage message)), w')
    ∧ message = (if fst (Options.python_version options) =? 2
                 then "Python 2 not supported"
                 else "Disabling strict optional checking not supported")
    ∧ (message = "Python 2 not supported"
       ∨ message = "Disabling strict optional checking not supported")
    ∧ exit_message (SystemExit (ExitMessage message)) = Some message
    ∧ exit_status (SystemExit (ExitMessage message)) ≠ 0
    ∧ extensions w' = extensions w
    ∧ stdout w' = stdout w
    ∧ fs w' = build_files w.
Proof.
  intros Hsetup Hcompiler Hlive Hanswer Hbad.
  rewrite mypycify_stages. unfold mypycify_staged.
  destruct (prepare_run paths w w1 compiler Hsetup Hcompiler)
    as (w2 & Hprepare & Hfs & Hlists & Hext & Hout).
  rewrite (bind_returns _ _ _ _ _ Hprepare). cbn beta iota.
  destruct (configuration_run paths mypy_options w w2 Hfs Hlists Hlive) as (r & Hconfig).
  rewrite Hanswer in Hconfig. unfold unsupported in Hbad.
  destruct (fst (Options.python_version options) =? 2).
  - rewrite (bind_raises _ _ _ _ _ Hconfig). eexists _, _.
    split; [reflexivity|]. split; [reflexivity|]. split; [now left|].
    split; [reflexivity|]. split; [discriminate|]. auto.
  - cbn [orb] in Hbad. rewrite Hbad in Hconfig.
    rewrite (bind_raises _ _ _ _ _ Hconfig). eexists _, _.
    split; [reflexivity|]. split; [reflexivity|]. split; [now right|].
    split; [reflexivity|]. split; [discriminate|]. auto.
Qed.

Lemma unsupported_configuration_exits_witness :
  (∃ exts w',
     @mypycify flags_host ["foo.py"] (Some 0%nat) "3" false false false false
       (world_with_options ["foo.py"] ["--strict"])
     = (Return exts, w'))
  ∧ ∃ w',
      @mypycify flags_host ["foo.py"] (Some 0%nat) "3" false false false false
        (world_with_options ["foo.py"] ["--py2"])
      = (Raise (SystemExit (ExitMessage "Python 2 not supported")), w')
      ∧ extensions w' = ∅
      ∧ fs w' !! "build/ops.txt" = None.
Proof.
  split; [eexists _, _; vm_compute; reflexivity|].
  destruct (@unsupported_configuration_exits flags_host ["foo.py"] (Some 0%nat) "3"
              false false false false
              (world_with_options ["foo.py"] ["--py2"])
              (world_with_options ["foo.py"] ["--py2"])
              (Compiler.mk "unix" ["gcc"]) lone_source python2_options)
    as (message & w' & Hrun & -> & _ & _ & _ & Hext & _ & Hfs);
    [reflexivity|reflexivity|cbn; eauto|vm_compute; reflexivity|reflexivity|].
  exists w'. split; [exact Hrun|]. split; [exact Hext|].
  rewrite Hfs. vm_compute. reflexivity.
Defined.

(** X14: the first descriptor of a build that returns, for the module
    set that mypy answers to the build. It is named ['lib'] followed by
    the shared-library name of the module names, in their order, when the
    strategy is Shared, and after the module otherwise; it carries the
    shared-library marker exactly in the first case; it includes the
    lib-rt directory; and the last of its sources is [build/CPy.c], the
    path to which the runtime source is copied. In a Single build, and in
    a Shared build none of whose shims is written to that path or to the
    runtime source, [build/CPy.c] holds the text of the runtime source
    when the build returns. *)
Theorem first_descriptor {E : External} (sources : list BuildSource.t)
    (options : Options.t) (paths : list string) (mypy_options : option loc)
    (opt_level : string) (multi_file skip_cgen verbose strip_asserts : bool)
    (w w' : world) (exts : list loc) :
  mypy_answer paths mypy_options w = Return (sources, options) →
  mypycify paths mypy_options opt_level multi_file skip_cgen verbose strip_asserts w
  = (Return exts, w') →
  ∃ first rest e cfiles,
    exts = first :: rest
    ∧ extensions w' !! first = Some e
    ∧ Some (MypycifyExtension.name e)
      = (if use_shared_lib sources
         then Some ("lib" +:+ shared_lib_name (map BuildSource.module sources))
         else BuildSource.module <$> head sources)
    ∧ MypycifyExtension.is_mypyc_shared e = use_shared_lib sources
    ∧ MypycifyExtension.sources e = cfiles ++ ["build/CPy.c"]
    ∧ MypycifyExtension.include_dirs e = [include_dir]
    ∧ is_Some (fs w' !! "build/CPy.c")
    ∧ (use_shared_lib sources = false
       ∨ Forall (fun source =>
                   shim_path "build" source
                   ∉ ["build/CPy.c"; posixpath.join include_dir ["CPy.c"]]) sources →
       ∃ c, fs w' !! "build/CPy.c" = Some (File c)
            ∧ fs w' !! posixpath.join include_dir ["CPy.c"] = Some (File c)).
Proof.
  intros Hanswer Hrun.
  apply mypycify_returned_answer in Hrun
    as (compiler & ss & oo & w3 & cfilenames & cflags & w4
        & Hanswer' & _ & _ & _ & Houtputs & Hdispatch).
  rewrite Hanswer in Hanswer'. injection Hanswer' as <- <-.
  destruct (outputs_returned _ _ _ _ _ _ _ _ _ _ _ _ Houtputs)
    as (cf0 & c & -> & Hcopy & Hruntime & _).
  destruct (dispatch_returned _ _ _ _ _ _ Hdispatch)
    as (first & rest & e & -> & He & Hname & Hsources & Hinclude & _ & Hmark).
  exists first, rest, e, cf0. repeat split; auto.
  - eapply (keeps_run fs_grows); [apply dispatch_fs|exact Hdispatch|].
    rewrite Hcopy. eauto.
  - intros Hpaths. exists c. split.
    + rewrite <- Hcopy. eapply (keeps_run (same_at _)), Hdispatch.
      apply dispatch_at. destruct Hpaths as [Hsingle|Hpaths]; [now left|right].
      eapply Forall_impl; [exact Hpaths|]. intros source Hout Heq.
      apply Hout. rewrite Heq. left.
    + rewrite <- Hruntime. eapply (keeps_run (same_at _)), Hdispatch.
      apply dispatch_at. destruct Hpaths as [Hsingle|Hpaths]; [now left|right].
      eapply Forall_impl; [exact Hpaths|]. intros source Hout Heq.
      apply Hout. rewrite Heq. right. left.
Qed.

Lemma first_descriptor_witness :
  ∃ first rest e w',
    @mypycify linux_host ["a/__init__.py"; "a/b.py"] None "3" false false false false
      (initial_world ["a/__init__.py"; "a/b.py"])
    = (Return (first :: rest), w')
    ∧ extensions w' !! first = Some e
    ∧ MypycifyExtension.name e = "libmypyc_cbbd70c4a91a48dc9f6d"
    ∧ MypycifyExtension.is_mypyc_shared e = true
    ∧ fs w' !! "build/CPy.c" = Some (File "/* runtime */").
Proof.
  destruct (@mypycify linux_host ["a/__init__.py"; "a/b.py"] None "3"
              false false false false (initial_world ["a/__init__.py"; "a/b.py"]))
    as [[exts|e] w'] eqn:Hrun;
    [|apply (f_equal fst) in Hrun; vm_compute in Hrun; discriminate Hrun].
  destruct (@first_descriptor linux_host package_sources default_options
              ["a/__init__.py"; "a/b.py"] None "3" false false false false
              (initial_world ["a/__init__.py"; "a/b.py"]) w' exts)
    as (first & rest & e & cfiles & -> & He & Hname & Hmark & _ & _ & _ & Hcopy);
    [vm_compute; reflexivity|exact Hrun|].
  destruct Hcopy as (c & Hcopy & Hruntime).
  { right. repeat constructor; rewrite !elem_of_cons, elem_of_nil;
      intros [H|[H|[]]]; vm_compute in H; discriminate H. }
  exists first, rest, e, w'. split; [reflexivity|]. split; [exact He|].
  split; [|split; [exact Hmark|]].
  - change (use_shared_lib package_sources) with true in Hname. cbv iota in Hname.
    injection Hname as ->. vm_compute. reflexivity.
  - rewrite Hcopy. f_equal. f_equal.
    assert (Hsame : fs w' !! "/opt/mypyc/lib-rt/CPy.c" = Some (File "/* runtime */")).
    { apply (f_equal snd) in Hrun. cbn [snd] in Hrun. rewrite <- Hrun.
      vm_compute. reflexivity. }
    change (posixpath.join (@include_dir linux_host) ["CPy.c"])
      with "/opt/mypyc/lib-rt/CPy.c" in Hruntime.
    congruence.
Defined.

(** ** The runtime source and the shims *)

Section runtime_source.
Context {E : External}.

Ltac peel_replaced H :=
  match type of H with
  | Py.str_replace "." "___" ?m = _ =>
      destruct m as [|? ?];
      [try (vm_compute in H; discriminate H)
      |rewrite replace_dot_cons in H;
       destruct (Ascii.eqb _ ".");
       [rewrite ?append_cons in H; discriminate H
       |first [discriminate H
              |injection H as ? H;
               change (Py.replace_from "." "___" 0 ?x)
                 with (Py.str_replace "." "___" x) in H]]]
  end.

Lemma replaced_CPy (m : string) : Py.str_replace "." "___" m = "CPy" → m = "CPy".
Proof.
  intros H. peel_replaced H. peel_replaced H. peel_replaced H. peel_replaced H.
  now subst.
Qed.

Lemma before_dot_c (x : string) : x +:+ ".c" = "CPy.c" → x = "CPy".
Proof.
  intros H.
  destruct x as [|a1 x]; [discriminate H|]. rewrite append_cons in H. injection H as -> H.
  destruct x as [|a2 x]; [discriminate H|]. rewrite append_cons in H. injection H as -> H.
  destruct x as [|a3 x]; [discriminate H|]. rewrite append_cons in H. injection H as -> H.
  destruct x as [|a4 x]; [reflexivity|]. rewrite append_cons in H. injection H as -> H.
  destruct x as [|a5 x]; [discriminate H|]. rewrite append_cons in H. injection H as -> H.
  destruct x; discriminate H.
Qed.

(** In the directory [build] the shim of the module [CPy], and of no
    other module, is the file [build/CPy.c]. *)
Lemma shim_path_runtime (source : BuildSource.t) :
  shim_path "build" source = "build/CPy.c" → BuildSource.module source = "CPy".
Proof.
  unfold shim_path, posixpath.join. cbn [fold_left].
  unfold posixpath.join_step, posixpath.sep.
  generalize (Py.str_replace "." "___" (BuildSource.module source)) (replaced_CPy (BuildSource.module source)).
  intros x Hx.
  destruct (Py.startswith (x +:+ ".c") "/") eqn:Hstarts.
  - intros Hpath. rewrite Hpath in Hstarts. discriminate Hstarts.
  - change (String.eqb "build" "" || Py.endswith "build" "/")%bool with false. cbn iota.
    intros Hpath. apply Hx, before_dot_c.
    rewrite !append_cons in Hpath. now injection Hpath.
Qed.

(** Once [build/CPy.c] holds the shim of [CPy], the loop over the sources
    leaves it so. *)
Lemma shim_loop_keeps_shim shared cflags (text : string) (sources : list BuildSource.t) :
  str_format
    (if String.eqb sys_platform "win32" then shim_template_windows else shim_template_unix)
    [("modname", "CPy"); ("full_modname", exported_name "CPy")]
  = Return text →
  ∀ acc w r w',
    for_each sources (shim_extension shared "build" cflags) acc w = (Return r, w') →
    fs w !! "build/CPy.c" = Some (File text) →
    fs w' !! "build/CPy.c" = Some (File text).
Proof.
  intros Htext. induction sources as [|source sources IH]; intros acc w r w' Hrun Hfile.
  - injection Hrun as _ <-. exact Hfile.
  - cbn [for_each] in Hrun. apply bind_returned in Hrun as (acc1 & w1 & Hstep & Hrun).
    eapply IH; [exact Hrun|].
    pose proof (shim_extension_returned _ _ _ _ _ _ _ _ Hstep) as Hpath.
    destruct (shim_extension_run shared "build" cflags acc source w Hpath)
      as (text1 & Htext1 & Hstep1).
    rewrite Hstep in Hstep1. injection Hstep1 as _ ->. cbn [fs].
    destruct (decide (shim_path "build" source = "build/CPy.c")) as [Heq|Hne].
    + rewrite Heq, lookup_insert_eq.
      rewrite (shim_path_runtime _ Heq) in Htext1.
      change (last_component "CPy") with "CPy" in Htext1. congruence.
    + now rewrite lookup_insert_ne.
Qed.

(** A module named [CPy] has its shim written to [build/CPy.c]. *)
Lemma shim_loop_writes_shim shared cflags (text : string) (sources : list BuildSource.t) :
  str_format
    (if String.eqb sys_platform "win32" then shim_template_windows else shim_template_unix)
    [("modname", "CPy"); ("full_modname", exported_name "CPy")]
  = Return text →
  Exists (fun source => BuildSource.module source = "CPy") sources →
  ∀ acc w r w',
    for_each sources (shim_extension shared "build" cflags) acc w = (Return r, w') →
    fs w' !! "build/CPy.c" = Some (File text).
Proof.
  intros Htext Hexists.
  induction Hexists as [source sources Hmodule|source sources _ IH];
    intros acc w r w' Hrun.
  - cbn [for_each] in Hrun. apply bind_returned in Hrun as (acc1 & w1 & Hstep & Hrun).
    eapply shim_loop_keeps_shim; [exact Htext|exact Hrun|].
    pose proof (shim_extension_returned _ _ _ _ _ _ _ _ Hstep) as Hpath.
    destruct (shim_extension_run shared "build" cflags acc source w Hpath)
      as (text1 & Htext1 & Hstep1).
    rewrite Hstep in Hstep1. injection Hstep1 as _ ->. cbn [fs].
    rewrite Hmodule in Htext1. change (last_component "CPy") with "CPy" in Htext1.
    assert (text1 = text) as -> by congruence.
    unfold shim_path. rewrite Hmodule.
    change (posixpath.join "build" [Py.str_replace "." "___" "CPy" +:+ ".c"])
      with "build/CPy.c".
    apply lookup_insert_eq.
  - cbn [for_each] in Hrun. apply bind_returned in Hrun as (acc1 & w1 & Hstep & Hrun).
    eapply IH, Hrun.
Qed.

End runtime_source.

(** X17: in a Shared build a module named [CPy] has its shim written
    over the copy of the runtime source: when the module set that mypy
    answers to the build has such a module and the build returns,
    [build/CPy.c] is among the sources of the shared library, and what it
    holds is the shim of the module [CPy]. *)
Theorem runtime_source_overwritten {E : External} (sources : list BuildSource.t)
    (options : Options.t) (paths : list string) (mypy_options : option loc)
    (opt_level : string) (multi_file skip_cgen verbose strip_asserts : bool)
    (w w' : world) (exts : list loc) :
  mypy_answer paths mypy_options w = Return (sources, options) →
  use_shared_lib sources = true →
  Exists (fun source => BuildSource.module source = "CPy") sources →
  mypycify paths mypy_options opt_level multi_file skip_cgen verbose strip_asserts w
  = (Return exts, w') →
  ∃ shared shims e text,
    exts = shared :: shims
    ∧ extensions w' !! shared = Some e
    ∧ MypycifyExtension.is_mypyc_shared e = true
    ∧ "build/CPy.c" ∈ MypycifyExtension.sources e
    ∧ str_format
        (if String.eqb sys_platform "win32" then shim_template_windows
         else shim_template_unix)
        [("modname", "CPy"); ("full_modname", exported_name "CPy")]
      = Return text
    ∧ fs w' !! "build/CPy.c" = Some (File text).
Proof.
  intros Hanswer Hshared Hexists Hrun.
  apply mypycify_returned_answer in Hrun
    as (compiler & ss & oo & w3 & cfilenames & cflags & w4
        & Hanswer' & _ & _ & _ & Houtputs & Hdispatch).
  rewrite Hanswer in Hanswer'. injection Hanswer' as <- <-.
  destruct (outputs_returned _ _ _ _ _ _ _ _ _ _ _ _ Houtputs) as (cf0 & c & -> & _).
  destruct (dispatch_returned _ _ _ _ _ _ Hdispatch)
    as (shared & shims & e & -> & He & _ & Hsources & _ & _ & Hmark).
  destruct (shim_template_formats sys_platform "CPy" (exported_name "CPy")) as [text Htext].
  exists shared, shims, e, text. split; [reflexivity|]. split; [exact He|].
  split; [now rewrite Hmark|]. split; [|split; [exact Htext|]].
  - rewrite Hsources. apply elem_of_app. right. left.
  - unfold dispatch in Hdispatch. rewrite Hshared in Hdispatch.
    destruct (shared_lib_name (map BuildSource.module sources)); [discriminate Hdispatch|].
    unfold build_using_shared_lib in Hdispatch.
    apply bind_returned in Hdispatch as (r0 & w5 & _ & Hloop).
    eapply shim_loop_writes_shim; eauto.
Qed.

Lemma runtime_source_overwritten_witness :
  ∃ exts w',
    @mypycify linux_host ["CPy.py"; "foo.py"] None "3" false false false false
      (initial_world ["CPy.py"; "foo.py"])
    = (Return exts, w')
    ∧ fs (initial_world ["CPy.py"; "foo.py"]) !! "/opt/mypyc/lib-rt/CPy.c"
      = Some (File "/* runtime */")
    ∧ fs w' !! "build/CPy.c"
      = Some (File "#include <Python.h>

PyObject *CPyInit_CPy(void);

PyMODINIT_FUNC
PyInit_CPy(void)
{
    return CPyInit_CPy();
}
").
Proof.
  destruct (@mypycify linux_host ["CPy.py"; "foo.py"] None "3" false false false false
              (initial_world ["CPy.py"; "foo.py"]))
    as [[exts|e] w'] eqn:Hrun;
    [|apply (f_equal fst) in Hrun; vm_compute in Hrun; discriminate Hrun].
  destruct (@runtime_source_overwritten linux_host
              [BuildSource.mk (Some "CPy.py") "CPy"; BuildSource.mk (Some "foo.py") "foo"]
              default_options
              ["CPy.py"; "foo.py"] None "3" false false false false
              (initial_world ["CPy.py"; "foo.py"]) w' exts)
    as (shared & shims & e & text & _ & _ & _ & _ & Htext & Hfile);
    [vm_compute; reflexivity|reflexivity|left; reflexivity|exact Hrun|].
  exists exts, w'. split; [reflexivity|]. split; [vm_compute; reflexivity|].
  rewrite Hfile. f_equal. f_equal.
  vm_compute in Htext. now injection Htext as <-.
Defined.

(** X18: when the type checker raises [CompileError] at its call in a
    build with C generation, the build ends with
    [sys.exit('Typechecking failure')] after the messages are printed; no
    descriptor has been produced, and the file system has changed by the
    build directory only. *)
Theorem typecheck_failure_exits {E : External} (paths : list string)
    (mypy_options : option loc) (opt_level : string)
    (multi_file verbose strip_asserts : bool) (w w1 : world)
    (compiler : Compiler.t) (sources : list BuildSource.t) (options : Options.t)
    (messages : list string) :
  setup_mypycify_vars w = (Return tt, w1) →
  new_compiler = Return compiler →
  live mypy_options w →
  mypy_answer paths mypy_options w = Return (sources, options) →
  unsupported options = false →
  parse_and_typecheck (build_files w) sources (configured sources options)
  = Raise (CompileError messages) →
  ∃ w',
    mypycify paths mypy_options opt_level multi_file false verbose strip_asserts w
    = (Raise (SystemExit (ExitMessage "Typechecking failure")), w')
    ∧ stdout w' = stdout w ++ messages
    ∧ extensions w' = extensions w
    ∧ fs w' = build_files w.
Proof.
  intros Hsetup Hcompiler Hlive Hanswer Hsupported Hcheck.
  rewrite mypycify_stages. unfold mypycify_staged.
  destruct (prepare_run paths w w1 compiler Hsetup Hcompiler)
    as (w2 & Hprepare & Hfs & Hlists & Hext & Hout).
  rewrite (bind_returns _ _ _ _ _ Hprepare). cbn beta iota.
  destruct (configuration_run paths mypy_options w w2 Hfs Hlists Hlive) as (r & Hconfig).
  rewrite Hanswer in Hconfig. unfold unsupported in Hsupported.
  apply orb_false_iff in Hsupported as [Hversion Hstrict].
  rewrite Hversion, Hstrict in Hconfig.
  rewrite (bind_returns _ _ _ _ _ Hconfig). cbn beta iota.
  unfold outputs. cbn [negb].
  match goal with
  | |- context [generate_c ?s ?o ?l ?c] =>
      pose proof (generate_c_fails s o l c) as Hgen
  end.
  match goal with
  | |- context [set_lists ?f w2] =>
      specialize (Hgen (set_lists f w2) (CompileError messages))
  end.
  unfold set_lists at 1 in Hgen. cbn [fs] in Hgen. rewrite Hfs in Hgen.
  specialize (Hgen Hcheck). cbn iota in Hgen.
  erewrite bind_raises; [|erewrite bind_raises; [reflexivity|]; erewrite bind_raises;
                          [reflexivity|exact Hgen]].
  eexists. split; [reflexivity|]. cbn. rewrite Hout, Hext, Hfs. auto.
Qed.

Lemma typecheck_failure_exits_witness :
  ∃ w',
    @mypycify (with_type_errors ["foo.py:1: error: Unsupported operand"] linux_host)
      ["foo.py"] None "3" false false false false (initial_world ["foo.py"])
    = (Raise (SystemExit (ExitMessage "Typechecking failure")), w')
    ∧ stdout w' = ["foo.py:1: error: Unsupported operand"]
    ∧ extensions w' = ∅
    ∧ fs w' !! "build" = Some Dir.
Proof.
  destruct (@typecheck_failure_exits
              (with_type_errors ["foo.py:1: error: Unsupported operand"] linux_host)
              ["foo.py"] None "3" false false false
              (initial_world ["foo.py"]) (initial_world ["foo.py"])
              (Compiler.mk "unix" ["gcc"]) lone_source default_options
              ["foo.py:1: error: Unsupported operand"])
    as (w' & Hrun & Hout & Hext & Hfs);
    [reflexivity|reflexivity|exact I|vm_compute; reflexivity|reflexivity|reflexivity|].
  exists w'. split; [exact Hrun|]. split; [exact Hout|]. split; [exact Hext|].
  rewrite Hfs. vm_compute. reflexivity.
Defined.

(** ** MypycifyBuildExt.build_extension *)

Lemma rt_lib_path_steps (ext : MypycifyExtension.t) :
  MypycifyBuildExt._get_rt_lib_path ext = Return (parent_steps (MypycifyExtension.name ext)).
Proof.
  unfold MypycifyBuildExt._get_rt_lib_path, parent_steps.
  rewrite str_split_length.
  destruct (Py.str_count "." (MypycifyExtension.name ext)) as [|d]; [reflexivity|].
  replace (S (S d) - 1)%nat with (S d) by lia.
  change (1 <? S (S d))%nat with true. cbn [repeat MypycifyBuildExt.os_path_join_args].
  f_equal. apply (join_parents d "").
Qed.

Lemma attribute_insert (m : gmap loc (list string)) (r : loc) (v : list string) :
  attribute (<[r := v]> m) r = v.
Proof. unfold attribute. now rewrite lookup_insert_eq. Qed.

Section build_ext_run.
Context {E : External} {D : Distutils}.

Lemma lbind_returns {A B} (m : L A) (k : A → L B) (s s1 : link_world) (a : A) :
  m s = (Return a, s1) → lbind m k s = k a s1.
Proof. unfold lbind. now intros ->. Qed.

(** The first block of [build_extension] on a platform other than win32. *)
Lemma link_to_shared_lib_run (ext target : loc) (e t : MypycifyExtension.t)
    (shared_dir shared_file : string) (s : link_world) :
  sys_platform ≠ "win32" →
  extensions (base s) !! target = Some t →
  posixpath.split (get_ext_fullpath (MypycifyExtension.name t)) = (shared_dir, shared_file) →
  link_to_shared_lib ext e target s
  = (Return (parent_steps (MypycifyExtension.name e), shared_file),
     let b := shim_c_build ext e shared_dir shared_file s in
     LinkWorld (base s)
       (<[ext := built_libraries b]> (libraries s))
       (<[ext := built_library_dirs b]> (library_dirs s))
       (if String.eqb sys_platform "linux"
        then <[ext := built_runtime_library_dirs b]> (runtime_library_dirs s)
        else runtime_library_dirs s)
       (c_builds s) (calls s)).
Proof.
  intros Hplatform Ht Hsplit. apply String.eqb_neq in Hplatform.
  unfold link_to_shared_lib.
  erewrite lbind_returns by (unfold llift; now rewrite rt_lib_path_steps).
  erewrite lbind_returns by (unfold the_extension; now rewrite Ht).
  rewrite Hsplit, Hplatform.
  erewrite lbind_returns by (erewrite lbind_returns by reflexivity; reflexivity).
  unfold shim_c_build. cbn [built_libraries built_library_dirs built_runtime_library_dirs].
  destruct (String.eqb sys_platform "linux").
  - erewrite lbind_returns by reflexivity. reflexivity.
  - erewrite lbind_returns by reflexivity. reflexivity.
Qed.

Lemma shim_build_run (ext target : loc) (e t : MypycifyExtension.t)
    (shared_dir shared_file : string) (s : link_world) :
  sys_platform ≠ "win32" →
  extensions (base s) !! ext = Some e →
  MypycifyExtension.mypyc_shared_target e = Some target →
  extensions (base s) !! target = Some t →
  posixpath.split (get_ext_fullpath (MypycifyExtension.name t)) = (shared_dir, shared_file) →
  build_extension ext s
  = match super_build_extension (fs (base s)) (shim_c_build ext e shared_dir shared_file s) with
    | Raise x => (Raise x, shim_built ext e shared_dir shared_file s)
    | Return _ =>
        if String.eqb sys_platform "darwin" then
          let out_path := get_ext_fullpath (MypycifyExtension.name e) in
          lbind
            (if MypycifyExtension.is_mypyc_shared e then
               subprocess_check_call
                 ["install_name_tool"; "-id"; snd (posixpath.split out_path); out_path]
             else lret tt)
            (fun _ =>
               subprocess_check_call
                 ["install_name_tool"; "-change"; shared_file;
                  posixpath.join "@loader_path"
                    [parent_steps (MypycifyExtension.name e); shared_file];
                  out_path])
            (shim_built ext e shared_dir shared_file s)
        else (Return tt, shim_built ext e shared_dir shared_file s)
    end.
Proof.
  intros Hplatform Hext Htarget Ht Hsplit.
  unfold build_extension.
  erewrite lbind_returns by (unfold the_extension; now rewrite Hext).
  rewrite Htarget.
  erewrite lbind_returns
    by (erewrite lbind_returns
          by (now apply (link_to_shared_lib_run ext target e t shared_dir shared_file));
        reflexivity).
  cbv zeta.
  unfold lbind at 1. unfold run_c_build. unfold lbind at 1. unfold the_extension.
  cbv beta zeta. cbn [base libraries library_dirs runtime_library_dirs c_builds calls].
  rewrite Hext. cbv beta zeta iota.
  cbn [base libraries library_dirs runtime_library_dirs c_builds calls].
  rewrite !attribute_insert.
  assert (Hrt : attribute
                  (if String.eqb sys_platform "linux"
                   then <[ext := built_runtime_library_dirs
                                   (shim_c_build ext e shared_dir shared_file s)]>
                          (runtime_library_dirs s)
                   else runtime_library_dirs s) ext
                = built_runtime_library_dirs (shim_c_build ext e shared_dir shared_file s)).
  { unfold shim_c_build. cbn [built_runtime_library_dirs].
    destruct (String.eqb sys_platform "linux");
      [apply attribute_insert|now rewrite app_nil_r]. }
  rewrite Hrt.
  change (CBuild ext e (built_libraries (shim_c_build ext e shared_dir shared_file s))
            (built_library_dirs (shim_c_build ext e shared_dir shared_file s))
            (built_runtime_library_dirs (shim_c_build ext e shared_dir shared_file s)))
    with (shim_c_build ext e shared_dir shared_file s).
  fold (shim_built ext e shared_dir shared_file s).
  destruct (super_build_extension _ _); [|reflexivity].
  now destruct (String.eqb sys_platform "darwin").
Qed.

(** The build of an extension that refers to no shared library. *)
Lemma plain_build_run (ext : loc) (e : MypycifyExtension.t) (s : link_world) :
  extensions (base s) !! ext = Some e →
  MypycifyExtension.mypyc_shared_target e = None →
  let b := CBuild ext e (attribute (libraries s) ext) (attribute (library_dirs s) ext)
             (attribute (runtime_library_dirs s) ext) in
  let s1 := LinkWorld (base s) (libraries s) (library_dirs s) (runtime_library_dirs s)
              (c_builds s ++ [b]) (calls s) in
  build_extension ext s
  = match super_build_extension (fs (base s)) b with
    | Raise x => (Raise x, s1)
    | Return _ =>
        if (String.eqb sys_platform "darwin" && MypycifyExtension.is_mypyc_shared e)%bool
        then
          subprocess_check_call
            ["install_name_tool"; "-id";
             snd (posixpath.split (get_ext_fullpath (MypycifyExtension.name e)));
             get_ext_fullpath (MypycifyExtension.name e)] s1
        else (Return tt, s1)
    end.
Proof.
  intros Hext Htarget b s1.
  unfold build_extension.
  erewrite lbind_returns by (unfold the_extension; now rewrite Hext).
  rewrite Htarget.
  erewrite lbind_returns by reflexivity.
  unfold lbind at 1. unfold run_c_build. unfold lbind at 1. unfold the_extension.
  rewrite Hext. cbv beta zeta iota. fold b. fold s1.
  destruct (super_build_extension _ _); [|reflexivity].
  destruct (String.eqb sys_platform "darwin"); [|reflexivity].
  destruct (MypycifyExtension.is_mypyc_shared e); cbn [andb].
  - unfold lbind, subprocess_check_call, lret.
    now destruct (check_call _) as [[]|].
  - reflexivity.
Qed.

End build_ext_run.

(** X19: on linux the C build of a shim is handed the link attributes
    with one more item each: the name of the shared library without its
    first three characters and its extension among the libraries, its
    directory among the library directories, and [$ORIGIN/] followed by the
    parent-directory steps of the shim among the runtime library
    directories. The items stay in the attributes, the outcome is that of
    the C build, and no external command is called. *)
Theorem linux_shim_link {E : External} {D : Distutils} (ext target : loc)
    (e t : MypycifyExtension.t) (shared_dir shared_file : string) (s : link_world) :
  sys_platform = "linux" →
  extensions (base s) !! ext = Some e →
  MypycifyExtension.mypyc_shared_target e = Some target →
  extensions (base s) !! target = Some t →
  posixpath.split (get_ext_fullpath (MypycifyExtension.name t)) = (shared_dir, shared_file) →
  let b := CBuild ext e
             (attribute (libraries s) ext
              ++ [Py.slice_from 3 (fst (posixpath.splitext shared_file))])
             (attribute (library_dirs s) ext ++ [shared_dir])
             (attribute (runtime_library_dirs s) ext
              ++ ["$ORIGIN/" +:+ parent_steps (MypycifyExtension.name e)]) in
  ∃ s',
    build_extension ext s = (super_build_extension (fs (base s)) b, s')
    ∧ base s' = base s
    ∧ c_builds s' = c_builds s ++ [b]
    ∧ calls s' = calls s
    ∧ attribute (libraries s') ext = built_libraries b
    ∧ attribute (library_dirs s') ext = built_library_dirs b
    ∧ attribute (runtime_library_dirs s') ext = built_runtime_library_dirs b.
Proof.
  intros Hlinux Hext Htarget Ht Hsplit b.
  rewrite (shim_build_run ext target e t shared_dir shared_file s)
    by (auto; rewrite Hlinux; discriminate).
  unfold shim_built, shim_c_build. rewrite Hlinux.
  change (String.eqb "linux" "linux") with true.
  change (String.eqb "linux" "darwin") with false. cbv iota. fold b.
  eexists. split; [now destruct (super_build_extension _ b) as [[]|x]|].
  cbn [base libraries library_dirs runtime_library_dirs c_builds calls
       built_libraries built_library_dirs built_runtime_library_dirs].
  rewrite !attribute_insert. repeat split.
Qed.

Lemma linux_shim_link_witness :
  ∃ s',
    @build_extension linux_host plain_distutils 1%nat linked_world = (Return tt, s')
    ∧ c_builds s'
      = [CBuild 1%nat (MypycifyExtension.mk "a.b" ["build/a___b.c"] [] [] false (Some 0%nat))
           ["mypyc_0"] ["build/lib"] ["$ORIGIN/.."]]
    ∧ calls s' = [].
Proof.
  destruct (@linux_shim_link linux_host plain_distutils 1%nat 0%nat
              (MypycifyExtension.mk "a.b" ["build/a___b.c"] [] [] false (Some 0%nat))
              (MypycifyExtension.mk "libmypyc_0" ["build/CPy.c"] [] [] true None)
              "build/lib" "libmypyc_0.so" linked_world)
    as (s' & Hrun & _ & Hbuilds & Hcalls & _); try reflexivity.
  exists s'. split; [exact Hrun|]. split; [exact Hbuilds|exact Hcalls].
Defined.

(** X20: on darwin the shim gets no runtime library directory; once its
    C build has returned, [install_name_tool -change] is called once, on
    the artifact of the shim, to replace the file name of the shared
    library by its path from [@loader_path] through the parent-directory
    steps of the shim. The outcome is that of the call. *)
Theorem darwin_shim_patch {E : External} {D : Distutils} (ext target : loc)
    (e t : MypycifyExtension.t) (shared_dir shared_file : string) (s : link_world) :
  sys_platform = "darwin" →
  extensions (base s) !! ext = Some e →
  MypycifyExtension.mypyc_shared_target e = Some target →
  MypycifyExtension.is_mypyc_shared e = false →
  extensions (base s) !! target = Some t →
  posixpath.split (get_ext_fullpath (MypycifyExtension.name t)) = (shared_dir, shared_file) →
  let b := CBuild ext e
             (attribute (libraries s) ext
              ++ [Py.slice_from 3 (fst (posixpath.splitext shared_file))])
             (attribute (library_dirs s) ext ++ [shared_dir])
             (attribute (runtime_library_dirs s) ext) in
  let cmd := ["install_name_tool"; "-change"; shared_file;
              posixpath.join "@loader_path"
                [parent_steps (MypycifyExtension.name e); shared_file];
              get_ext_fullpath (MypycifyExtension.name e)] in
  super_build_extension (fs (base s)) b = Return tt →
  ∃ s',
    build_extension ext s = (check_call cmd, s')
    ∧ c_builds s' = c_builds s ++ [b]
    ∧ calls s' = calls s ++ [cmd]
    ∧ runtime_library_dirs s' = runtime_library_dirs s.
Proof.
  intros Hdarwin Hext Htarget Hshared Ht Hsplit b cmd Hbuild.
  rewrite (shim_build_run ext target e t shared_dir shared_file s)
    by (auto; rewrite Hdarwin; discriminate).
  unfold shim_built, shim_c_build. rewrite Hdarwin.
  change (String.eqb "darwin" "linux") with false.
  change (String.eqb "darwin" "darwin") with true. cbv iota.
  rewrite app_nil_r. fold b. rewrite Hbuild, Hshared. cbv zeta.
  erewrite lbind_returns by reflexivity. fold cmd.
  unfold subprocess_check_call.
  cbn [base libraries library_dirs runtime_library_dirs c_builds calls].
  eexists. repeat split.
Qed.

Lemma darwin_shim_patch_witness :
  ∃ s',
    @build_extension (on_platform "darwin" linux_host) plain_distutils 1%nat linked_world
    = (Return tt, s')
    ∧ calls s'
      = [["install_name_tool"; "-change"; "libmypyc_0.so"; "@loader_path/../libmypyc_0.so";
          "build/lib/a/b.so"]]
    ∧ runtime_library_dirs s' = ∅.
Proof.
  destruct (@darwin_shim_patch (on_platform "darwin" linux_host) plain_distutils 1%nat 0%nat
              (MypycifyExtension.mk "a.b" ["build/a___b.c"] [] [] false (Some 0%nat))
              (MypycifyExtension.mk "libmypyc_0" ["build/CPy.c"] [] [] true None)
              "build/lib" "libmypyc_0.so" linked_world)
    as (s' & Hrun & _ & Hcalls & Hdirs); try reflexivity.
  exists s'. split; [exact Hrun|]. split; [exact Hcalls|exact Hdirs].
Defined.

(** X21: on darwin, once the C build of the shared library has returned,
    [install_name_tool -id] is called once to set the name of the artifact
    to its base name; the link attributes are left as they are and the
    outcome is that of the call. *)
Theorem darwin_shared_lib_id {E : External} {D : Distutils} (ext : loc)
    (e : MypycifyExtension.t) (s : link_world) :
  sys_platform = "darwin" →
  extensions (base s) !! ext = Some e →
  MypycifyExtension.mypyc_shared_target e = None →
  MypycifyExtension.is_mypyc_shared e = true →
  let b := CBuild ext e (attribute (libraries s) ext) (attribute (library_dirs s) ext)
             (attribute (runtime_library_dirs s) ext) in
  let out_path := get_ext_fullpath (MypycifyExtension.name e) in
  let cmd := ["install_name_tool"; "-id"; snd (posixpath.split out_path); out_path] in
  super_build_extension (fs (base s)) b = Return tt →
  ∃ s',
    build_extension ext s = (check_call cmd, s')
    ∧ c_builds s' = c_builds s ++ [b]
    ∧ calls s' = calls s ++ [cmd]
    ∧ libraries s' = libraries s
    ∧ library_dirs s' = library_dirs s
    ∧ runtime_library_dirs s' = runtime_library_dirs s.
Proof.
  intros Hdarwin Hext Htarget Hshared b out_path cmd Hbuild.
  rewrite (plain_build_run ext e s Hext Htarget). cbv zeta. fold b.
  rewrite Hbuild, Hdarwin, Hshared.
  change (String.eqb "darwin" "darwin" && true)%bool with true. cbv iota.
  fold out_path. fold cmd. unfold subprocess_check_call.
  eexists. repeat split.
Qed.

Lemma darwin_shared_lib_id_witness :
  ∃ s',
    @build_extension (on_platform "darwin" linux_host) plain_distutils 0%nat linked_world
    = (Return tt, s')
    ∧ calls s'
      = [["install_name_tool"; "-id"; "libmypyc_0.so"; "build/lib/libmypyc_0.so"]]
    ∧ libraries s' = ∅.
Proof.
  destruct (@darwin_shared_lib_id (on_platform "darwin" linux_host) plain_distutils 0%nat
              (MypycifyExtension.mk "libmypyc_0" ["build/CPy.c"] [] [] true None)
              linked_world)
    as (s' & Hrun & _ & Hcalls & Hlibraries & _); try reflexivity.
  exists s'. split; [exact Hrun|]. split; [exact Hcalls|exact Hlibraries].
Defined.

(** X22: on a platform other than darwin, the build of an extension that
    refers to no shared library is the C build of distutils and nothing
    more: the same outcome, the link attributes as they were, no external
    command. *)
Theorem inherited_build {E : External} {D : Distutils} (ext : loc)
    (e : MypycifyExtension.t) (s : link_world) :
  sys_platform ≠ "darwin" →
  extensions (base s) !! ext = Some e →
  MypycifyExtension.mypyc_shared_target e = None →
  let b := CBuild ext e (attribute (libraries s) ext) (attribute (library_dirs s) ext)
             (attribute (runtime_library_dirs s) ext) in
  build_extension ext s
  = (super_build_extension (fs (base s)) b,
     LinkWorld (base s) (libraries s) (library_dirs s) (runtime_library_dirs s)
       (c_builds s ++ [b]) (calls s)).
Proof.
  intros Hplatform Hext Htarget b.
  rewrite (plain_build_run ext e s Hext Htarget). cbv zeta. fold b.
  apply String.eqb_neq in Hplatform. rewrite Hplatform. cbn [andb].
  now destruct (super_build_extension _ b) as [[]|x].
Qed.

Lemma inherited_build_witness :
  @build_extension linux_host failing_distutils 0%nat linked_world
  = (Raise (ExternalError "CompileError"),
     LinkWorld (base linked_world) ∅ ∅ ∅
       [CBuild 0%nat (MypycifyExtension.mk "libmypyc_0" ["build/CPy.c"] [] [] true None)
          [] [] []]
       []).
Proof.
  apply (@inherited_build linux_host failing_distutils 0%nat
           (MypycifyExtension.mk "libmypyc_0" ["build/CPy.c"] [] [] true None) linked_world).
  - discriminate.
  - reflexivity.
  - reflexivity.
Defined.

(** X23: when the C build of a shim raises, [build_extension] raises the
    same exception and calls no external command, on darwin too; what was
    appended to the libraries and the library directories of the shim
    stays there. *)
Theorem failed_c_build {E : External} {D : Distutils} (ext target : loc)
    (e t : MypycifyExtension.t) (shared_dir shared_file : string) (s : link_world)
    (x : exn) :
  sys_platform ≠ "win32" →
  extensions (base s) !! ext = Some e →
  MypycifyExtension.mypyc_shared_target e = Some target →
  extensions (base s) !! target = Some t →
  posixpath.split (get_ext_fullpath (MypycifyExtension.name t)) = (shared_dir, shared_file) →
  let b := CBuild ext e
             (attribute (libraries s) ext
              ++ [Py.slice_from 3 (fst (posixpath.splitext shared_file))])
             (attribute (library_dirs s) ext ++ [shared_dir])
             (attribute (runtime_library_dirs s) ext
              ++ (if String.eqb sys_platform "linux"
                  then ["$ORIGIN/" +:+ parent_steps (MypycifyExtension.name e)]
                  else [])) in
  super_build_extension (fs (base s)) b = Raise x →
  ∃ s',
    build_extension ext s = (Raise x, s')
    ∧ calls s' = calls s
    ∧ c_builds s' = c_builds s ++ [b]
    ∧ attribute (libraries s') ext = built_libraries b
    ∧ attribute (library_dirs s') ext = built_library_dirs b.
Proof.
  intros Hplatform Hext Htarget Ht Hsplit b Hbuild.
  rewrite (shim_build_run ext target e t shared_dir shared_file s) by auto.
  change (shim_c_build ext e shared_dir shared_file s) with b.
  rewrite Hbuild. eexists. split; [reflexivity|].
  unfold shim_built.
  cbn [base libraries library_dirs runtime_library_dirs c_builds calls].
  rewrite !attribute_insert. repeat split.
Qed.

Lemma failed_c_build_witness :
  (∃ s0, @build_extension (on_platform "darwin" linux_host) picky_distutils 0%nat linked_world
         = (Return tt, s0))
  ∧ ∃ s',
      @build_extension (on_platform "darwin" linux_host) picky_distutils 1%nat linked_world
      = (Raise (ExternalError "CompileError"), s')
      ∧ calls s' = []
      ∧ attribute (libraries s') 1%nat = ["mypyc_0"].
Proof.
  split; [eexists; vm_compute; reflexivity|].
  destruct (@failed_c_build (on_platform "darwin" linux_host) picky_distutils 1%nat 0%nat
              (MypycifyExtension.mk "a.b" ["build/a___b.c"] [] [] false (Some 0%nat))
              (MypycifyExtension.mk "libmypyc_0" ["build/CPy.c"] [] [] true None)
              "build/lib" "libmypyc_0.so" linked_world (ExternalError "CompileError"))
    as (s' & Hrun & Hcalls & _ & Hlibraries & _); try reflexivity; [discriminate|].
  exists s'. split; [exact Hrun|]. split; [exact Hcalls|exact Hlibraries].
Defined.

(** X24: [build_extension] does not look at what the link attributes
    hold already: building a shim twice on linux leaves the library, the
    library directory and the runtime library directory twice in its
    attributes, whatever the outcomes of the two C builds. *)
Theorem link_attributes_accumulate {E : External} {D : Distutils} (ext target : loc)
    (e t : MypycifyExtension.t) (shared_dir shared_file : string) (s : link_world) :
  sys_platform = "linux" →
  extensions (base s) !! ext = Some e →
  MypycifyExtension.mypyc_shared_target e = Some target →
  extensions (base s) !! target = Some t →
  posixpath.split (get_ext_fullpath (MypycifyExtension.name t)) = (shared_dir, shared_file) →
  let s2 := snd (build_extension ext (snd (build_extension ext s))) in
  attribute (libraries s2) ext
  = attribute (libraries s) ext
    ++ [Py.slice_from 3 (fst (posixpath.splitext shared_file));
        Py.slice_from 3 (fst (posixpath.splitext shared_file))]
  ∧ attribute (library_dirs s2) ext
    = attribute (library_dirs s) ext ++ [shared_dir; shared_dir]
  ∧ attribute (runtime_library_dirs s2) ext
    = attribute (runtime_library_dirs s) ext
      ++ ["$ORIGIN/" +:+ parent_steps (MypycifyExtension.name e);
          "$ORIGIN/" +:+ parent_steps (MypycifyExtension.name e)]
  ∧ length (c_builds s2) = S (S (length (c_builds s))).
Proof.
  intros Hlinux Hext Htarget Ht Hsplit.
  assert (Hplatform : sys_platform ≠ "win32") by (rewrite Hlinux; discriminate).
  assert (Hrun : ∀ s0, base s0 = base s →
            snd (build_extension ext s0) = shim_built ext e shared_dir shared_file s0).
  { intros s0 Hbase.
    rewrite (shim_build_run ext target e t shared_dir shared_file s0)
      by (rewrite ?Hbase; auto).
    rewrite Hlinux. change (String.eqb "linux" "darwin") with false.
    now destruct (super_build_extension _ _). }
  cbv zeta. rewrite (Hrun s eq_refl).
  rewrite (Hrun (shim_built ext e shared_dir shared_file s) eq_refl).
  unfold shim_built, shim_c_build. rewrite Hlinux.
  change (String.eqb "linux" "linux") with true. cbv iota.
  cbn [base libraries library_dirs runtime_library_dirs c_builds calls
       built_libraries built_library_dirs built_runtime_library_dirs].
  rewrite !attribute_insert, <- !app_assoc, !length_app. cbn [length app].
  repeat split. lia.
Qed.

Lemma link_attributes_accumulate_witness :
  fst (@build_extension linux_host picky_distutils 1%nat linked_world)
  = Raise (ExternalError "CompileError")
  ∧ attribute
      (libraries
         (snd (@build_extension linux_host picky_distutils 1%nat
                 (snd (@build_extension linux_host picky_distutils 1%nat linked_world)))))
      1%nat
    = ["mypyc_0"; "mypyc_0"].
Proof.
  split; [vm_compute; reflexivity|].
  apply (@link_attributes_accumulate linux_host picky_distutils 1%nat 0%nat
           (MypycifyExtension.mk "a.b" ["build/a___b.c"] [] [] false (Some 0%nat))
           (MypycifyExtension.mk "libmypyc_0" ["build/CPy.c"] [] [] true None)
           "build/lib" "libmypyc_0.so" linked_world); reflexivity.
Defined.

(** ** common.py *)

Lemma append_cancel_r (a b s : string) : a +:+ s = b +:+ s → a = b.
Proof.
  revert b. induction a as [|x a IH]; intros [|y b] H.
  - reflexivity.
  - apply (f_equal String.length) in H.
    rewrite !append_length in H. simpl in H. lia.
  - apply (f_equal String.length) in H.
    rewrite !append_length in H. simpl in H. lia.
  - rewrite !append_cons in H. injection H as -> H. f_equal. now apply IH.
Qed.

(** X25: [decorator_helper_name] gives different functions different
    helper names. *)
Theorem decorator_helper_name_injective (f g : string) :
  common.decorator_helper_name f = common.decorator_helper_name g → f = g.
Proof.
  unfold common.decorator_helper_name. intros H.
  rewrite !append_cons in H. injection H as H.
  change ("" +:+ ?x) with x in H.
  now apply append_cancel_r in H.
Qed.

Lemma decorator_helper_name_injective_witness :
  common.decorator_helper_name "f" = "__mypyc_f_decorator_helper__"
  ∧ ("f" = "f" :> string).
Proof.
  split; [reflexivity|].
  apply (decorator_helper_name_injective "f" "f"). reflexivity.
Defined.

(** X26: a helper name is none of the reserved names of common.py: the
    three attribute names, the names of lambdas and of [self], and the
    name of the top level. *)
Theorem decorator_helper_name_not_reserved (f : string) :
  common.decorator_helper_name f
  ∉ [common.ENV_ATTR_NAME; common.NEXT_LABEL_ATTR_NAME; common.TEMP_ATTR_NAME;
     common.LAMBDA_NAME; common.SELF_NAME; common.TOP_LEVEL_NAME].
Proof.
  assert (Hlength : (27 <= String.length (common.decorator_helper_name f))%nat).
  { unfold common.decorator_helper_name. rewrite !append_length.
    change (String.length "__mypyc_") with 8%nat.
    change (String.length "_decorator_helper__") with 19%nat. lia. }
  rewrite !elem_of_cons, elem_of_nil.
  intros [H|[H|[H|[H|[H|[H|[]]]]]]]; rewrite H in Hlength; vm_compute in Hlength; lia.
Qed.

Lemma decorator_helper_name_not_reserved_witness :
  common.decorator_helper_name "env"
  ∉ ["__mypyc_env__"; "__mypyc_next_label__"; "__mypyc_temp__"; "__mypyc_lambda__";
     "__mypyc_self__"; "__top_level__"].
Proof. apply (decorator_helper_name_not_reserved "env"). Defined.

(** X27: the six prefixes of C names keep their names apart: two names
    made with different prefixes are different, whatever follows the
    prefixes. *)
Theorem prefixes_keep_apart (p q x y : string) :
  p ∈ [common.PREFIX; common.NATIVE_PREFIX; common.DUNDER_PREFIX; common.REG_PREFIX;
       common.STATIC_PREFIX; common.TYPE_PREFIX] →
  q ∈ [common.PREFIX; common.NATIVE_PREFIX; common.DUNDER_PREFIX; common.REG_PREFIX;
       common.STATIC_PREFIX; common.TYPE_PREFIX] →
  p ≠ q →
  p +:+ x ≠ q +:+ y.
Proof.
  rewrite !elem_of_cons, !elem_of_nil.
  unfold common.PREFIX, common.NATIVE_PREFIX, common.DUNDER_PREFIX, common.REG_PREFIX,
    common.STATIC_PREFIX, common.TYPE_PREFIX.
  intros [->|[->|[->|[->|[->|[->|[]]]]]]] [->|[->|[->|[->|[->|[->|[]]]]]]] Hne H;
    try (now contradiction Hne); rewrite !append_cons in H; discriminate H.
Qed.

Lemma prefixes_keep_apart_witness :
  common.PREFIX +:+ "f" ≠ common.NATIVE_PREFIX +:+ "f".
Proof.
  apply (prefixes_keep_apart common.PREFIX common.NATIVE_PREFIX "f" "f").
  - left.
  - right. left.
  - discriminate.
Defined.
